(** * Booking picker and wizard of [src/App.tsx]: a shallow embedding

    The development follows the source top-down:
    - [JS]        the fragment of the JavaScript runtime the program calls
                  (Number, String, split, padStart, Math, Date);
    - [Slots]     [getAllTimeSlots], [isSlotDisabled], [getAvailableTimeSlots];
    - [Picker]    the state of [DateTimePickerModal]: seeding, the
                  auto-correct effect, [getNextAvailableDate], the OK button;
    - [Desktop]   [DesktopTimePicker.handleKeyDown];
    - [Wheel]     [WheelPicker.handleScroll] and [handleScrollEnd];
    - [Wizard]    [BookPage]: steps, [handleBack], [handleSubmit];
    - [Spec]      the notions the statements are written with;
    - [Modal], [DesktopMore], [WheelMore], [Grid]
                  more of the picker: the date-change effect, [formatSlot],
                  the wheel's scroll effect, the calendar grid;
    - [Book], [Server]
                  the booking page as a whole, with its requests and their
                  answers, and the mail relay of [src/server.js];
    - [SpecMore], [SpecGrid]
                  further notions for the statements.
    The theorems come after the definitions, in the same order. *)

From Stdlib Require Import ZArith List String Ascii Bool Lia QArith Qround Lqa.
From Stdlib Require Import DecimalString DecimalPos.
Import ListNotations.
Local Open Scope string_scope.
Local Open Scope list_scope.
Local Open Scope Z_scope.

(* ================================================================== *)
(** * The runtime fragment *)

Module JS.

(** A JavaScript Number, restricted to the values the program computes
    with: an integer, the two infinities ([Infinity] is the initial
    [minDiff]) and [NaN]. *)
Inductive Num : Type :=
| NaN
| Infinity
| NegInfinity
| Int (z : Z).

Definition neg (a : Num) : Num :=
  match a with
  | NaN => NaN
  | Infinity => NegInfinity
  | NegInfinity => Infinity
  | Int x => Int (- x)
  end.

Definition add (a b : Num) : Num :=
  match a, b with
  | Int x, Int y => Int (x + y)
  | NaN, _ | _, NaN => NaN
  | Infinity, NegInfinity | NegInfinity, Infinity => NaN
  | Infinity, _ | _, Infinity => Infinity
  | NegInfinity, _ | _, NegInfinity => NegInfinity
  end.

Definition sub (a b : Num) : Num := add a (neg b).

(** [a * k] for a finite constant [0 < k] (the products of the program
    are [h * 60]). *)
Definition mulc (a : Num) (k : Z) : Num :=
  match a with
  | Int x => Int (x * k)
  | other => other
  end.

(** [Math.abs]. *)
Definition abs (a : Num) : Num :=
  match a with
  | Int x => Int (Z.abs x)
  | NegInfinity => Infinity
  | other => other
  end.

(** [a < b]: false as soon as one side is [NaN]. *)
Definition lt (a b : Num) : bool :=
  match a, b with
  | Int x, Int y => x <? y
  | Int _, Infinity | NegInfinity, Int _ | NegInfinity, Infinity => true
  | _, _ => false
  end.

(** [a >= b]: false as soon as one side is [NaN]. *)
Definition ge (a b : Num) : bool :=
  match a, b with
  | NaN, _ | _, NaN => false
  | _, _ => negb (lt a b)
  end.

(** [a === b] on Numbers: [NaN] is equal to nothing. *)
Definition strict_eq (a b : Num) : bool :=
  match a, b with
  | Int x, Int y => x =? y
  | Infinity, Infinity | NegInfinity, NegInfinity => true
  | _, _ => false
  end.

(** ** Strings *)

Definition is_digit (c : ascii) : bool :=
  let n := nat_of_ascii c in (48 <=? n)%nat && (n <=? 57)%nat.

Fixpoint all_digits (s : string) : bool :=
  match s with
  | EmptyString => true
  | String c r => is_digit c && all_digits r
  end.

(** [Number(s)] on the strings the program hands to it: the empty string
    is [0], a run of decimal digits is its value, and text that is no
    numeric literal is [NaN].  The other literal forms of the language
    (sign, fraction, exponent, radix prefix, surrounding blanks) are
    outside this fragment, and the [NaN] given for them here is not the
    language's answer: no string the program builds has them, and every
    theorem below that parses a text assumes fields that come out as
    integers, that is digit fields. *)
Definition Number (s : string) : Num :=
  if all_digits s
  then match NilEmpty.uint_of_string s with
       | Some u => Int (Z.of_uint u)
       | None => NaN
       end
  else NaN.

(** [String(n)]. *)
Definition String_ (n : Num) : string :=
  match n with
  | NaN => "NaN"
  | Infinity => "Infinity"
  | NegInfinity => "-Infinity"
  | Int z => NilZero.string_of_int (Z.to_int z)
  end.

Fixpoint repeat_char (c : ascii) (n : nat) : string :=
  match n with
  | O => EmptyString
  | S k => String c (repeat_char c k)
  end.

(** [s.padStart(n, c)] with a one-character filler. *)
Definition padStart (s : string) (n : nat) (c : ascii) : string :=
  (repeat_char c (n - String.length s) ++ s)%string.

(** [s.split(sep)] with a one-character separator: never the empty list. *)
Fixpoint split (sep : ascii) (s : string) : list string :=
  match s with
  | EmptyString => [EmptyString]
  | String c r =>
      if Ascii.eqb c sep then EmptyString :: split sep r
      else match split sep r with
           | [] => [String c EmptyString]
           | w :: ws => String c w :: ws
           end
  end.

(** Array destructuring [[a, b, ...] = parts] followed by arithmetic: a
    missing element is [undefined], which every use in the program turns
    into [NaN]. *)
Definition elem (parts : list Num) (i : nat) : Num := nth i parts NaN.

(** [arr.includes(v)] for an array of strings; [None] is [undefined]. *)
Definition includes (arr : list string) (v : option string) : bool :=
  match v with
  | Some s => existsb (String.eqb s) arr
  | None => false
  end.

(** ** Dates

    A Date holds a time value in milliseconds, or [NaN] ("Invalid Date").
    The program only uses the local-time view of a Date and compares
    [getTime()] results with each other, so the model stores the local
    time value directly: with a constant zone offset [getTime()] differs
    from it by that constant, which cancels in every comparison.  Time
    values stay inside the range where [TimeClip] is the identity. *)

Definition msPerDay : Z := 86400000.
Definition Day (t : Z) : Z := t / msPerDay.
Definition TimeWithinDay (t : Z) : Z := t mod msPerDay.

(** Day number (days since 1970-01-01) of the proleptic Gregorian date
    [y]-[m]-[d], [1 <= m <= 12]. *)
Definition days_from_civil (y m d : Z) : Z :=
  let y' := if m <=? 2 then y - 1 else y in
  let era := y' / 400 in
  let yoe := y' - era * 400 in
  let mp := if 2 <? m then m - 3 else m + 9 in
  let doy := (153 * mp + 2) / 5 + d - 1 in
  let doe := yoe * 365 + yoe / 4 - yoe / 100 + doy in
  era * 146097 + doe - 719468.

(** Year of the era, month (1..12) and day of month of the day [doe] of a
    400-year era that starts on a 1st of March. *)
Definition civil_of_doe (doe : Z) : Z * Z * Z :=
  let yoe := (doe - doe / 1460 + doe / 36524 - doe / 146096) / 365 in
  let doy := doe - (365 * yoe + yoe / 4 - yoe / 100) in
  let mp := (5 * doy + 2) / 153 in
  let d := doy - (153 * mp + 2) / 5 + 1 in
  let m := if mp <? 10 then mp + 3 else mp - 9 in
  (yoe, m, d).

(** Year, month (1..12) and day of month of a day number. *)
Definition civil_from_days (n : Z) : Z * Z * Z :=
  let z := n + 719468 in
  let era := z / 146097 in
  let '(yoe, m, d) := civil_of_doe (z mod 146097) in
  let y := yoe + era * 400 in
  ((if m <=? 2 then y + 1 else y), m, d).

Definition YearFromTime (t : Z) : Z :=
  let '(y, _, _) := civil_from_days (Day t) in y.
(** Month index, [0..11]. *)
Definition MonthFromTime (t : Z) : Z :=
  let '(_, m, _) := civil_from_days (Day t) in m - 1.
Definition DateFromTime (t : Z) : Z :=
  let '(_, _, d) := civil_from_days (Day t) in d.

(** [MakeDay(year, month, date)]: month indices outside [0..11] carry into
    the year, and the day of month counts on from the 1st of the month. *)
Definition MakeDay (year month date : Z) : Z :=
  days_from_civil (year + month / 12) (month mod 12 + 1) 1 + date - 1.

Definition MakeTime (h m s ms : Z) : Z :=
  h * 3600000 + m * 60000 + s * 1000 + ms.

Definition MakeDate (day time : Z) : Z := day * msPerDay + time.

Inductive Date : Type :=
| InvalidDate
| DateAt (t : Z).

Definition getTime (d : Date) : Num :=
  match d with
  | InvalidDate => NaN
  | DateAt t => Int t
  end.

(** [TimeClip]: the time values of a Date are the UTC times within
    8.64e15 ms (100,000,000 days) of the epoch; [tza] is what local time is
    ahead of UTC.  [newDate], [setHours] and [setDate] below are the
    runtime's operations where nothing is clipped, which is the case for
    every local time of the days [Spec.inDateRange] (lemma
    [TimeClip_in_range]); beyond that they yield a Date where the runtime
    yields an invalid one, and the statements about dates built from
    numbers the user chooses carry that range. *)
Definition maxTime : Z := 8640000000000000.

Definition TimeClip (tza t : Z) : Date :=
  if Z.abs (t - tza) <=? maxTime then DateAt t else InvalidDate.

(** [new Date(year, monthIndex, day)]; a year in [0..99] means 19xx. *)
Definition newDate (year monthIndex day : Num) : Date :=
  match year, monthIndex, day with
  | Int y, Int m, Int d =>
      let yr := if (0 <=? y) && (y <=? 99) then 1900 + y else y in
      DateAt (MakeDate (MakeDay yr m d) 0)
  | _, _, _ => InvalidDate
  end.

(** [d.setHours(h, m, s, ms)], as the Date it leaves in [d]. *)
Definition setHours (d : Date) (h m s ms : Num) : Date :=
  match d, h, m, s, ms with
  | DateAt t, Int h, Int m, Int s, Int ms =>
      DateAt (MakeDate (Day t) (MakeTime h m s ms))
  | _, _, _, _, _ => InvalidDate
  end.

Definition getFullYear (d : Date) : Num :=
  match d with
  | InvalidDate => NaN
  | DateAt t => Int (YearFromTime t)
  end.

Definition getMonth (d : Date) : Num :=
  match d with
  | InvalidDate => NaN
  | DateAt t => Int (MonthFromTime t)
  end.

Definition getDate (d : Date) : Num :=
  match d with
  | InvalidDate => NaN
  | DateAt t => Int (DateFromTime t)
  end.

(** [d.setDate(dt)], as the Date it leaves in [d]. *)
Definition setDate (d : Date) (dt : Num) : Date :=
  match d, dt with
  | DateAt t, Int dt =>
      DateAt (MakeDate (MakeDay (YearFromTime t) (MonthFromTime t) dt)
                       (TimeWithinDay t))
  | _, _ => InvalidDate
  end.

(** [d.toDateString()] prints weekday, month, day of month and year of the
    local day ("Tue Nov 03 2026"), or "Invalid Date".  The weekday is a
    function of the other three, so the text is kept as the three fields
    it is built from; two texts are equal iff they agree on them. *)
Inductive DateText : Type :=
| InvalidDateText
| DayText (year month day : Z).

Definition toDateString (d : Date) : DateText :=
  match d with
  | InvalidDate => InvalidDateText
  | DateAt t => DayText (YearFromTime t) (MonthFromTime t) (DateFromTime t)
  end.

Definition DateText_eqb (a b : DateText) : bool :=
  match a, b with
  | InvalidDateText, InvalidDateText => true
  | DayText y m d, DayText y' m' d' => (y =? y') && (m =? m') && (d =? d')
  | _, _ => false
  end.

End JS.

(* ================================================================== *)
(** * Slot generator and availability filter *)

Module Slots.
Import JS.

(** The template literal of [getAllTimeSlots]:
    [`${String(hour).padStart(2, '0')}:${String(minute).padStart(2, '0')}`]. *)
Definition slotText (hour minute : Z) : string :=
  (padStart (String_ (Int hour)) 2 "0" ++ ":"
   ++ padStart (String_ (Int minute)) 2 "0")%string.

(** The inner loop, [for (const minute of [0, 30]) slots.push(...)]. *)
Definition pushMinutes (hour : Z) (slots : list string) : list string :=
  fold_left (fun acc minute => acc ++ [slotText hour minute]) [0; 30] slots.

(** The outer loop, [for (let hour = 9; hour <= 21; hour++)]; [fuel]
    bounds the number of iterations. *)
Fixpoint hourLoop (fuel : nat) (hour : Z) (slots : list string)
  : list string :=
  match fuel with
  | O => slots
  | S k =>
      if hour <=? 21 then hourLoop k (hour + 1) (pushMinutes hour slots)
      else slots
  end.

(** [getAllTimeSlots()]: the loop leaves at [hour = 22], after 13 rounds. *)
Definition getAllTimeSlots : list string := hourLoop 13 9 [].

(** [slot.split(':').map(Number)] and the destructuring [[hour, minute]]. *)
Definition slotFields (slot : string) : Num * Num :=
  let parts := map Number (split ":" slot) in
  (elem parts 0, elem parts 1).

(** [isSlotDisabled(date, slot)]; [now] is the clock, the local time value
    that [new Date()] returns during the call. *)
Definition isSlotDisabled (now : Z) (date : Date) (slot : string) : bool :=
  let todayStr := toDateString (DateAt now) in
  let selectedStr := toDateString date in
  let isToday := DateText_eqb todayStr selectedStr in
  if negb isToday then false
  else
    let '(hour, minute) := slotFields slot in
    let slotDate := setHours date hour minute (Int 0) (Int 0) in
    lt (getTime slotDate) (getTime (DateAt now)).

(** [getAvailableTimeSlots(date)]. *)
Definition getAvailableTimeSlots (now : Z) (date : Date) : list string :=
  let allSlots := getAllTimeSlots in
  filter (fun slot => negb (isSlotDisabled now date slot)) allSlots.

End Slots.

(* ================================================================== *)
(** * The picker modal *)

Module Picker.
Import JS Slots.

Inductive Mode : Type := DateMode | TimeMode.

Definition Mode_eqb (a b : Mode) : bool :=
  match a, b with
  | DateMode, DateMode | TimeMode, TimeMode => true
  | _, _ => false
  end.

(** [getTodayLocal()]. *)
Definition getTodayLocal (now : Z) : Date :=
  setHours (DateAt now) (Int 0) (Int 0) (Int 0) (Int 0).

(** [stripTime(date)]: a copy of [date] at local midnight. *)
Definition stripTime (date : Date) : Date :=
  setHours date (Int 0) (Int 0) (Int 0) (Int 0).

Definition isPastDate (now : Z) (date : Date) : bool :=
  let today := getTodayLocal now in
  let dateOnly := stripTime date in
  lt (getTime dateOnly) (getTime today).

Definition isTodayDate (now : Z) (date : Date) : bool :=
  let today := getTodayLocal now in
  let dateOnly := stripTime date in
  strict_eq (getTime dateOnly) (getTime today).

(** The loop of [getNextAvailableDate]; [fuel] is the number of rounds
    left of [for (let i = 0; i < 365; i++)].  [None]: the loop ran out. *)
Fixpoint scanDays (fuel : nat) (now : Z) (checkDate : Date) : option Date :=
  match fuel with
  | O => None
  | S k =>
      let slots := getAvailableTimeSlots now checkDate in
      if (0 <? List.length slots)%nat then Some checkDate
      else scanDays k now (setDate checkDate (add (getDate checkDate) (Int 1)))
  end.

Definition getNextAvailableDate (now : Z) : Date :=
  let checkDate := setHours (DateAt now) (Int 0) (Int 0) (Int 0) (Int 0) in
  match scanDays 365 now checkDate with
  | Some found => found
  | None => getTodayLocal now
  end.

(** A string used as a condition: false iff empty. *)
Definition truthy (s : string) : bool := negb (String.eqb s "").

(** The initializer of the [selectedDate] state; [initialDate] is the
    optional prop. *)
Definition initSelectedDate (now : Z) (initialDate : option string) : Date :=
  match initialDate with
  | Some text =>
      if truthy text then
        let parts := map Number (split "-" text) in
        let year := elem parts 0 in
        let month := elem parts 1 in
        let day := elem parts 2 in
        let parsed := newDate year (sub month (Int 1)) day in
        if negb (isPastDate now parsed) then parsed else getTodayLocal now
      else getTodayLocal now
  | None => getTodayLocal now
  end.

(** [getInitialSlot(date, initialTime)]. *)
Definition getInitialSlot (now : Z) (date : Date) (initialTime : option string)
  : string :=
  if isPastDate now date then "09:00"
  else
    let slots := getAvailableTimeSlots now date in
    match slots with
    | [] => "09:00"
    | first :: _ =>
        match initialTime with
        | Some t => if truthy t && includes slots (Some t) then t else first
        | None => first
        end
    end.

(** The state of one modal instance ([mode] is a prop, fixed for the
    instance; the current view never departs from it). *)
Record State : Type := mkState {
  mode : Mode;
  selectedDate : Date;
  selectedMonth : Num;
  selectedYear : Num;
  selectedSlot : string
}.

(** The state right after the modal is mounted. *)
Definition init (now : Z) (m : Mode) (initialDate initialTime : option string)
  : State :=
  let date := initSelectedDate now initialDate in
  {| mode := m;
     selectedDate := date;
     selectedMonth := getMonth date;
     selectedYear := getFullYear date;
     selectedSlot := getInitialSlot now date initialTime |}.

Definition setSelectedDate (d : Date) (st : State) : State :=
  mkState (mode st) d (selectedMonth st) (selectedYear st) (selectedSlot st).

Definition setSelectedSlot (slot : string) (st : State) : State :=
  mkState (mode st) (selectedDate st) (selectedMonth st) (selectedYear st)
          slot.

Inductive Direction : Type := Prev | Next.

(** [navigateMonth(direction)]. *)
Definition navigateMonth (direction : Direction) (st : State) : State :=
  match direction with
  | Prev =>
      if strict_eq (selectedMonth st) (Int 0)
      then mkState (mode st) (selectedDate st) (Int 11)
                   (sub (selectedYear st) (Int 1)) (selectedSlot st)
      else mkState (mode st) (selectedDate st)
                   (sub (selectedMonth st) (Int 1)) (selectedYear st)
                   (selectedSlot st)
  | Next =>
      if strict_eq (selectedMonth st) (Int 11)
      then mkState (mode st) (selectedDate st) (Int 0)
                   (add (selectedYear st) (Int 1)) (selectedSlot st)
      else mkState (mode st) (selectedDate st)
                   (add (selectedMonth st) (Int 1)) (selectedYear st)
                   (selectedSlot st)
  end.

(** [selectDate(day)], the click on a cell of the calendar grid. *)
Definition selectDate (now : Z) (day : Z) (st : State) : State :=
  let picked := newDate (selectedYear st) (selectedMonth st) (Int day) in
  if negb (isPastDate now picked) then setSelectedDate picked st else st.

(** [h * 60 + m] of a slot text. *)
Definition minutesOf (slot : string) : Num :=
  let '(h, m) := slotFields slot in
  add (mulc h 60) m.

(** One round of the [forEach] of the auto-correct effect, on the pair
    ([minDiff], [nearestSlot]). *)
Definition nearestStep (currentMinutes : Num) (acc : Num * option string)
  (slot : string) : Num * option string :=
  let '(minDiff, nearestSlot) := acc in
  let slotMinutes := minutesOf slot in
  let diff := abs (sub slotMinutes currentMinutes) in
  if lt diff minDiff then (diff, Some slot) else (minDiff, nearestSlot).

(** The search of the effect: [nearestSlot] after the [forEach]
    ([None] is [undefined], the value of [availableSlots[0]] on an empty
    array). *)
Definition findNearest (availableSlots : list string) (selectedSlot : string)
  : option string :=
  let currentMinutes := minutesOf selectedSlot in
  snd (fold_left (nearestStep currentMinutes) availableSlots
                 (Infinity, hd_error availableSlots)).

(** The auto-correct effect: the value of [selectedSlot] it leaves.  The
    second branch of the source repeats the guard of the first and is
    kept as written. *)
Definition autoCorrect (m : Mode) (availableSlots : list string)
  (selectedSlot : string) : string :=
  if Mode_eqb m TimeMode && (0 <? List.length availableSlots)%nat then
    if negb (includes availableSlots (Some selectedSlot)) then
      match findNearest availableSlots selectedSlot with
      | Some nearestSlot => nearestSlot
      | None => selectedSlot
      end
    else selectedSlot
  else if Mode_eqb m TimeMode && (0 <? List.length availableSlots)%nat
          && negb (includes availableSlots (Some selectedSlot)) then
    hd selectedSlot availableSlots
  else selectedSlot.

(** [parseTimeSlot(timeSlot)]: [(hour12, minute, period)].  (On a text
    without a second field the source has [undefined] where this has
    [NaN]; the selected slot always has two fields.) *)
Definition parseTimeSlot (timeSlot : string) : Num * Num * string :=
  let '(hour24, minute) := slotFields timeSlot in
  let hour12 :=
    if strict_eq hour24 (Int 0) then Int 12
    else if lt (Int 12) hour24 then sub hour24 (Int 12) else hour24 in
  let period := if ge hour24 (Int 12) then "PM" else "AM" in
  (hour12, minute, period).

(** What [onConfirm] receives. *)
Record Output : Type := mkOutput {
  dateStr : string;
  timeStr : string;
  formatted : string
}.

Definition formatOutput (st : State) : Output :=
  let day := padStart (String_ (getDate (selectedDate st))) 2 "0" in
  let month :=
    padStart (String_ (add (getMonth (selectedDate st)) (Int 1))) 2 "0" in
  let year := String_ (getFullYear (selectedDate st)) in
  let '(hour12, minute, period) := parseTimeSlot (selectedSlot st) in
  let minuteStr := padStart (String_ minute) 2 "0" in
  {| dateStr := (year ++ "-" ++ month ++ "-" ++ day)%string;
     timeStr := match mode st with
                | TimeMode => selectedSlot st
                | DateMode => "09:00"
                end;
     formatted := match mode st with
                  | DateMode => (day ++ "/" ++ month ++ "/" ++ year)%string
                  | TimeMode =>
                      (String_ hour12 ++ ":" ++ minuteStr ++ " " ++ period)%string
                  end |}.

(** The [disabled] attribute of the OK button. *)
Definition okDisabled (now : Z) (st : State) : bool :=
  (Mode_eqb (mode st) TimeMode
   && (List.length (getAvailableTimeSlots now (selectedDate st)) =? 0)%nat)
  || (Mode_eqb (mode st) DateMode && isPastDate now (selectedDate st)).

(** A click on OK: a disabled button delivers no click, an enabled one
    runs [handleConfirm], which hands [formatOutput()] to [onConfirm]. *)
Definition clickOK (now : Z) (st : State) : option Output :=
  if okDisabled now st then None else Some (formatOutput st).

End Picker.

(* ================================================================== *)
(** * The list adapter: [DesktopTimePicker] *)

Module Desktop.
Import JS.

Inductive Key : Type := ArrowDown | ArrowUp | Enter | OtherKey.

(** [arr[i]]; [None] is [undefined]. *)
Definition item (arr : list string) (i : Z) : option string :=
  if i <? 0 then None else nth_error arr (Z.to_nat i).

(** What a key press does: nothing, or a call [onSelectSlot(slot)],
    followed for the arrow keys by a focus request on button [focus]. *)
Inductive Effect : Type :=
| Ignored
| Selected (slot : option string) (focus : option Z).

(** The [do ... while] loop of [handleKeyDown]; [down] is
    [e.key === 'ArrowDown'].  [None]: the loop is still running when
    [fuel] rounds are over. *)
Fixpoint skipLoop (fuel : nat) (down : bool)
  (allSlots disabledSlots : list string) (index newIndex : Z) : option Z :=
  match fuel with
  | O => None
  | S k =>
      let newIndex :=
        if down then Z.min (newIndex + 1) (Z.of_nat (List.length allSlots) - 1)
        else Z.max (newIndex - 1) 0 in
      if includes disabledSlots (item allSlots newIndex)
         && negb (newIndex =? index)
      then skipLoop k down allSlots disabledSlots index newIndex
      else Some newIndex
  end.

Definition arrow (fuel : nat) (down : bool)
  (allSlots disabledSlots : list string) (index : Z) : option Effect :=
  match skipLoop fuel down allSlots disabledSlots index index with
  | None => None
  | Some newIndex =>
      if negb (includes disabledSlots (item allSlots newIndex))
      then Some (Selected (item allSlots newIndex) (Some newIndex))
      else Some Ignored
  end.

(** [handleKeyDown(e, currentSlot, index)]; [None]: the handler has not
    returned within [fuel] rounds of its loop. *)
Definition handleKeyDown (fuel : nat) (key : Key)
  (allSlots disabledSlots : list string) (currentSlot : string) (index : Z)
  : option Effect :=
  match key with
  | ArrowDown => arrow fuel true allSlots disabledSlots index
  | ArrowUp => arrow fuel false allSlots disabledSlots index
  | Enter =>
      if negb (includes disabledSlots (Some currentSlot))
      then Some (Selected (Some currentSlot) None)
      else Some Ignored
  | OtherKey => Some Ignored
  end.

(** The [disabledSlots] prop the modal passes down. *)
Definition disabledSlotsOf (now : Z) (selectedDate : Date) : list string :=
  filter (fun slot => Slots.isSlotDisabled now selectedDate slot)
         Slots.getAllTimeSlots.

End Desktop.

(* ================================================================== *)
(** * The wheel adapter: [WheelPicker] *)

Module Wheel.

Definition ITEM_HEIGHT : Z := 44.

(** [Math.round]: the nearest integer, a tie going up.  [scrollTop] is a
    finite number of pixels, kept as a rational. *)
Definition Math_round (x : Q) : Z := Qfloor (x + (1 # 2)).

(** [Math.max(0, Math.min(selectedIndex, items.length - 1))]. *)
Definition clamp (selectedIndex : Z) (len : nat) : Z :=
  Z.max 0 (Z.min selectedIndex (Z.of_nat len - 1)).

Definition clampedIndex (scrollTop : Q) (len : nat) : Z :=
  let selectedIndex := Math_round (scrollTop / inject_Z ITEM_HEIGHT) in
  clamp selectedIndex len.

Section Items.

Variable T : Type.
(** [a === b] on the item type. *)
Variable T_eqb : T -> T -> bool.

(** [items[i]]; [None] is [undefined]. *)
Definition item (items : list T) (i : Z) : option T :=
  if i <? 0 then None else nth_error items (Z.to_nat i).

(** [handleScroll()]: the argument of the [onSelect] call it makes, if it
    makes one.  [container] is [containerRef.current] reduced to its
    [scrollTop]; [None] is a missing container. *)
Definition handleScroll (items : list T) (selectedValue : T)
  (container : option Q) : option (option T) :=
  match container with
  | None => None
  | Some scrollTop =>
      let picked := item items (clampedIndex scrollTop (List.length items)) in
      let same := match picked with
                  | Some v => T_eqb v selectedValue
                  | None => false
                  end in
      if negb same then Some picked else None
  end.

(** [handleScrollEnd()]: the [top] of the [scrollTo] call it makes. *)
Definition handleScrollEnd (items : list T) (container : option Q)
  : option Z :=
  match container with
  | None => None
  | Some scrollTop =>
      let snapPosition :=
        clampedIndex scrollTop (List.length items) * ITEM_HEIGHT in
      Some snapPosition
  end.

End Items.

End Wheel.

(* ================================================================== *)
(** * The booking wizard: [BookPage] *)

Module Wizard.

Record Details : Type := mkDetails {
  name : string;
  email : string;
  phone : string;
  company : string;
  brief : string;
  budget : string
}.

(** [BookingState] of [types.ts]. *)
Record BookingState : Type := mkBooking {
  serviceType : string;
  packageId : string;
  date : string;
  time : string;
  details : Details
}.

(** The state hooks of [BookPage]. *)
Record State : Type := mkState {
  step : Z;
  formData : BookingState;
  submitted : bool;
  showDatePicker : bool;
  showTimePicker : bool;
  dateDisplay : string;
  timeDisplay : string
}.

Definition initial : State :=
  {| step := 1;
     formData := {| serviceType := ""; packageId := ""; date := ""; time := "";
                    details := mkDetails "" "" "" "" "" "" |};
     submitted := false;
     showDatePicker := false;
     showTimePicker := false;
     dateDisplay := "";
     timeDisplay := "" |}.

Definition setStep (f : Z -> Z) (st : State) : State :=
  {| step := f (step st); formData := formData st; submitted := submitted st;
     showDatePicker := showDatePicker st; showTimePicker := showTimePicker st;
     dateDisplay := dateDisplay st; timeDisplay := timeDisplay st |}.

Definition setFormData (f : BookingState -> BookingState) (st : State)
  : State :=
  {| step := step st; formData := f (formData st); submitted := submitted st;
     showDatePicker := showDatePicker st; showTimePicker := showTimePicker st;
     dateDisplay := dateDisplay st; timeDisplay := timeDisplay st |}.

Definition setSubmitted (b : bool) (st : State) : State :=
  {| step := step st; formData := formData st; submitted := b;
     showDatePicker := showDatePicker st; showTimePicker := showTimePicker st;
     dateDisplay := dateDisplay st; timeDisplay := timeDisplay st |}.

Definition handleNext (st : State) : State := setStep (fun p => p + 1) st.
Definition handleBack (st : State) : State := setStep (fun p => p - 1) st.

(** [{ ...prev, [field]: value }] for the four keys the wizard writes; a
    key that is no field of [BookingState] leaves its fields as they are. *)
Definition withField (field value : string) (prev : BookingState)
  : BookingState :=
  if String.eqb field "serviceType" then
    mkBooking value (packageId prev) (date prev) (time prev) (details prev)
  else if String.eqb field "packageId" then
    mkBooking (serviceType prev) value (date prev) (time prev) (details prev)
  else if String.eqb field "date" then
    mkBooking (serviceType prev) (packageId prev) value (time prev) (details prev)
  else if String.eqb field "time" then
    mkBooking (serviceType prev) (packageId prev) (date prev) value (details prev)
  else prev.

Definition updateField (field value : string) (st : State) : State :=
  setFormData (withField field value) st.

(** [{ ...prev.details, [field]: value }], likewise for the six keys of
    the contact details. *)
Definition withDetail (field value : string) (d : Details) : Details :=
  if String.eqb field "name" then
    mkDetails value (email d) (phone d) (company d) (brief d) (budget d)
  else if String.eqb field "email" then
    mkDetails (name d) value (phone d) (company d) (brief d) (budget d)
  else if String.eqb field "phone" then
    mkDetails (name d) (email d) value (company d) (brief d) (budget d)
  else if String.eqb field "company" then
    mkDetails (name d) (email d) (phone d) value (brief d) (budget d)
  else if String.eqb field "brief" then
    mkDetails (name d) (email d) (phone d) (company d) value (budget d)
  else if String.eqb field "budget" then
    mkDetails (name d) (email d) (phone d) (company d) (brief d) value
  else d.

Definition updateDetail (field value : string) (st : State) : State :=
  setFormData
    (fun prev =>
       mkBooking (serviceType prev) (packageId prev) (date prev) (time prev)
                 (withDetail field value (details prev)))
    st.

(** The [onClick] of a service button of step 1. *)
Definition clickService (type : string) (st : State) : State :=
  handleNext (updateField "serviceType" type st).

(** The [onClick] of a package button of step 2. *)
Definition clickPackage (id : string) (st : State) : State :=
  handleNext (updateField "packageId" id st).

(** ** Submission *)

(** A parsed JSON body. *)
#[local] Set Warnings "-register-all".
Inductive Json : Type :=
| JNull
| JBool (b : bool)
| JNumber (n : Z)
| JString (s : string)
| JArray (elems : list Json)
| JObject (fields : list (string * Json)).

(** A property read on an object: the last entry of a repeated key wins;
    [None] is [undefined]. *)
Fixpoint lookup (key : string) (fields : list (string * Json)) : option Json :=
  match fields with
  | [] => None
  | (k, v) :: rest =>
      match lookup key rest with
      | Some later => Some later
      | None => if String.eqb k key then Some v else None
      end
  end.

(** A JSON value used as a condition. *)
Definition truthy (v : option Json) : bool :=
  match v with
  | None | Some JNull => false
  | Some (JBool b) => b
  | Some (JNumber n) => negb (n =? 0)
  | Some (JString s) => negb (String.eqb s "")
  | Some (JArray _) | Some (JObject _) => true
  end.

(** What the transport does with the request: [fetch] rejects, or it
    resolves and [res.json()] rejects, or both resolve with [data]. *)
Inductive Transport : Type :=
| FetchRejects
| JsonRejects
| Resolves (data : Json).

(** [data.success]; [None] is the TypeError of a read on [null]. *)
Definition successOf (data : Json) : option (option Json) :=
  match data with
  | JNull => None
  | JObject fields => Some (lookup "success" fields)
  | _ => Some None
  end.

(** The body of the request. *)
Record Payload : Type := mkPayload {
  p_service : string; p_date : string; p_time : string;
  p_name : string; p_email : string; p_phone : string;
  p_company : string; p_brief : string; p_budget : string
}.

Definition payloadOf (f : BookingState) : Payload :=
  {| p_service := serviceType f; p_date := date f; p_time := time f;
     p_name := name (details f); p_email := email (details f);
     p_phone := phone (details f); p_company := company (details f);
     p_brief := brief (details f); p_budget := budget (details f) |}.

(** The text of the [alert] call. *)
Definition submitErrorMessage : string := "حصل خطأ أثناء إرسال الطلب ❌".

(** One run of [handleSubmit]: the request sent, the state it leaves, the
    alerts shown, and whether the handler's promise is rejected. *)
Record Run : Type := mkRun {
  request : Payload;
  after : State;
  alerts : list string;
  rejected : bool
}.

(** [handleSubmit(e)] against a transport that answers as [transport].
    The handler has no [try]: a rejection of [fetch] or of [res.json()],
    or the TypeError of [data.success], ends it there with its promise
    rejected.  Its only write to the state is [setSubmitted(true)].  (The
    mail subject and body it builds first are never used.) *)
Definition handleSubmit (st : State) (transport : Transport) : Run :=
  let body := payloadOf (formData st) in
  match transport with
  | FetchRejects | JsonRejects => mkRun body st [] true
  | Resolves data =>
      match successOf data with
      | None => mkRun body st [] true
      | Some success =>
          if negb (truthy success)
          then mkRun body st [submitErrorMessage] false
          else mkRun body (setSubmitted true st) [] false
      end
  end.

(** The attempt did not succeed: anything but a body with a truthy
    [success]. *)
Definition failed (transport : Transport) : bool :=
  match transport with
  | Resolves data =>
      match successOf data with
      | Some success => negb (truthy success)
      | None => true
      end
  | _ => true
  end.

End Wizard.

(* ================================================================== *)
(** * Notions the statements use *)

Module Spec.
Import JS.

(** Day of a 400-year era from year of era, month and day of month: the
    inner part of [days_from_civil]. *)
Definition doe_of (yoe m d : Z) : Z :=
  let mp := if 2 <? m then m - 3 else m + 9 in
  yoe * 365 + yoe / 4 - yoe / 100 + ((153 * mp + 2) / 5 + d - 1).

(** [civil_of_doe] yields a date of the era, and [doe_of] undoes it. *)
Definition doe_check (doe : Z) : bool :=
  let '(yoe, m, d) := civil_of_doe doe in
  (0 <=? yoe) && (yoe <? 400) && (1 <=? m) && (m <=? 12)
  && (1 <=? d) && (d <=? 31) && (doe_of yoe m d =? doe).

(** [doe_check] on [z, z+1, ..., z+fuel-1]. *)
Fixpoint check_from (fuel : nat) (z : Z) : bool :=
  match fuel with
  | O => true
  | S k => doe_check z && check_from k (z + 1)
  end.

(** The Date [i] days after [d], at the same time of day. *)
Definition dayAfter (d : Date) (i : Z) : Date :=
  match d with
  | InvalidDate => InvalidDate
  | DateAt t => DateAt (t + i * msPerDay)
  end.

(** [dist] gives, for every slot of [l], the [diff] the auto-correct
    effect computes against a current slot at minute [currentMinutes]. *)
Definition measured (currentMinutes : Z) (dist : string -> Z)
  (l : list string) : Prop :=
  forall s, In s l ->
    abs (sub (Picker.minutesOf s) (Int currentMinutes)) = Int (dist s).

(** An initial date as the wizard passes it: none, the empty text, or a
    text of three numeric fields. *)
Definition seedText (initialDate : option string) : Prop :=
  match initialDate with
  | None => True
  | Some text =>
      text = ""
      \/ exists y m d, map Number (split "-" text) = [Int y; Int m; Int d]
  end.

(** The local days all of whose times are time values of a Date, whatever
    the zone: the days -99,999,998 .. 99,999,998 from the epoch (the years
    0 .. 275759 lie within). *)
Definition inDateRange (n : Z) : Prop := -99999999 < n < 99999999.

(** The Date is a valid one on such a day. *)
Definition dateInRange (d : Date) : Prop :=
  exists t, d = DateAt t /\ inDateRange (Day t).

(** An initial date as the wizard passes it, within the range of Date:
    none, the empty text, or a text of three numeric fields that
    [new Date(year, month - 1, day)] takes to a day in range. *)
Definition seedInRange (initialDate : option string) : Prop :=
  match initialDate with
  | None => True
  | Some text =>
      text = ""
      \/ exists y m d,
           map Number (split "-" text) = [Int y; Int m; Int d]
           /\ dateInRange (newDate (Int y) (Int (m - 1)) (Int d))
  end.

(** The states a modal instance goes through within the range of Date:
    mounted on such an initial date, then any clicks on calendar cells
    whose date is in range, any clicks on the month arrows and any change
    of the selected slot, each at its own time. *)
Inductive Reachable : Picker.State -> Prop :=
| Reachable_mount now m initialDate initialTime :
    seedInRange initialDate ->
    Reachable (Picker.init now m initialDate initialTime)
| Reachable_selectDate now day st :
    Reachable st ->
    dateInRange
      (newDate (Picker.selectedYear st) (Picker.selectedMonth st) (Int day)) ->
    Reachable (Picker.selectDate now day st)
| Reachable_navigateMonth direction st :
    Reachable st -> Reachable (Picker.navigateMonth direction st)
| Reachable_setSelectedSlot slot st :
    Reachable st -> Reachable (Picker.setSelectedSlot slot st).

(** The slot at index [i] of the list adapter is greyed out. *)
Definition disabledAt (allSlots disabledSlots : list string) (i : Z) : bool :=
  includes disabledSlots (Desktop.item allSlots i).

(** [l1] is [l2] with some elements left out, the others in their order. *)
Inductive Subsequence {A : Type} : list A -> list A -> Prop :=
| Subsequence_nil : Subsequence [] []
| Subsequence_skip x l1 l2 : Subsequence l1 l2 -> Subsequence l1 (x :: l2)
| Subsequence_keep x l1 l2 : Subsequence l1 l2 -> Subsequence (x :: l1) (x :: l2).

End Spec.

(* ================================================================== *)
(** * Further notions for the statements *)

Module SpecMore.
Import JS.

(** The minute of day of a slot text as an integer ([0] when it has none). *)
Definition minuteOfDay (slot : string) : Z :=
  match Picker.minutesOf slot with
  | Int k => k
  | _ => 0
  end.

(** The local time value of the slot on the day of [t]. *)
Definition slotInstant (t : Z) (slot : string) : Z :=
  Day t * msPerDay + minuteOfDay slot * 60000.

(** Strictly increasing list of integers. *)
Fixpoint increasing (l : list Z) : bool :=
  match l with
  | [] => true
  | x :: rest =>
      match rest with
      | [] => true
      | y :: _ => (x <? y) && increasing rest
      end
  end.

(** No character of [s] satisfies [p]. *)
Fixpoint none_of (p : ascii -> bool) (s : string) : bool :=
  match s with
  | EmptyString => true
  | String c r => negb (p c) && none_of p r
  end.

End SpecMore.

(* ================================================================== *)
(** * More of the picker modal *)

Module Modal.
Import JS Slots Picker.

(** The effect "Update slot when date changes": the value of
    [selectedSlot] it leaves. *)
Definition dateChangeEffect (m : Mode) (now : Z) (selectedDate : Date)
  (selectedSlot : string) : string :=
  match m with
  | TimeMode =>
      let slots := getAvailableTimeSlots now selectedDate in
      if (0 <? List.length slots)%nat
         && negb (includes slots (Some selectedSlot))
      then hd selectedSlot slots
      else selectedSlot
  | DateMode => selectedSlot
  end.

End Modal.

(* ================================================================== *)
(** * More of the runtime *)

Module JSMore.
Import JS.

(** [arr.join(sep)]. *)
Fixpoint join (sep : string) (l : list string) : string :=
  match l with
  | [] => EmptyString
  | x :: rest =>
      match rest with
      | [] => x
      | _ :: _ => (x ++ sep ++ join sep rest)%string
      end
  end.

(** The white space [trim] removes, as far as it is ASCII: blank, tab,
    line feed, vertical tab, form feed, carriage return. *)
Definition is_space (c : ascii) : bool :=
  let n := nat_of_ascii c in (n =? 32)%nat || ((9 <=? n)%nat && (n <=? 13)%nat).

Fixpoint trimStart (s : string) : string :=
  match s with
  | EmptyString => EmptyString
  | String c r => if is_space c then trimStart r else s
  end.

Fixpoint trimEnd (s : string) : string :=
  match s with
  | EmptyString => EmptyString
  | String c r =>
      match trimEnd r with
      | EmptyString => if is_space c then EmptyString else String c EmptyString
      | kept => String c kept
      end
  end.

(** [s.trim()] on ASCII text. *)
Definition trim (s : string) : string := trimEnd (trimStart s).

End JSMore.

(* ================================================================== *)
(** * More of the two adapters *)

Module DesktopMore.
Import JS Slots Desktop.

(** [formatSlot(slot)] of [DesktopTimePicker].  (On a text without a
    second field the source prints [undefined] where this prints [NaN].) *)
Definition formatSlot (slot : string) : string :=
  let '(hour24, minute) := slotFields slot in
  let hour12 :=
    if strict_eq hour24 (Int 0) then Int 12
    else if lt (Int 12) hour24 then sub hour24 (Int 12) else hour24 in
  let period := if ge hour24 (Int 12) then "PM" else "AM" in
  (String_ hour12 ++ ":" ++ padStart (String_ minute) 2 "0" ++ " " ++ period)%string.

(** The [onClick] of a slot button: [!isDisabled && onSelectSlot(slot)]. *)
Definition clickSlot (disabledSlots : list string) (slot : string) : Effect :=
  let isDisabled := includes disabledSlots (Some slot) in
  if negb isDisabled then Selected (Some slot) None else Ignored.

End DesktopMore.

Module WheelMore.
Import Wheel.

Section Items.

Variable T : Type.
Variable T_eqb : T -> T -> bool.

(** [items.indexOf(v)]: the first index of [v], or [-1]. *)
Fixpoint indexOf (items : list T) (v : T) : Z :=
  match items with
  | [] => -1
  | x :: rest =>
      if T_eqb x v then 0
      else let i := indexOf rest v in
           if i =? -1 then -1 else i + 1
  end.

(** The effect that follows a change of [items] or [selectedValue]: the
    [top] of the [scrollTo] call it makes, if it makes one ([container]
    tells whether [containerRef.current] is there). *)
Definition scrollEffect (items : list T) (selectedValue : T)
  (container : bool) : option Z :=
  if negb container then None
  else
    let selectedIndex := indexOf items selectedValue in
    if negb (selectedIndex =? -1)
    then let scrollPosition := selectedIndex * ITEM_HEIGHT in
         Some scrollPosition
    else None.

End Items.

End WheelMore.

(* ================================================================== *)
(** * More of the booking wizard *)

Module Book.
Import JSMore Wizard.

(** The ids of [PACKAGES] in [constants.ts]. *)
Definition PACKAGES_ids : list string := ["p1"; "p2"; "p3"].

(** The types offered at step 1. *)
Definition serviceTypes : list string :=
  ["videography"; "editing"; "consultation"].

Definition setDateDisplay (text : string) (st : State) : State :=
  mkState (step st) (formData st) (submitted st) (showDatePicker st)
          (showTimePicker st) text (timeDisplay st).

Definition setTimeDisplay (text : string) (st : State) : State :=
  mkState (step st) (formData st) (submitted st) (showDatePicker st)
          (showTimePicker st) (dateDisplay st) text.

Definition setShowDatePicker (b : bool) (st : State) : State :=
  mkState (step st) (formData st) (submitted st) b (showTimePicker st)
          (dateDisplay st) (timeDisplay st).

Definition setShowTimePicker (b : bool) (st : State) : State :=
  mkState (step st) (formData st) (submitted st) (showDatePicker st) b
          (dateDisplay st) (timeDisplay st).

(** The [onConfirm] of the date picker, followed by the [onClose] that
    [handleConfirm] calls after it. *)
Definition confirmDate (out : Picker.Output) (st : State) : State :=
  setShowDatePicker false
    (setDateDisplay
       (trim (hd EmptyString (JS.split "," (Picker.formatted out))))
       (updateField "date" (Picker.dateStr out) st)).

(** The [onConfirm] of the time picker, and its [onClose]:
    [formatted.split(',')[1]?.trim() || formatted]. *)
Definition confirmTime (out : Picker.Output) (st : State) : State :=
  let second :=
    match nth_error (JS.split "," (Picker.formatted out)) 1 with
    | Some part => trim part
    | None => EmptyString
    end in
  setShowTimePicker false
    (setTimeDisplay
       (if Picker.truthy second then second else Picker.formatted out)
       (updateField "time" (Picker.timeStr out) st)).

(** The [value] of the date input of step 3. *)
Definition dateInputValue (st : State) : string :=
  if Picker.truthy (dateDisplay st) then dateDisplay st
  else if Picker.truthy (date (formData st))
       then join "/" (rev (JS.split "-" (date (formData st))))
       else EmptyString.

(** The [value] of the time input of step 3. *)
Definition timeInputValue (st : State) : string :=
  if Picker.truthy (timeDisplay st) then timeDisplay st
  else if Picker.truthy (time (formData st)) then time (formData st)
       else EmptyString.

(** What happens on the page: the user's actions, and the answer to a
    request made earlier. *)
Inductive Event : Type :=
| ClickService (type : string)
| ClickPackage (id : string)
| ClickBack
| ClickNext
| OpenDatePicker
| OpenTimePicker
| CancelDatePicker
| CancelTimePicker
| ConfirmDate (now : Z) (picker : Picker.State)
| ConfirmTime (now : Z) (picker : Picker.State)
| TypeDetail (field value : string)
| Submit
| Answer (transport : Transport).

(** The fields the form of step 4 marks [required] are filled. *)
Definition requiredFilled (st : State) : bool :=
  Picker.truthy (name (details (formData st)))
  && Picker.truthy (email (details (formData st)))
  && Picker.truthy (brief (details (formData st))).

(** The check of an input of [type="email"], on ASCII text: a valid
    e-mail address of the HTML standard is a non-empty run of letters,
    digits and [.!#$%&'*+/=?^_`{|}~-], an [@], and labels separated by
    dots, each of 1 to 63 letters, digits and hyphens with no hyphen at
    either end. *)
Definition is_alnum (c : ascii) : bool :=
  let n := nat_of_ascii c in
  ((48 <=? n) && (n <=? 57) || (65 <=? n) && (n <=? 90)
   || (97 <=? n) && (n <=? 122))%nat.

Fixpoint has (c : ascii) (s : string) : bool :=
  match s with
  | EmptyString => false
  | String x r => Ascii.eqb x c || has c r
  end.

Fixpoint every (p : ascii -> bool) (s : string) : bool :=
  match s with
  | EmptyString => true
  | String c r => p c && every p r
  end.

Fixpoint endsAlnum (s : string) : bool :=
  match s with
  | EmptyString => false
  | String c EmptyString => is_alnum c
  | String _ r => endsAlnum r
  end.

Definition is_local (c : ascii) : bool :=
  is_alnum c || has c ".!#$%&'*+/=?^_`{|}~-".

Definition validLabel (l : string) : bool :=
  match l with
  | EmptyString => false
  | String c _ =>
      (String.length l <=? 63)%nat && is_alnum c && endsAlnum l
      && every (fun x => is_alnum x || Ascii.eqb x "-") l
  end.

Definition validEmail (s : string) : bool :=
  match JS.split "@" s with
  | [mailbox; domain] =>
      Picker.truthy mailbox && every is_local mailbox
      && forallb validLabel (JS.split "." domain)
  | _ => false
  end.

(** A click or a keystroke on the page as it is rendered in [st]: each
    step shows its own controls, the Next button of step 3 is disabled
    without a date, an open picker delivers what its OK button delivers
    and closes, and the confirmation page that replaces the wizard has
    no control of it.  An event whose control is not there leaves the
    state as it is. *)
Definition control (ev : Event) (st : State) : State :=
  if submitted st then st
  else
    match ev with
    | ClickService type =>
        if (step st =? 1) && JS.includes serviceTypes (Some type)
        then clickService type st else st
    | ClickPackage id =>
        if (step st =? 2) && JS.includes ("custom" :: PACKAGES_ids) (Some id)
        then clickPackage id st else st
    | ClickBack =>
        if (2 <=? step st) && (step st <=? 4) then handleBack st else st
    | ClickNext =>
        if (step st =? 3) && Picker.truthy (date (formData st))
        then handleNext st else st
    | OpenDatePicker =>
        if step st =? 3 then setShowDatePicker true st else st
    | OpenTimePicker =>
        if step st =? 3 then setShowTimePicker true st else st
    | CancelDatePicker =>
        if (step st =? 3) && showDatePicker st
        then setShowDatePicker false st else st
    | CancelTimePicker =>
        if (step st =? 3) && showTimePicker st
        then setShowTimePicker false st else st
    | ConfirmDate now picker =>
        if (step st =? 3) && showDatePicker st
           && Picker.Mode_eqb (Picker.mode picker) Picker.DateMode
        then match Picker.clickOK now picker with
             | Some out => confirmDate out st
             | None => st
             end
        else st
    | ConfirmTime now picker =>
        if (step st =? 3) && showTimePicker st
           && Picker.Mode_eqb (Picker.mode picker) Picker.TimeMode
        then match Picker.clickOK now picker with
             | Some out => confirmTime out st
             | None => st
             end
        else st
    | TypeDetail field value =>
        if step st =? 4 then updateDetail field value st else st
    | Submit | Answer _ => st
    end.

(** The page with its requests: the state it renders, the bodies of the
    requests made so far (the latest first) and the number of them that
    have no answer yet. *)
Record Page : Type := mkPage {
  view : State;
  sent : list Payload;
  pending : nat
}.

Definition opened : Page := mkPage initial [] 0.

(** One event.  [handleSubmit] awaits the answer: it makes its request
    when the form is submitted and writes to the state when the answer is
    there, and the page goes on taking events in between.  The browser
    keeps the form from submitting when a required field is empty or
    when it does not accept the e-mail field; [valid] is that check of
    the browser ([validEmail] for one that follows the standard). *)
Definition fire (valid : string -> bool) (ev : Event) (p : Page) : Page :=
  let st := view p in
  match ev with
  | Submit =>
      if negb (submitted st) && (step st =? 4) && requiredFilled st
         && valid (email (details (formData st)))
      then mkPage st (request (handleSubmit st FetchRejects) :: sent p)
                  (S (pending p))
      else p
  | Answer transport =>
      match pending p with
      | O => p
      | S k => mkPage (after (handleSubmit st transport)) (sent p) k
      end
  | _ => mkPage (control ev st) (sent p) (pending p)
  end.

(** The page after a run of events. *)
Definition run (valid : string -> bool) (events : list Event) (p : Page)
  : Page :=
  fold_left (fun q ev => fire valid ev q) events p.

Definition isAnswer (ev : Event) : bool :=
  match ev with
  | Answer _ => true
  | _ => false
  end.

(** A request that names one of the three services and has a date, a
    name, an email and a brief. *)
Definition wellFormed (r : Payload) : Prop :=
  In (p_service r) serviceTypes
  /\ p_date r <> "" /\ p_name r <> "" /\ p_email r <> "" /\ p_brief r <> "".

(** What holds of the state at every moment, given the requests made:
    the step is one of the four; the service type is one of the three
    offered unless the page is still at step 1 with none chosen; the
    package is "custom" or one of the catalog unless the page has not
    been past step 2; and a date is there unless the page has not been
    past step 3. *)
Definition Shape (requests : list Payload) (st : State) : Prop :=
  1 <= step st <= 4
  /\ (In (serviceType (formData st)) serviceTypes
      \/ (serviceType (formData st) = "" /\ step st = 1 /\ requests = []))
  /\ (In (packageId (formData st)) ("custom" :: PACKAGES_ids)
      \/ (packageId (formData st) = "" /\ step st <= 2 /\ requests = []))
  /\ (date (formData st) <> "" \/ (step st <= 3 /\ requests = [])).

(** What holds of the page at every moment. *)
Definition Invariant (p : Page) : Prop :=
  Shape (sent p) (view p)
  /\ (pending p <> 0%nat \/ submitted (view p) = true -> sent p <> [])
  /\ (forall r, In r (sent p) -> wellFormed r).

End Book.

(* ================================================================== *)
(** * The mail relay: [server.js] *)

Module Server.
Import Wizard.

(** The JSON object of the request body, as [JSON.stringify] writes it in
    [handleSubmit]: its keys in order, every value a string. *)
Definition requestBody (f : BookingState) : list (string * string) :=
  [("service", serviceType f); ("date", date f); ("time", time f);
   ("name", name (details f)); ("email", email (details f));
   ("phone", phone (details f)); ("company", company (details f));
   ("brief", brief (details f)); ("budget", budget (details f))].

(** A property of [req.body]; [None] is [undefined]. *)
Fixpoint field (key : string) (body : list (string * string)) : option string :=
  match body with
  | [] => None
  | (k, v) :: rest =>
      match field key rest with
      | Some later => Some later
      | None => if String.eqb k key then Some v else None
      end
  end.

(** [`${v}`]. *)
Definition show (v : option string) : string :=
  match v with
  | Some s => s
  | None => "undefined"
  end.

(** [`${v || fallback}`]. *)
Definition orElse (v : option string) (fallback : string) : string :=
  match v with
  | Some s => if Picker.truthy s then s else fallback
  | None => fallback
  end.

(** The line feed of the template. *)
Definition nl : string := String (ascii_of_nat 10) EmptyString.

(** [packageId === 'custom' ? 'Custom / Not sure' : packageId || 'Not selected']. *)
Definition packageText (packageId : option string) : string :=
  match packageId with
  | Some "custom" => "Custom / Not sure"
  | _ => orElse packageId "Not selected"
  end.

(** The [subject] and [text] of [mailOptions], for the body of a request. *)
Definition subjectOf (body : list (string * string)) : string :=
  ("New Booking Request - " ++ show (field "service" body))%string.

Definition textOf (body : list (string * string)) : string :=
  (nl ++ "New Booking Request Received" ++ nl
   ++ nl
   ++ "Service Type: " ++ show (field "service" body) ++ nl
   ++ "Package: " ++ packageText (field "package" body) ++ nl
   ++ "Preferred Date: " ++ orElse (field "date" body) "Not selected" ++ nl
   ++ "Preferred Time: " ++ orElse (field "time" body) "Not selected" ++ nl
   ++ nl
   ++ "Client Details:" ++ nl
   ++ "- Name: " ++ show (field "name" body) ++ nl
   ++ "- Email: " ++ show (field "email" body) ++ nl
   ++ "- Phone: " ++ orElse (field "phone" body) "Not provided" ++ nl
   ++ "- Company: " ++ orElse (field "company" body) "Not provided" ++ nl
   ++ nl
   ++ "Project Brief:" ++ nl
   ++ show (field "brief" body) ++ nl
   ++ nl
   ++ "Budget: " ++ orElse (field "budget" body) "Not specified" ++ nl
   ++ nl
   ++ "---" ++ nl
   ++ "This booking was submitted through your website." ++ nl
   ++ "      ")%string.

(** What [transporter.sendMail] does: it resolves, or it throws an error
    with or without a [message]. *)
Inductive Send : Type :=
| Sent
| Throws (message : option string).

(** The handler of [POST /api/send-mail]: HTTP status and JSON body of
    its response. *)
Definition respond (send : Send) : Z * Json :=
  match send with
  | Sent =>
      (200, JObject [("success", JBool true);
                     ("message", JString "Email sent successfully")])
  | Throws (Some message) =>
      (500, JObject [("success", JBool false); ("error", JString message)])
  | Throws None => (500, JObject [("success", JBool false)])
  end.

End Server.

(* ================================================================== *)
(** * The calendar grid of the picker modal *)

Module Grid.
Import JS Picker.

(** [WeekDay(t)], 0 for Sunday: day 0, 1970-01-01, was a Thursday. *)
Definition WeekDay (t : Z) : Z := (Day t + 4) mod 7.

Definition getDay (d : Date) : Num :=
  match d with
  | InvalidDate => NaN
  | DateAt t => Int (WeekDay t)
  end.

(** [Array.from({ length }, (_, i) => f(i))]: a length that is [NaN] or
    negative counts as 0.  (An infinite length, which no array can have,
    is not a value of [getDay] or [getDate].) *)
Definition arrayFrom {A : Type} (length : Num) (f : Z -> A) : list A :=
  match length with
  | Int n => map (fun i => f (Z.of_nat i)) (seq 0 (Z.to_nat n))
  | _ => []
  end.

Definition getDaysInMonth (month year : Num) : Num :=
  getDate (newDate year (add month (Int 1)) (Int 0)).

Definition getFirstDayOfMonth (month year : Num) : Num :=
  getDay (newDate year month (Int 1)).

(** The [days] of a render: [null] for each column before the first day
    of the month, then the days of the month. *)
Definition days (st : State) : list (option Z) :=
  let daysInMonth := getDaysInMonth (selectedMonth st) (selectedYear st) in
  let firstDay := getFirstDayOfMonth (selectedMonth st) (selectedYear st) in
  arrayFrom firstDay (fun _ => None)
  ++ arrayFrom daysInMonth (fun i => Some (i + 1)).

(** What the callback of [days.map] computes for a day: the date of the
    cell, its [disabled] attribute and its highlight. *)
Definition dayDate (st : State) (day : Z) : Date :=
  newDate (selectedYear st) (selectedMonth st) (Int day).

Definition isPast (now : Z) (st : State) (day : Z) : bool :=
  isPastDate now (dayDate st day).

Definition isSelected (st : State) (day : Z) : bool :=
  strict_eq (getDate (selectedDate st)) (Int day)
  && strict_eq (getMonth (selectedDate st)) (selectedMonth st)
  && strict_eq (getFullYear (selectedDate st)) (selectedYear st).

(** The look the [className] of a day cell selects: the test of [isPast]
    comes first, the test of [isSelected] second. *)
Inductive Look : Type := Greyed | Highlighted | Plain.

Definition look (now : Z) (st : State) (day : Z) : Look :=
  if isPast now st day then Greyed
  else if isSelected st day then Highlighted
  else Plain.

(** A click on the cell of [day]: a disabled button delivers none. *)
Definition clickDay (now : Z) (day : Z) (st : State) : State :=
  if isPast now st day then st else selectDate now day st.

End Grid.

(* ================================================================== *)
(** * Notions for the statements on the grid *)

Module SpecGrid.
Import JS.

(** Leap years of the Gregorian calendar. *)
Definition leap (y : Z) : bool :=
  ((y mod 4 =? 0) && negb (y mod 100 =? 0)) || (y mod 400 =? 0).

(** Days of the month [m] (1..12) of the year [y]. *)
Definition daysIn (y m : Z) : Z :=
  if m =? 2 then (if leap y then 29 else 28)
  else if (m =? 4) || (m =? 6) || (m =? 9) || (m =? 11) then 30
  else 31.

(** Day number of the first day of the month [k] months after January of
    the year 0. *)
Definition firstOf (k : Z) : Z := MakeDay 0 k 1.

(** The day of month [civil_of_doe] yields is a day of its month. *)
Definition len_check (doe : Z) : bool :=
  let '(yoe, m, d) := civil_of_doe doe in
  d <=? daysIn (if m <=? 2 then yoe + 1 else yoe) m.

(** [p] on [z, z+1, ..., z+fuel-1]. *)
Fixpoint all_from (p : Z -> bool) (fuel : nat) (z : Z) : bool :=
  match fuel with
  | O => true
  | S k => p z && all_from p k (z + 1)
  end.

(** The days [1..n]. *)
Definition upto (n : Z) : list Z :=
  map (fun i => Z.of_nat i + 1) (seq 0 (Z.to_nat n)).

(** Evaluates the day-of-year offsets [(153 * mp + 2) / 5] of a goal. *)
Ltac month_offsets :=
  repeat match goal with
  | |- context [(153 * ?k + 2) / 5] =>
      let v := eval vm_compute in ((153 * k + 2) / 5) in
      change ((153 * k + 2) / 5) with v
  end.

End SpecGrid.

(* ================================================================== *)
(** * The calendar *)

Section Calendar.
Import JS Spec.

Lemma check_from_spec fuel : forall z,
  check_from fuel z = true ->
  forall i, z <= i < z + Z.of_nat fuel -> doe_check i = true.
Proof.
  induction fuel as [|k IH]; intros z H i Hi.
  - simpl in Hi. lia.
  - simpl in H. apply andb_true_iff in H as [Hz Hk].
    destruct (Z.eq_dec i z) as [->|Hne]; [exact Hz|].
    apply (IH (z + 1) Hk). lia.
Qed.

(** Every day of an era passes the check (by evaluation). *)
Lemma check_era : check_from (Z.to_nat 146097) 0 = true.
Proof. vm_cast_no_check (eq_refl true). Qed.

Lemma civil_of_doe_ok doe :
  0 <= doe < 146097 ->
  let '(yoe, m, d) := civil_of_doe doe in
  0 <= yoe < 400 /\ 1 <= m <= 12 /\ 1 <= d <= 31 /\ doe_of yoe m d = doe.
Proof.
  intros H.
  assert (Hc : doe_check doe = true).
  { apply (check_from_spec _ 0 check_era). rewrite Z2Nat.id; lia. }
  unfold doe_check in Hc. destruct (civil_of_doe doe) as [[yoe m] d].
  repeat (apply andb_true_iff in Hc as [Hc ?]). lia.
Qed.

Lemma days_from_civil_doe y m d :
  days_from_civil y m d =
  (let y' := if m <=? 2 then y - 1 else y in
   (y' / 400) * 146097 + doe_of (y' mod 400) m d - 719468).
Proof.
  unfold days_from_civil, doe_of. cbv zeta.
  set (y' := if m <=? 2 then y - 1 else y).
  rewrite (Z.mod_eq y' 400) by lia.
  replace (y' - y' / 400 * 400) with (y' - 400 * (y' / 400)) by lia.
  lia.
Qed.

(** [days_from_civil] is a left inverse of [civil_from_days]. *)
Lemma civil_roundtrip n :
  let '(y, m, d) := civil_from_days n in
  days_from_civil y m d = n /\ 1 <= m <= 12 /\ 1 <= d <= 31.
Proof.
  unfold civil_from_days. cbv zeta.
  pose proof (Z.mod_pos_bound (n + 719468) 146097 ltac:(lia)) as Hb.
  pose proof (civil_of_doe_ok _ Hb) as Hok.
  destruct (civil_of_doe ((n + 719468) mod 146097)) as [[yoe m] d].
  destruct Hok as (Hy & Hm & Hd & Hdoe).
  split; [|lia].
  rewrite days_from_civil_doe. cbv zeta.
  set (era := (n + 719468) / 146097) in *.
  assert (Hy' : (if m <=? 2
                 then (if m <=? 2 then yoe + era * 400 + 1 else yoe + era * 400) - 1
                 else (if m <=? 2 then yoe + era * 400 + 1 else yoe + era * 400))
                = yoe + era * 400).
  { destruct (m <=? 2); lia. }
  rewrite Hy'.
  rewrite Z.div_add, Z.mod_add by lia.
  rewrite Z.div_small, Z.mod_small by lia.
  rewrite Hdoe.
  pose proof (Z.div_mod (n + 719468) 146097 ltac:(lia)). unfold era. lia.
Qed.

(** Two days with the same year, month and day of month are the same. *)
Lemma civil_from_days_inj a b :
  civil_from_days a = civil_from_days b -> a = b.
Proof.
  intros H. pose proof (civil_roundtrip a) as Ha.
  pose proof (civil_roundtrip b) as Hb. rewrite H in Ha.
  destruct (civil_from_days b) as [[y m] d]. lia.
Qed.

Lemma days_from_civil_day y m d :
  days_from_civil y m d = days_from_civil y m 1 + d - 1.
Proof. unfold days_from_civil. cbv zeta. lia. Qed.

(** [MakeDay] on a month index [m - 1] of the year is [days_from_civil]. *)
Lemma MakeDay_civil y m d :
  1 <= m <= 12 -> MakeDay y (m - 1) d = days_from_civil y m d.
Proof.
  intros Hm. unfold MakeDay.
  rewrite Z.div_small, Z.mod_small by lia.
  rewrite (days_from_civil_day y m d).
  replace (y + 0) with y by lia. replace (m - 1 + 1) with m by lia. lia.
Qed.

Lemma Day_MakeDate day tm :
  0 <= tm < msPerDay -> Day (MakeDate day tm) = day.
Proof.
  intros H. unfold Day, MakeDate, msPerDay in *.
  rewrite Z.add_comm, Z.div_add by lia. rewrite Z.div_small by lia. lia.
Qed.

Lemma MakeDate_Day t : MakeDate (Day t) (TimeWithinDay t) = t.
Proof.
  unfold MakeDate, Day, TimeWithinDay, msPerDay.
  pose proof (Z.div_mod t 86400000 ltac:(lia)). lia.
Qed.

(** [d.setDate(d.getDate() + 1)] moves a Date one day on. *)
Lemma setDate_next t :
  setDate (DateAt t) (add (getDate (DateAt t)) (Int 1)) = DateAt (t + msPerDay).
Proof.
  unfold setDate, getDate, add, YearFromTime, MonthFromTime, DateFromTime.
  pose proof (civil_roundtrip (Day t)) as H.
  destruct (civil_from_days (Day t)) as [[y m] d].
  destruct H as (Hn & Hm & _).
  rewrite MakeDay_civil by lia.
  rewrite days_from_civil_day. f_equal.
  pose proof (MakeDate_Day t) as Ht.
  rewrite days_from_civil_day in Hn.
  unfold MakeDate, msPerDay in *. lia.
Qed.

(** Two valid Dates print the same day text iff they are on one day. *)
Lemma toDateString_same_day a b :
  DateText_eqb (toDateString (DateAt a)) (toDateString (DateAt b))
  = (Day a =? Day b).
Proof.
  unfold toDateString, DateText_eqb, YearFromTime, MonthFromTime, DateFromTime.
  destruct (Z.eqb_spec (Day a) (Day b)) as [->|Hne].
  - destruct (civil_from_days (Day b)) as [[y m] d].
    rewrite !Z.eqb_refl. reflexivity.
  - destruct (civil_from_days (Day a)) as [[y m] d] eqn:Ea.
    destruct (civil_from_days (Day b)) as [[y' m'] d'] eqn:Eb.
    destruct (Z.eqb_spec y y') as [->|]; [|reflexivity].
    destruct (Z.eqb_spec (m - 1) (m' - 1)) as [Hm|]; [|reflexivity].
    destruct (Z.eqb_spec d d') as [->|]; [|reflexivity].
    exfalso. apply Hne. apply civil_from_days_inj.
    rewrite Ea, Eb. repeat f_equal. lia.
Qed.

Example calendar_days :
  civil_from_days (days_from_civil 2026 11 3) = (2026, 11, 3)
  /\ days_from_civil 1970 1 1 = 0
  /\ civil_from_days (-1) = (1969, 12, 31)
  /\ days_from_civil 2024 2 29 + 1 = days_from_civil 2024 3 1
  /\ MakeDay 2024 12 1 = days_from_civil 2025 1 1
  /\ MakeDay 2025 0 0 = days_from_civil 2024 12 31.
Proof. repeat split; reflexivity. Qed.

(** The days of the years 0 .. 275759 are within the range. *)
Lemma days_from_civil_range y m d :
  0 <= y <= 275759 -> 1 <= m <= 12 -> 1 <= d <= 31 ->
  inDateRange (days_from_civil y m d).
Proof.
  intros Hy Hm Hd. unfold inDateRange, days_from_civil. cbv zeta.
  set (y' := if m <=? 2 then y - 1 else y).
  assert (Hy' : -1 <= y' <= 275759)
    by (unfold y'; destruct (m <=? 2); lia).
  set (mp := if 2 <? m then m - 3 else m + 9).
  assert (Hmp : 0 <= mp <= 11)
    by (unfold mp; destruct (Z.ltb_spec 2 m); lia).
  clearbody y' mp.
  pose proof (Z.div_mod y' 400 ltac:(lia)) as Hq.
  pose proof (Z.mod_pos_bound y' 400 ltac:(lia)) as Hr.
  replace (y' - y' / 400 * 400) with (y' mod 400) by lia.
  set (e := y' / 400) in *. set (r := y' mod 400) in *. clearbody e r.
  assert (He : -1 <= e <= 689) by lia.
  assert (H153 : 0 <= (153 * mp + 2) / 5 <= 337)
    by (split; [apply Z.div_pos; lia|apply Z.div_le_upper_bound; lia]).
  assert (H4 : 0 <= r / 4 < 100)
    by (split; [apply Z.div_pos; lia|apply Z.div_lt_upper_bound; lia]).
  assert (H100 : 0 <= r / 100 < 4)
    by (split; [apply Z.div_pos; lia|apply Z.div_lt_upper_bound; lia]).
  assert (H40 : r < 160 -> r / 4 < 40)
    by (intros H; apply Z.div_lt_upper_bound; lia).
  set (a := (153 * mp + 2) / 5) in *. set (b := r / 4) in *.
  set (c := r / 100) in *. clearbody a b c.
  split; [lia|].
  destruct (Z.eq_dec e 689) as [->|]; lia.
Qed.

(** Nothing is clipped on a day in range, whatever the zone. *)
Lemma TimeClip_in_range tza t :
  Z.abs tza < msPerDay -> inDateRange (Day t) -> TimeClip tza t = DateAt t.
Proof.
  unfold TimeClip, inDateRange, Day, maxTime, msPerDay. intros Hz Hd.
  pose proof (Z.div_mod t 86400000 ltac:(lia)) as Hq.
  pose proof (Z.mod_pos_bound t 86400000 ltac:(lia)) as Hr.
  replace (Z.abs (t - tza) <=? 8640000000000000) with true; [reflexivity|].
  symmetry. apply Z.leb_le. lia.
Qed.

End Calendar.

(* ================================================================== *)
(** * The slot catalog *)

Section Catalog.
Import JS Slots Spec.

(** The catalog, written out. *)
Lemma getAllTimeSlots_value :
  getAllTimeSlots =
  ["09:00"; "09:30"; "10:00"; "10:30"; "11:00"; "11:30"; "12:00"; "12:30";
   "13:00"; "13:30"; "14:00"; "14:30"; "15:00"; "15:30"; "16:00"; "16:30";
   "17:00"; "17:30"; "18:00"; "18:30"; "19:00"; "19:30"; "20:00"; "20:30";
   "21:00"; "21:30"].
Proof. reflexivity. Qed.

(** More fuel changes nothing: the loop has left when [hour] is 22. *)
Lemma hourLoop_enough fuel :
  (13 <= fuel)%nat -> hourLoop fuel 9 [] = getAllTimeSlots.
Proof.
  intros H. do 13 (destruct fuel as [|fuel]; [lia|]).
  destruct fuel; reflexivity.
Qed.

(** Every slot of the catalog splits into an hour and a minute field. *)
Lemma catalog_fields slot :
  In slot getAllTimeSlots ->
  exists h m, slotFields slot = (Int h, Int m)
              /\ 9 <= h <= 21 /\ (m = 0 \/ m = 30).
Proof.
  rewrite getAllTimeSlots_value. intros H.
  repeat (destruct H as [<-|H];
          [eexists; eexists; split; [vm_compute; reflexivity|lia]|]).
  destruct H.
Qed.

(** C1 (the code against the claim): [getAllTimeSlots()] returns 26
    slots, not 25; it starts at 09:00, steps by 30 minutes, and its last
    element is 21:30, not 21:00.  The loop [hour <= 21] runs the inner
    loop over [0, 30] also for hour 21. *)
Theorem C1_catalog_has_26_slots_ending_at_2130 :
  List.length getAllTimeSlots = 26%nat
  /\ hd_error getAllTimeSlots = Some "09:00"
  /\ nth_error getAllTimeSlots 24 = Some "21:00"
  /\ last getAllTimeSlots "" = "21:30"
  /\ map Picker.minutesOf getAllTimeSlots
     = map (fun i => Int (540 + 30 * Z.of_nat i)) (seq 0 26).
Proof. repeat split; reflexivity. Qed.

End Catalog.

(* ================================================================== *)
(** * The availability filter *)

Section Availability.
Import JS Slots Spec.

Lemma filter_Subsequence {A} (p : A -> bool) (l : list A) :
  Subsequence (filter p l) l.
Proof.
  induction l as [|x l IH]; simpl.
  - constructor.
  - destruct (p x); constructor; exact IH.
Qed.

(** A Date on another day than [now], or an invalid one, disables nothing. *)
Lemma isSlotDisabled_other_day now date slot :
  (forall t, date = DateAt t -> Day t <> Day now) ->
  isSlotDisabled now date slot = false.
Proof.
  intros H. unfold isSlotDisabled. destruct date as [|t].
  - reflexivity.
  - rewrite toDateString_same_day.
    destruct (Z.eqb_spec (Day now) (Day t)) as [E|_]; [|reflexivity].
    exfalso. apply (H t eq_refl). symmetry. exact E.
Qed.

(** On the day of [now] a slot is disabled iff its instant is before [now]. *)
Lemma isSlotDisabled_today now t slot h m :
  Day t = Day now ->
  slotFields slot = (Int h, Int m) ->
  isSlotDisabled now (DateAt t) slot
  = (MakeDate (Day t) (MakeTime h m 0 0) <? now).
Proof.
  intros Hd Hf. unfold isSlotDisabled.
  rewrite toDateString_same_day, Hf.
  replace (Day now =? Day t) with true by (symmetry; apply Z.eqb_eq; lia).
  reflexivity.
Qed.

(** C2: a slot is never disabled for a Date on another calendar day than
    [now]; on the day of [now] it is disabled exactly when the instant of
    that day at the slot's hour and minute is strictly before [now];
    [getAvailableTimeSlots] is the catalog without the disabled slots, in
    catalog order. *)
Theorem C2_availability_filter :
  (forall now date slot,
      (forall t, date = DateAt t -> Day t <> Day now) ->
      isSlotDisabled now date slot = false)
  /\ (forall now t slot h m,
        Day t = Day now ->
        slotFields slot = (Int h, Int m) ->
        (isSlotDisabled now (DateAt t) slot = true
         <-> MakeDate (Day t) (MakeTime h m 0 0) < now))
  /\ (forall slot, In slot getAllTimeSlots ->
        exists h m, slotFields slot = (Int h, Int m))
  /\ (forall now date,
        Subsequence (getAvailableTimeSlots now date) getAllTimeSlots
        /\ forall slot,
            In slot (getAvailableTimeSlots now date)
            <-> In slot getAllTimeSlots
                /\ isSlotDisabled now date slot = false).
Proof.
  split; [exact isSlotDisabled_other_day|].
  split.
  { intros now t slot h m Hd Hf.
    rewrite (isSlotDisabled_today now t slot h m Hd Hf). apply Z.ltb_lt. }
  split.
  { intros slot H. destruct (catalog_fields slot H) as (h & m & Hf & _).
    exists h, m. exact Hf. }
  intros now date. split.
  - apply filter_Subsequence.
  - intros slot. unfold getAvailableTimeSlots. cbv zeta.
    rewrite filter_In, negb_true_iff. reflexivity.
Qed.

(** 2026-11-03, 10:15 local time. *)
Lemma C2_availability_filter_witness :
  isSlotDisabled 1793700900000 (DateAt 1793750400000) "09:00" = false
  /\ (isSlotDisabled 1793700900000 (DateAt 1793664000000) "10:00" = true
      <-> MakeDate (Day 1793664000000) (MakeTime 10 0 0 0) < 1793700900000)
  /\ (exists h m, slotFields "10:30" = (Int h, Int m)).
Proof.
  destruct C2_availability_filter as (H1 & H2 & H3 & _).
  split; [|split].
  - apply H1. intros t Ht. injection Ht as <-. vm_compute. discriminate.
  - apply H2; reflexivity.
  - apply H3. vm_compute. tauto.
Defined.

End Availability.

(* ================================================================== *)
(** * Slot reconciliation *)

Section Reconciliation.
Import JS Slots Picker Spec.

Lemma includes_In arr s : includes arr (Some s) = true <-> In s arr.
Proof.
  unfold includes. rewrite existsb_exists. split.
  - intros (x & Hx & E). apply String.eqb_eq in E. subst. exact Hx.
  - intros H. exists s. split; [exact H|apply String.eqb_refl].
Qed.

(** A slot in the available set is left alone, in either mode. *)
Lemma autoCorrect_member m available current :
  In current available -> autoCorrect m available current = current.
Proof.
  intros H. apply includes_In in H. unfold autoCorrect. rewrite H. simpl.
  rewrite andb_false_r.
  destruct (Mode_eqb m TimeMode && (0 <? List.length available)%nat);
    reflexivity.
Qed.

Section Nearest.

(** The minute of day of the current slot, and the distance of every
    slot of interest to it. *)
Variable currentMinutes : Z.
Variable dist : string -> Z.

Lemma nearestStep_measured minDiff nearest x :
  abs (sub (minutesOf x) (Int currentMinutes)) = Int (dist x) ->
  nearestStep (Int currentMinutes) (Int minDiff, nearest) x
  = if dist x <? minDiff then (Int (dist x), Some x)
    else (Int minDiff, nearest).
Proof. intros H. unfold nearestStep. rewrite H. reflexivity. Qed.

Lemma nearestStep_first nearest x :
  abs (sub (minutesOf x) (Int currentMinutes)) = Int (dist x) ->
  nearestStep (Int currentMinutes) (Infinity, nearest) x
  = (Int (dist x), Some x).
Proof. intros H. unfold nearestStep. rewrite H. reflexivity. Qed.

(** The [forEach], started from a finite [minDiff]: either nothing beats
    it, or the result is the first slot of least distance. *)
Lemma forEach_nearest l : forall minDiff nearest,
  measured currentMinutes dist l ->
  exists minDiff' nearest',
    fold_left (nearestStep (Int currentMinutes)) l (Int minDiff, Some nearest)
    = (Int minDiff', Some nearest')
    /\ ((nearest' = nearest /\ minDiff' = minDiff
         /\ forall s, In s l -> minDiff <= dist s)
        \/ (exists l1 l2,
              l = l1 ++ nearest' :: l2 /\ dist nearest' = minDiff'
              /\ minDiff' < minDiff
              /\ (forall s, In s l1 -> minDiff' < dist s)
              /\ (forall s, In s l2 -> minDiff' <= dist s))).
Proof.
  induction l as [|x l IH]; intros minDiff nearest Hm.
  - exists minDiff, nearest. split; [reflexivity|]. left.
    repeat split. intros s [].
  - assert (Hx : abs (sub (minutesOf x) (Int currentMinutes)) = Int (dist x))
      by (apply Hm; left; reflexivity).
    assert (Hl : measured currentMinutes dist l) by (intros s Hs; apply Hm; right; exact Hs).
    cbn [fold_left]. rewrite (nearestStep_measured _ _ _ Hx).
    destruct (Z.ltb_spec (dist x) minDiff) as [Hlt|Hge].
    + destruct (IH (dist x) x Hl) as (mn & r & E & [(-> & -> & Hall)|Hex]).
      * exists (dist x), x. split; [exact E|]. right.
        exists [], l. repeat split; auto. intros s [].
      * destruct Hex as (l1 & l2 & -> & Hd & Hlt' & H1 & H2).
        exists mn, r. split; [exact E|]. right.
        exists (x :: l1), l2. repeat split; auto; try lia.
        intros s [<-|Hs]; [lia|auto].
    + destruct (IH minDiff nearest Hl) as (mn & r & E & [(-> & -> & Hall)|Hex]).
      * exists minDiff, nearest. split; [exact E|]. left.
        repeat split. intros s [<-|Hs]; [lia|auto].
      * destruct Hex as (l1 & l2 & -> & Hd & Hlt' & H1 & H2).
        exists mn, r. split; [exact E|]. right.
        exists (x :: l1), l2. repeat split; auto.
        intros s [<-|Hs]; [lia|auto].
Qed.

(** The whole search on a non-empty array. *)
Lemma findNearest_first_least available current :
  available <> [] ->
  minutesOf current = Int currentMinutes ->
  measured currentMinutes dist available ->
  exists l1 l2 r,
    findNearest available current = Some r
    /\ available = l1 ++ r :: l2
    /\ (forall s, In s l1 -> dist r < dist s)
    /\ (forall s, In s l2 -> dist r <= dist s).
Proof.
  intros Hne Hc Hm. destruct available as [|x l]; [congruence|].
  unfold findNearest. rewrite Hc. cbn [fold_left].
  rewrite (nearestStep_first _ _ (Hm x (or_introl eq_refl))).
  assert (Hl : measured currentMinutes dist l) by (intros s Hs; apply Hm; right; exact Hs).
  destruct (forEach_nearest l (dist x) x Hl)
    as (mn & r & E & [(-> & -> & Hall)|Hex]); rewrite E; simpl snd.
  - exists [], l, x. repeat split; auto. intros s [].
  - destruct Hex as (l1 & l2 & -> & Hd & Hlt & H1 & H2).
    exists (x :: l1), l2, r. subst mn. repeat split; auto.
    intros s [<-|Hs]; [lia|auto].
Qed.

End Nearest.

(** C3: the auto-correct effect leaves a slot of the available set as it
    is; otherwise, on a non-empty available set (in time mode, with slot
    texts that have an hour and a minute field), it selects the first slot,
    in the order of the set, whose minute of day is at the least absolute
    difference from the current one; with available 09:00, 09:30, 10:00
    and current 09:15 the result is 09:00. *)
Theorem C3_slot_reconciliation :
  (forall m available current,
      In current available -> autoCorrect m available current = current)
  /\ (forall available current kc,
        available <> [] ->
        ~ In current available ->
        minutesOf current = Int kc ->
        (forall s, In s available -> exists k, minutesOf s = Int k) ->
        exists l1 l2 r kr,
          autoCorrect TimeMode available current = r
          /\ available = l1 ++ r :: l2
          /\ minutesOf r = Int kr
          /\ (forall s k, In s l1 -> minutesOf s = Int k ->
                Z.abs (kr - kc) < Z.abs (k - kc))
          /\ (forall s k, In s l2 -> minutesOf s = Int k ->
                Z.abs (kr - kc) <= Z.abs (k - kc)))
  /\ autoCorrect TimeMode ["09:00"; "09:30"; "10:00"] "09:15" = "09:00".
Proof.
  split; [exact autoCorrect_member|]. split; [|reflexivity].
  intros available current kc Hne Hnot Hc Hwf.
  set (dist := fun s => match minutesOf s with
                        | Int k => Z.abs (k - kc)
                        | _ => 0
                        end).
  assert (Hm : Spec.measured kc dist available).
  { intros s Hs. destruct (Hwf s Hs) as (k & Hk). unfold dist. rewrite Hk.
    simpl. f_equal; lia. }
  destruct (findNearest_first_least kc dist available current Hne Hc Hm)
    as (l1 & l2 & r & Hf & Hsplit & H1 & H2).
  assert (Hr : In r available) by (rewrite Hsplit; apply in_elt).
  destruct (Hwf r Hr) as (kr & Hkr).
  exists l1, l2, r, kr. split.
  - unfold autoCorrect. simpl Mode_eqb.
    destruct available as [|x l]; [congruence|]. simpl andb.
    assert (Hi : includes (x :: l) (Some current) = false).
    { destruct (includes (x :: l) (Some current)) eqn:E; [|reflexivity].
      apply includes_In in E. contradiction. }
    rewrite Hi. simpl negb. cbv iota. rewrite Hf. reflexivity.
  - split; [exact Hsplit|]. split; [exact Hkr|].
    assert (Hdr : dist r = Z.abs (kr - kc)) by (unfold dist; rewrite Hkr; reflexivity).
    split; intros s k Hs Hk.
    + specialize (H1 s Hs). unfold dist in H1 at 2. rewrite Hk in H1. lia.
    + specialize (H2 s Hs). unfold dist in H2 at 2. rewrite Hk in H2. lia.
Qed.

Lemma C3_slot_reconciliation_witness :
  autoCorrect TimeMode ["10:00"; "10:30"] "10:00" = "10:00"
  /\ exists l1 l2 r kr,
       autoCorrect TimeMode ["10:30"; "11:00"; "11:30"] "11:15" = r
       /\ ["10:30"; "11:00"; "11:30"] = l1 ++ r :: l2
       /\ minutesOf r = Int kr
       /\ (forall s k, In s l1 -> minutesOf s = Int k ->
             Z.abs (kr - 675) < Z.abs (k - 675))
       /\ (forall s k, In s l2 -> minutesOf s = Int k ->
             Z.abs (kr - 675) <= Z.abs (k - 675)).
Proof.
  destruct C3_slot_reconciliation as (H1 & H2 & _). split.
  - apply H1. simpl. tauto.
  - apply H2.
    + discriminate.
    + simpl. intros [H|[H|[H|[]]]]; discriminate.
    + reflexivity.
    + intros s [<-|[<-|[<-|[]]]]; eexists; vm_compute; reflexivity.
Defined.

End Reconciliation.

(* ================================================================== *)
(** * Dates of the picker *)

Section PickerDates.
Import JS Slots Picker Spec.

Lemma getTodayLocal_value now :
  getTodayLocal now = DateAt (Day now * msPerDay).
Proof.
  unfold getTodayLocal, setHours, MakeDate, MakeTime. f_equal. lia.
Qed.

Lemma Day_midnight n : Day (n * msPerDay) = n.
Proof. unfold Day, msPerDay. apply Z.div_mul. lia. Qed.

Lemma Day_next t : Day (t + msPerDay) = Day t + 1.
Proof.
  unfold Day, msPerDay.
  replace (t + 86400000) with (t + 1 * 86400000) by lia.
  apply Z.div_add. lia.
Qed.

(** A valid Date is past iff its calendar day is before the day of
    [now]; an invalid one is never past. *)
Lemma isPastDate_valid now t : isPastDate now (DateAt t) = (Day t <? Day now).
Proof.
  unfold isPastDate, getTodayLocal, stripTime, setHours, getTime, lt,
    MakeDate, MakeTime, msPerDay.
  destruct (Z.ltb_spec (Day t) (Day now));
    [apply Z.ltb_lt|apply Z.ltb_ge]; lia.
Qed.

Lemma isPastDate_invalid now : isPastDate now InvalidDate = false.
Proof. reflexivity. Qed.

(** Off the day of [now], every slot of the catalog is available. *)
Lemma available_other_day now date :
  (forall t, date = DateAt t -> Day t <> Day now) ->
  getAvailableTimeSlots now date = getAllTimeSlots.
Proof.
  intros H. unfold getAvailableTimeSlots. cbv zeta.
  rewrite (filter_ext _ (fun _ => true)).
  - induction getAllTimeSlots as [|x l IH]; simpl; congruence.
  - intros slot. rewrite (isSlotDisabled_other_day now date slot H).
    reflexivity.
Qed.

Lemma scanDays_step k now checkDate :
  scanDays (S k) now checkDate =
  if (0 <? List.length (getAvailableTimeSlots now checkDate))%nat
  then Some checkDate
  else scanDays k now (setDate checkDate (add (getDate checkDate) (Int 1))).
Proof. reflexivity. Qed.

Lemma length_pos_nil {A} (l : list A) :
  (0 <? List.length l)%nat = false <-> l = [].
Proof. destruct l; unfold Nat.ltb; simpl; split; intros; congruence. Qed.

(** The loop returns the first day, counted from [checkDate], that has an
    available slot, or runs out when no day of the horizon has one. *)
Lemma scanDays_first fuel now : forall t,
  match scanDays fuel now (DateAt t) with
  | Some found =>
      exists i, 0 <= i < Z.of_nat fuel
        /\ found = dayAfter (DateAt t) i
        /\ getAvailableTimeSlots now found <> []
        /\ forall j, 0 <= j < i ->
             getAvailableTimeSlots now (dayAfter (DateAt t) j) = []
  | None =>
      forall j, 0 <= j < Z.of_nat fuel ->
        getAvailableTimeSlots now (dayAfter (DateAt t) j) = []
  end.
Proof.
  induction fuel as [|k IH]; intros t.
  - simpl. intros j Hj. lia.
  - rewrite scanDays_step.
    destruct (0 <? List.length (getAvailableTimeSlots now (DateAt t)))%nat eqn:E.
    + exists 0. simpl dayAfter. rewrite Z.add_0_r.
      split; [lia|]. split; [reflexivity|]. split.
      * intros Hnil. rewrite Hnil in E. discriminate.
      * intros j Hj. lia.
    + apply length_pos_nil in E. rewrite setDate_next.
      specialize (IH (t + msPerDay)).
      assert (Hshift : forall j, dayAfter (DateAt (t + msPerDay)) j
                                 = dayAfter (DateAt t) (j + 1)).
      { intros j. simpl. f_equal. lia. }
      assert (H0 : dayAfter (DateAt t) 0 = DateAt t).
      { simpl. f_equal. lia. }
      destruct (scanDays k now (DateAt (t + msPerDay))) as [found|].
      * destruct IH as (i & Hi & Hf & Hne & Hbefore).
        exists (i + 1). split; [lia|]. split; [rewrite <- Hshift; exact Hf|].
        split; [exact Hne|]. intros j Hj.
        destruct (Z.eq_dec j 0) as [->|Hj0]; [rewrite H0; exact E|].
        replace j with (j - 1 + 1) by lia. rewrite <- Hshift.
        apply Hbefore. lia.
      * intros j Hj.
        destruct (Z.eq_dec j 0) as [->|Hj0]; [rewrite H0; exact E|].
        replace j with (j - 1 + 1) by lia. rewrite <- Hshift.
        apply IH. lia.
Qed.

(** C7: [getNextAvailableDate] scans the 365 days from today on, today
    included, and returns the first whose available set is not empty; it
    returns today when there is none; when today has no available slot it
    returns tomorrow. *)
Theorem C7_next_available_date now :
  let today := getTodayLocal now in
  ((exists i, 0 <= i < 365
      /\ getNextAvailableDate now = dayAfter today i
      /\ getAvailableTimeSlots now (dayAfter today i) <> []
      /\ forall j, 0 <= j < i ->
           getAvailableTimeSlots now (dayAfter today j) = [])
   \/ ((forall j, 0 <= j < 365 ->
          getAvailableTimeSlots now (dayAfter today j) = [])
       /\ getNextAvailableDate now = today))
  /\ (getAvailableTimeSlots now today = [] ->
      getNextAvailableDate now = dayAfter today 1).
Proof.
  cbv zeta. unfold getNextAvailableDate. cbv zeta.
  fold (getTodayLocal now). rewrite getTodayLocal_value.
  set (t0 := Day now * msPerDay).
  split.
  - pose proof (scanDays_first 365 now t0) as H.
    destruct (scanDays 365 now (DateAt t0)) as [found|].
    + left. destruct H as (i & Hi & Hf & Hne & Hb).
      exists i. split; [lia|]. rewrite <- Hf. auto.
    + right. split; [|reflexivity]. intros j Hj. apply H. lia.
  - intros Hnil. change 365%nat with (S (S 363)).
    rewrite scanDays_step, Hnil. cbn [List.length Nat.ltb Nat.leb].
    rewrite setDate_next, scanDays_step.
    rewrite available_other_day.
    + simpl. f_equal; lia.
    + intros t Ht. injection Ht as <-. unfold t0.
      rewrite Day_next, Day_midnight. lia.
Qed.

(** The scan never goes further than tomorrow, and never falls back. *)
Lemma getNextAvailableDate_today_or_tomorrow now :
  getNextAvailableDate now =
  match getAvailableTimeSlots now (getTodayLocal now) with
  | [] => dayAfter (getTodayLocal now) 1
  | _ :: _ => getTodayLocal now
  end.
Proof.
  unfold getNextAvailableDate. cbv zeta. fold (getTodayLocal now).
  rewrite getTodayLocal_value. set (t0 := Day now * msPerDay).
  change 365%nat with (S (S 363)). rewrite scanDays_step.
  destruct (getAvailableTimeSlots now (DateAt t0)) as [|s l]; [|reflexivity].
  cbn [List.length Nat.ltb Nat.leb].
  rewrite setDate_next, scanDays_step, available_other_day.
  - simpl. f_equal; lia.
  - intros t Ht. injection Ht as <-. unfold t0.
    rewrite Day_next, Day_midnight. lia.
Qed.

(** 2026-11-03 at 22:00: the last slot of the day, 21:30, has passed. *)
Lemma C7_next_available_date_witness :
  getNextAvailableDate 1793743200000 = DateAt 1793750400000.
Proof.
  destruct (C7_next_available_date 1793743200000) as (_ & H).
  rewrite H; reflexivity.
Defined.

(** ** Seeding of [selectedDate] *)

Lemma split_fields_truthy text (a b c : Num) :
  map Number (split "-" text) = [a; b; c] -> truthy text = true.
Proof. destruct text; [discriminate|reflexivity]. Qed.

(** C4, against the claim: at 22:00 with no initial date the state is
    seeded with today, a day without an available slot, and not with the
    next date that has one. *)
Lemma C4_seed_is_today_not_next_available :
  initSelectedDate 1793743200000 None = DateAt 1793664000000
  /\ getAvailableTimeSlots 1793743200000 (DateAt 1793664000000) = []
  /\ getNextAvailableDate 1793743200000 = DateAt 1793750400000
  /\ initSelectedDate 1793743200000 None
     <> getNextAvailableDate 1793743200000.
Proof.
  assert (Hn : getNextAvailableDate 1793743200000 = DateAt 1793750400000)
    by (vm_compute; reflexivity).
  repeat split; try (vm_compute; reflexivity).
  rewrite Hn. vm_compute. discriminate.
Qed.

(** An initial date that is no date at all is kept, as an invalid Date:
    the comparison of [isPastDate] is false on [NaN]. *)
Remark malformed_seed_is_kept now :
  initSelectedDate now (Some "soon") = InvalidDate.
Proof. reflexivity. Qed.

(** The month arrows wrap around the year. *)
Remark navigateMonth_wraps st :
  (selectedMonth st = Int 11 ->
   selectedMonth (navigateMonth Next st) = Int 0
   /\ selectedYear (navigateMonth Next st) = add (selectedYear st) (Int 1))
  /\ (selectedMonth st = Int 0 ->
      selectedMonth (navigateMonth Prev st) = Int 11
      /\ selectedYear (navigateMonth Prev st) = sub (selectedYear st) (Int 1)).
Proof. split; intros H; unfold navigateMonth; rewrite H; split; reflexivity. Qed.

(** C4 (amended): the selection state is seeded when the modal is
    mounted, from the initial date it is given then.  A year-month-day
    text with a year 100 .. 275759, a month 1 .. 12 and a day 1 .. 31
    names a day within the range of Date; the state is seeded with that
    day when it is not before today, and with today, without any scan,
    when it is before today or when the initial date is absent or
    empty. *)
Theorem C4_seed_selected_date now md initialTime :
  (forall text y m d,
      map Number (split "-" text) = [Int y; Int m; Int d] ->
      100 <= y <= 275759 -> 1 <= m <= 12 -> 1 <= d <= 31 ->
      let n := days_from_civil y m d in
      inDateRange n
      /\ (Day now <= n ->
          selectedDate (init now md (Some text) initialTime)
          = DateAt (n * msPerDay))
      /\ (n < Day now ->
          selectedDate (init now md (Some text) initialTime)
          = getTodayLocal now))
  /\ selectedDate (init now md None initialTime) = getTodayLocal now
  /\ selectedDate (init now md (Some "") initialTime) = getTodayLocal now
  /\ getTodayLocal now = DateAt (Day now * msPerDay).
Proof.
  unfold init. cbv zeta. cbn [selectedDate].
  split; [|repeat split; try reflexivity; apply getTodayLocal_value].
  intros text y m d Hf Hy Hm Hd. set (n := days_from_civil y m d).
  split; [apply days_from_civil_range; lia|].
  unfold initSelectedDate. rewrite (split_fields_truthy _ _ _ _ Hf), Hf.
  unfold elem. cbn [nth]. cbn [sub neg add newDate].
  replace ((0 <=? y) && (y <=? 99)) with false
    by (symmetry; apply andb_false_iff; right; apply Z.leb_gt; lia).
  change (m + - (1)) with (m - 1).
  rewrite MakeDay_civil by lia. fold n.
  replace (MakeDate n 0) with (n * msPerDay) by (unfold MakeDate; lia).
  rewrite isPastDate_valid, Day_midnight.
  split; intros H.
  - replace (n <? Day now) with false by (symmetry; apply Z.ltb_ge; lia).
    reflexivity.
  - replace (n <? Day now) with true by (symmetry; apply Z.ltb_lt; lia).
    reflexivity.
Qed.

(** Mounted on 2026-11-03 at 10:15 with 2026-12-25, and with 2026-11-02. *)
Lemma C4_seed_selected_date_witness :
  selectedDate (init 1793700900000 DateMode (Some "2026-12-25") None)
  = DateAt 1798156800000
  /\ selectedDate (init 1793700900000 DateMode (Some "2026-11-02") None)
     = DateAt 1793664000000.
Proof.
  destruct (C4_seed_selected_date 1793700900000 DateMode None) as (H & _).
  split.
  - destruct (H "2026-12-25" 2026 12 25) as (_ & H1 & _);
      [reflexivity|lia|lia|lia|].
    apply H1. vm_compute. discriminate.
  - destruct (H "2026-11-02" 2026 11 2) as (_ & _ & H2);
      [reflexivity|lia|lia|lia|].
    rewrite H2; [reflexivity|]. vm_compute. reflexivity.
Defined.

(** ** The OK button *)

Lemma initSelectedDate_valid now initialDate :
  seedText initialDate -> exists t, initSelectedDate now initialDate = DateAt t.
Proof.
  destruct initialDate as [text|]; simpl.
  - intros [->|(y & m & d & Hf)].
    + eexists. apply getTodayLocal_value.
    + unfold initSelectedDate.
      rewrite (split_fields_truthy _ _ _ _ Hf), Hf.
      unfold elem. cbn [nth sub neg add newDate].
      match goal with
      | |- context [negb ?b] => destruct b
      end; cbn [negb]; eexists; [apply getTodayLocal_value|reflexivity].
  - intros _. eexists. apply getTodayLocal_value.
Qed.

Lemma seedInRange_seedText initialDate :
  seedInRange initialDate -> seedText initialDate.
Proof.
  destruct initialDate as [text|]; [|exact (fun H => H)].
  intros [H|(y & m & d & Hf & _)]; [left; exact H|].
  right. exists y, m, d. exact Hf.
Qed.

(** A reachable state holds a valid Date and integer month and year. *)
Lemma Reachable_valid st :
  Reachable st ->
  (exists t, selectedDate st = DateAt t)
  /\ (exists y, selectedYear st = Int y)
  /\ (exists m, selectedMonth st = Int m).
Proof.
  induction 1 as [now m initialDate initialTime Hseed
                 |now day st _ (Hd & (y & Hy) & (mo & Hm)) _
                 |direction st _ (Hd & (y & Hy) & (mo & Hm))
                 |slot st _ IH].
  - apply seedInRange_seedText in Hseed.
    destruct (initSelectedDate_valid now initialDate Hseed) as (t & Ht).
    unfold init. cbv zeta. rewrite Ht. simpl. repeat split; eexists; reflexivity.
  - unfold selectDate. cbv zeta. rewrite Hy, Hm.
    destruct (negb (isPastDate now (newDate (Int y) (Int mo) (Int day)))).
    + simpl. rewrite Hy, Hm. repeat split; eauto.
    + rewrite Hy, Hm. repeat split; eauto.
  - destruct direction; unfold navigateMonth; rewrite Hy, Hm;
      match goal with
      | |- context [if ?b then _ else _] => destruct b
      end; simpl; repeat split; eauto.
  - exact IH.
Qed.




End PickerDates.

(* ================================================================== *)
(** * Arrow keys of the list adapter *)

Section ArrowKeys.
Import JS Slots Desktop Spec.

Variables allSlots disabledSlots : list string.


Lemma skipLoop_step k down index newIndex :
  skipLoop (S k) down allSlots disabledSlots index newIndex =
  let next :=
    if down then Z.min (newIndex + 1) (Z.of_nat (List.length allSlots) - 1)
    else Z.max (newIndex - 1) 0 in
  if disabledAt allSlots disabledSlots next && negb (next =? index)
  then skipLoop k down allSlots disabledSlots index next
  else Some next.
Proof. reflexivity. Qed.

(** A result of the loop does not depend on the fuel left over. *)
Lemma skipLoop_more_fuel down index r : forall fuel fuel' newIndex,
  skipLoop fuel down allSlots disabledSlots index newIndex = Some r ->
  (fuel <= fuel')%nat ->
  skipLoop fuel' down allSlots disabledSlots index newIndex = Some r.
Proof.
  induction fuel as [|k IH]; intros fuel' newIndex H Hle; [discriminate|].
  destruct fuel' as [|k']; [lia|].
  rewrite skipLoop_step in *. cbv zeta in *.
  match goal with
  | |- context [if ?b then _ else _] => destruct b
  end; [|exact H].
  apply IH; [exact H|lia].
Qed.

(** Upwards, below [index], the loop stops at the first enabled slot. *)
Lemma skipLoop_up_finds index j : forall n fuel newIndex,
  0 <= j -> newIndex <= index ->
  newIndex = j + 1 + Z.of_nat n ->
  disabledAt allSlots disabledSlots j = false ->
  (forall k, j < k < newIndex -> disabledAt allSlots disabledSlots k = true) ->
  (n < fuel)%nat ->
  skipLoop fuel false allSlots disabledSlots index newIndex = Some j.
Proof.
  induction n as [|n IH]; intros fuel newIndex Hj Hle Hn Hen Hdis Hfuel;
    (destruct fuel as [|fuel]; [lia|]); rewrite skipLoop_step; cbv zeta.
  - replace (Z.max (newIndex - 1) 0) with j by lia.
    rewrite Hen. reflexivity.
  - replace (Z.max (newIndex - 1) 0) with (newIndex - 1) by lia.
    rewrite (Hdis (newIndex - 1)) by lia.
    replace (newIndex - 1 =? index) with false
      by (symmetry; apply Z.eqb_neq; lia).
    apply IH; try lia; try assumption.
    intros k Hk. apply Hdis. lia.
Qed.

(** Downwards, above [index], likewise. *)
Lemma skipLoop_down_finds index j : forall n fuel newIndex,
  j < Z.of_nat (List.length allSlots) -> index <= newIndex ->
  j = newIndex + 1 + Z.of_nat n ->
  disabledAt allSlots disabledSlots j = false ->
  (forall k, newIndex < k < j -> disabledAt allSlots disabledSlots k = true) ->
  (n < fuel)%nat ->
  skipLoop fuel true allSlots disabledSlots index newIndex = Some j.
Proof.
  induction n as [|n IH]; intros fuel newIndex Hj Hle Hn Hen Hdis Hfuel;
    (destruct fuel as [|fuel]; [lia|]); rewrite skipLoop_step; cbv zeta.
  - replace (Z.min (newIndex + 1) (Z.of_nat (List.length allSlots) - 1))
      with j by lia.
    rewrite Hen. reflexivity.
  - replace (Z.min (newIndex + 1) (Z.of_nat (List.length allSlots) - 1))
      with (newIndex + 1) by lia.
    rewrite (Hdis (newIndex + 1)) by lia.
    replace (newIndex + 1 =? index) with false
      by (symmetry; apply Z.eqb_neq; lia).
    apply IH; try lia; try assumption.
    intros k Hk. apply Hdis. lia.
Qed.

(** With an enabled slot in the direction of the arrow, the handler
    returns and selects the nearest one. *)
Lemma arrow_selects_nearest_enabled (down : bool) index j fuel :
  0 <= j < Z.of_nat (List.length allSlots) ->
  (if down then index < j else j < index) ->
  disabledAt allSlots disabledSlots j = false ->
  (forall k, (if down then index < k < j else j < k < index) ->
             disabledAt allSlots disabledSlots k = true) ->
  (Z.to_nat (Z.abs (j - index)) <= fuel)%nat ->
  arrow fuel down allSlots disabledSlots index
  = Some (Selected (item allSlots j) (Some j)).
Proof.
  intros Hj Hdir Hen Hdis Hfuel. unfold arrow. destruct down.
  - rewrite (skipLoop_down_finds index j (Z.to_nat (j - index - 1)));
      try lia; try assumption.
    fold (disabledAt allSlots disabledSlots j). rewrite Hen. reflexivity.
  - rewrite (skipLoop_up_finds index j (Z.to_nat (index - j - 1)));
      try lia; try assumption.
    fold (disabledAt allSlots disabledSlots j). rewrite Hen. reflexivity.
Qed.

(** Upwards with nothing but disabled slots below: once at index 0 the
    loop stays there, 0 is never [index], and the loop never leaves. *)
Lemma skipLoop_up_stuck index :
  0 < index -> disabledAt allSlots disabledSlots 0 = true ->
  forall fuel, skipLoop fuel false allSlots disabledSlots index 0 = None.
Proof.
  intros Hi H0. induction fuel as [|k IH]; [reflexivity|].
  rewrite skipLoop_step. cbv zeta.
  change (Z.max (0 - 1) 0) with 0. rewrite H0.
  replace (0 =? index) with false by (symmetry; apply Z.eqb_neq; lia).
  exact IH.
Qed.

Lemma skipLoop_up_diverges index : forall fuel n newIndex,
  0 < index -> newIndex = Z.of_nat n -> newIndex <= index ->
  (forall k, 0 <= k < index -> disabledAt allSlots disabledSlots k = true) ->
  skipLoop fuel false allSlots disabledSlots index newIndex = None.
Proof.
  intros fuel n. revert fuel.
  induction n as [|n IH]; intros fuel newIndex Hi Hn Hle Hdis.
  - subst newIndex. apply skipLoop_up_stuck; [exact Hi|]. apply Hdis. lia.
  - destruct fuel as [|fuel]; [reflexivity|].
    rewrite skipLoop_step. cbv zeta.
    replace (Z.max (newIndex - 1) 0) with (newIndex - 1) by lia.
    rewrite (Hdis (newIndex - 1)) by lia.
    replace (newIndex - 1 =? index) with false
      by (symmetry; apply Z.eqb_neq; lia).
    apply IH; try assumption; lia.
Qed.

(** ArrowUp on a slot with only disabled slots above it never returns. *)
Lemma arrow_up_diverges index fuel :
  0 < index ->
  (forall k, 0 <= k < index -> disabledAt allSlots disabledSlots k = true) ->
  arrow fuel false allSlots disabledSlots index = None.
Proof.
  intros Hi Hdis. unfold arrow.
  rewrite (skipLoop_up_diverges index fuel (Z.to_nat index) index);
    try assumption; try lia. reflexivity.
Qed.

End ArrowKeys.

Section ArrowKeysToday.
Import JS Slots Desktop.

(** C5 (the code against the claim): on 2026-11-03 at 09:10 the list
    shows 09:00 disabled; ArrowUp on 09:30, the first enabled slot, has no
    enabled slot to go to, and the handler does not return: its loop is
    still running after any number of rounds.  The claim has the handler
    return without moving the selection. *)
Theorem C5_arrow_up_on_first_enabled_never_returns :
  disabledSlotsOf 1793697000000 (DateAt 1793697000000) = ["09:00"]
  /\ item getAllTimeSlots 1 = Some "09:30"
  /\ forall fuel,
       handleKeyDown fuel ArrowUp getAllTimeSlots ["09:00"] "09:30" 1 = None.
Proof.
  split; [vm_compute; reflexivity|]. split; [reflexivity|].
  intros fuel. unfold handleKeyDown. apply arrow_up_diverges; [lia|].
  intros k Hk. replace k with 0 by lia. reflexivity.
Qed.

End ArrowKeysToday.

(* ================================================================== *)
(** * The wheel *)

Section WheelFacts.
Import Wheel.

Lemma clamp_range selectedIndex len :
  (0 < len)%nat -> 0 <= clamp selectedIndex len <= Z.of_nat len - 1.
Proof. unfold clamp. lia. Qed.

Lemma item_In {T} (items : list T) i x : item T items i = Some x -> In x items.
Proof.
  unfold item. destruct (i <? 0); [discriminate|]. apply nth_error_In.
Qed.

Lemma item_in_range {T} (items : list T) i :
  0 <= i <= Z.of_nat (List.length items) - 1 -> exists x, item T items i = Some x.
Proof.
  intros H. unfold item.
  replace (i <? 0) with false by (symmetry; apply Z.ltb_ge; lia).
  destruct (nth_error items (Z.to_nat i)) as [x|] eqn:E; [eauto|].
  apply nth_error_None in E. lia.
Qed.

(** C10: on a non-empty item list both handlers work with an index
    clamped into [0, items.length - 1]; what [handleScroll] passes to
    [onSelect] is an element of the list, and [handleScrollEnd] snaps to
    the place of an element. *)
Theorem C10_wheel_selects_list_elements
  (T : Type) (T_eqb : T -> T -> bool) (items : list T) (selectedValue : T)
  (scrollTop : Q) :
  items <> [] ->
  0 <= clampedIndex scrollTop (List.length items)
    <= Z.of_nat (List.length items) - 1
  /\ (forall v,
        handleScroll T T_eqb items selectedValue (Some scrollTop) = Some v ->
        exists x, v = Some x /\ In x items)
  /\ (exists i,
        handleScrollEnd T items (Some scrollTop) = Some (i * ITEM_HEIGHT)
        /\ 0 <= i <= Z.of_nat (List.length items) - 1).
Proof.
  intros Hne.
  assert (Hlen : (0 < List.length items)%nat)
    by (destruct items; [congruence|simpl; lia]).
  assert (Hr := clamp_range
                  (Math_round (scrollTop / inject_Z ITEM_HEIGHT))
                  (List.length items) Hlen).
  fold (clampedIndex scrollTop (List.length items)) in Hr.
  split; [exact Hr|]. split.
  - intros v Hv. unfold handleScroll in Hv. cbv zeta in Hv.
    destruct (item_in_range items _ Hr) as (x & Hx). rewrite Hx in Hv.
    destruct (negb (T_eqb x selectedValue)); [|discriminate].
    injection Hv as <-. exists x. split; [reflexivity|].
    exact (item_In _ _ _ Hx).
  - exists (clampedIndex scrollTop (List.length items)).
    split; [reflexivity|exact Hr].
Qed.

(** Three slots, scrolled to 100 px while the first is selected. *)
Lemma C10_wheel_selects_list_elements_witness :
  exists x,
    handleScroll string String.eqb ["10:00"; "10:30"; "11:00"] "10:00"
                 (Some (100 # 1)) = Some (Some x)
    /\ In x ["10:00"; "10:30"; "11:00"].
Proof.
  destruct (C10_wheel_selects_list_elements string String.eqb
              ["10:00"; "10:30"; "11:00"] "10:00" (100 # 1))
    as (_ & H & _); [discriminate|].
  destruct (H (Some "11:00") eq_refl) as (x & Hx & Hin).
  exists x. split; [|exact Hin]. rewrite <- Hx. reflexivity.
Defined.

End WheelFacts.

(* ================================================================== *)
(** * The wizard *)

Section WizardFacts.
Import Wizard.

(** C8: going back lowers the step by one and leaves the booking (service
    type, package, date, time, contact details) and the rest of the state
    as they are; after "editing" is chosen at step 1, going back from
    step 2 shows step 1 with the service type still "editing". *)
Theorem C8_back_keeps_booking :
  (forall st,
      step (handleBack st) = step st - 1
      /\ formData (handleBack st) = formData st
      /\ submitted (handleBack st) = submitted st
      /\ dateDisplay (handleBack st) = dateDisplay st
      /\ timeDisplay (handleBack st) = timeDisplay st)
  /\ (let st2 := clickService "editing" initial in
      step st2 = 2
      /\ serviceType (formData st2) = "editing"
      /\ step (handleBack st2) = 1
      /\ serviceType (formData (handleBack st2)) = "editing").
Proof. split; [intros st|]; repeat split. Qed.

(** C6, against the claim: when the call itself fails ([fetch] rejects, or
    the body is no JSON) the handler shows no alert.  The wizard is at
    step 4 with a filled booking. *)
Lemma C6_rejected_call_shows_no_alert :
  let st :=
    mkState 4
      (mkBooking "videography" "p1" "2025-03-10" "10:30"
         (mkDetails "Ada" "a@example.com" "" "" "Need a product video" ""))
      false false false "10/03/2025" "10:30 AM" in
  failed FetchRejects = true
  /\ alerts (handleSubmit st FetchRejects) = []
  /\ failed JsonRejects = true
  /\ alerts (handleSubmit st JsonRejects) = [].
Proof. repeat split. Qed.

(** C6 (amended): a failed attempt of any kind leaves the wizard where it
    is, step and booking included, so that submit can be clicked again.
    The alert is shown when the body is parsed and is not [null] (its
    [success] is then absent or falsy); when the call itself fails, or
    the body parsed is [null], no alert is shown and the promise of the
    handler is rejected. *)
Theorem C6_failed_submission_keeps_state st transport :
  failed transport = true ->
  after (handleSubmit st transport) = st
  /\ request (handleSubmit st transport) = payloadOf (formData st)
  /\ (forall data,
        transport = Resolves data -> data <> JNull ->
        alerts (handleSubmit st transport) = [submitErrorMessage]
        /\ rejected (handleSubmit st transport) = false)
  /\ (transport = FetchRejects \/ transport = JsonRejects
      \/ transport = Resolves JNull ->
      alerts (handleSubmit st transport) = []
      /\ rejected (handleSubmit st transport) = true).
Proof.
  intros Hf. unfold handleSubmit. cbv zeta.
  destruct transport as [| |data].
  - repeat split; try discriminate.
  - repeat split; try discriminate.
  - simpl in Hf. destruct (successOf data) as [success|] eqn:E.
    + rewrite Hf. split; [reflexivity|]. split; [reflexivity|]. split.
      * intros data' Hd Hn. split; reflexivity.
      * intros [H|[H|H]]; try discriminate.
        injection H as ->. discriminate E.
    + split; [reflexivity|]. split; [reflexivity|]. split.
      * intros data' Hd Hn. injection Hd as <-.
        destruct data; try discriminate E. contradiction.
      * intros _. split; reflexivity.
Qed.

Lemma C6_failed_submission_keeps_state_witness :
  let st :=
    mkState 4
      (mkBooking "videography" "p1" "2025-03-10" "10:30"
         (mkDetails "Ada" "a@example.com" "" "" "Need a product video" ""))
      false false false "10/03/2025" "10:30 AM" in
  let reply := Resolves (JObject [("success", JBool false);
                                  ("error", JString "mail")]) in
  after (handleSubmit st reply) = st
  /\ alerts (handleSubmit st reply) = [submitErrorMessage]
  /\ alerts (handleSubmit st (Resolves JNull)) = [].
Proof.
  cbv zeta.
  destruct (C6_failed_submission_keeps_state
              (mkState 4
                 (mkBooking "videography" "p1" "2025-03-10" "10:30"
                    (mkDetails "Ada" "a@example.com" "" ""
                       "Need a product video" ""))
                 false false false "10/03/2025" "10:30 AM")
              (Resolves (JObject [("success", JBool false);
                                  ("error", JString "mail")])))
    as (Ha & _ & Hal & _); [reflexivity|].
  split; [exact Ha|].
  destruct (Hal _ eq_refl) as (H & _); [discriminate|].
  split; [exact H|].
  destruct (C6_failed_submission_keeps_state
              (mkState 4
                 (mkBooking "videography" "p1" "2025-03-10" "10:30"
                    (mkDetails "Ada" "a@example.com" "" ""
                       "Need a product video" ""))
                 false false false "10/03/2025" "10:30 AM")
              (Resolves JNull))
    as (_ & _ & _ & Hnull); [reflexivity|].
  destruct Hnull as (H0 & _); [right; right; reflexivity|].
  exact H0.
Defined.

End WizardFacts.

(* ================================================================== *)
(** * More on availability *)

Section AvailabilityMore.
Import JS Slots Picker Desktop Spec SpecMore.

Lemma increasing_head x l :
  increasing (x :: l) = true -> forall y, In y l -> x < y.
Proof.
  revert x. induction l as [|z l IH]; intros x H y Hy; [destruct Hy|].
  cbn [increasing] in H. apply andb_true_iff in H as [Hxz Hl].
  apply Z.ltb_lt in Hxz. destruct Hy as [<-|Hy]; [exact Hxz|].
  specialize (IH z Hl y Hy). lia.
Qed.

Lemma increasing_tail x l : increasing (x :: l) = true -> increasing l = true.
Proof.
  destruct l as [|z l]; [reflexivity|]. cbn [increasing].
  intros H. apply andb_true_iff in H as [_ H]. exact H.
Qed.

Lemma filter_none {A} (p : A -> bool) l :
  (forall y, In y l -> p y = false) -> filter p l = [].
Proof.
  induction l as [|x l IH]; intros H; [reflexivity|]. cbn [filter].
  rewrite (H x (or_introl eq_refl)). apply IH. intros y Hy. apply H. now right.
Qed.

Lemma filter_all {A} (p : A -> bool) l :
  (forall y, In y l -> p y = true) -> filter p l = l.
Proof.
  induction l as [|x l IH]; intros H; [reflexivity|]. cbn [filter].
  rewrite (H x (or_introl eq_refl)). f_equal. apply IH.
  intros y Hy. apply H. now right.
Qed.

(** On a list in increasing key order, the elements below a threshold are
    a prefix and the others the rest. *)
Lemma threshold_partition {A} (key : A -> Z) (c : Z) (l : list A) :
  increasing (map key l) = true ->
  filter (fun x => key x <? c) l ++ filter (fun x => negb (key x <? c)) l = l.
Proof.
  induction l as [|x l IH]; intros Hs; [reflexivity|].
  cbn [map] in Hs. pose proof (increasing_tail _ _ Hs) as Hl.
  cbn [filter]. destruct (Z.ltb_spec (key x) c) as [Hlt|Hge]; cbn [negb].
  - cbn [app]. f_equal. apply IH, Hl.
  - assert (Hab : forall y, In y l -> (key y <? c) = false).
    { intros y Hy. apply Z.ltb_ge.
      pose proof (increasing_head _ _ Hs (key y) (in_map key l y Hy)). lia. }
    rewrite (filter_none _ _ Hab). cbn [app]. f_equal.
    apply filter_all. intros y Hy. rewrite (Hab y Hy). reflexivity.
Qed.

Lemma available_In now date slot :
  In slot (getAvailableTimeSlots now date)
  <-> In slot getAllTimeSlots /\ isSlotDisabled now date slot = false.
Proof.
  unfold getAvailableTimeSlots. cbv zeta.
  rewrite filter_In, negb_true_iff. reflexivity.
Qed.

(** The catalog is in increasing order of time. *)
Lemma catalog_increasing : increasing (map minuteOfDay getAllTimeSlots) = true.
Proof. reflexivity. Qed.

Lemma catalog_minute slot :
  In slot getAllTimeSlots ->
  exists h m, slotFields slot = (Int h, Int m)
              /\ minuteOfDay slot = h * 60 + m
              /\ 540 <= minuteOfDay slot <= 1290.
Proof.
  rewrite getAllTimeSlots_value. intros H.
  repeat (destruct H as [<-|H];
          [eexists; eexists; split; [vm_compute; reflexivity|];
           split; vm_compute; [reflexivity|split; discriminate]|]).
  destruct H.
Qed.

(** On the day of [now], a catalog slot is disabled iff its instant is
    before [now]. *)
Lemma isSlotDisabled_catalog now t slot :
  Day t = Day now -> In slot getAllTimeSlots ->
  isSlotDisabled now (DateAt t) slot = (slotInstant t slot <? now).
Proof.
  intros Hd Hin. destruct (catalog_minute slot Hin) as (h & m & Hf & Hk & _).
  rewrite (isSlotDisabled_today now t slot h m Hd Hf).
  unfold slotInstant, MakeDate, MakeTime. rewrite Hk. f_equal. lia.
Qed.

Lemma increasing_slotInstant t l :
  increasing (map minuteOfDay l) = true ->
  increasing (map (slotInstant t) l) = true.
Proof.
  induction l as [|a [|b l] IH]; intros H; try reflexivity.
  cbn [map increasing] in *. apply andb_true_iff in H as [Hab H].
  apply Z.ltb_lt in Hab. apply andb_true_iff. split.
  - apply Z.ltb_lt. unfold slotInstant. lia.
  - apply IH. exact H.
Qed.

Lemma disabled_available_partition now date :
  disabledSlotsOf now date ++ getAvailableTimeSlots now date = getAllTimeSlots.
Proof.
  unfold disabledSlotsOf, getAvailableTimeSlots. cbv zeta.
  destruct date as [|t].
  - rewrite filter_none by reflexivity. cbn [app]. apply filter_all. reflexivity.
  - destruct (Z.eq_dec (Day t) (Day now)) as [Hd|Hd].
    + rewrite (filter_ext_in _ (fun s => slotInstant t s <? now)).
      2:{ intros s Hs. apply isSlotDisabled_catalog; assumption. }
      rewrite (filter_ext_in (fun slot => negb (isSlotDisabled now (DateAt t) slot))
                 (fun s => negb (slotInstant t s <? now))).
      2:{ intros s Hs. rewrite isSlotDisabled_catalog by assumption. reflexivity. }
      apply (threshold_partition (slotInstant t) now).
      apply increasing_slotInstant, catalog_increasing.
    + assert (Hoff : forall s, isSlotDisabled now (DateAt t) s = false).
      { intros s. apply isSlotDisabled_other_day.
        intros t' Ht'. injection Ht' as <-. exact Hd. }
      rewrite filter_none by (intros; apply Hoff). cbn [app].
      apply filter_all. intros y _. rewrite Hoff. reflexivity.
Qed.

(** X1: the disabled slots are the first slots of the catalog and the
    available ones the rest: put one after the other they are the
    catalog. *)
Theorem X1_disabled_then_available now date :
  disabledSlotsOf now date ++ getAvailableTimeSlots now date = getAllTimeSlots.
Proof. apply disabled_available_partition. Qed.

(** X2: during a day time only takes slots away: a slot available later
    the same day was available before. *)
Theorem X2_availability_shrinks now now' date slot :
  Day now = Day now' -> now <= now' ->
  In slot (getAvailableTimeSlots now' date) ->
  In slot (getAvailableTimeSlots now date).
Proof.
  intros Hday Hle. rewrite !available_In. intros [Hin Hen].
  split; [exact Hin|].
  destruct date as [|t]; [reflexivity|].
  destruct (Z.eq_dec (Day t) (Day now)) as [Hd|Hd].
  - rewrite isSlotDisabled_catalog in * by (assumption || congruence).
    apply Z.ltb_ge in Hen. apply Z.ltb_ge. lia.
  - apply isSlotDisabled_other_day. intros t' Ht'. injection Ht' as <-. exact Hd.
Qed.

Lemma X2_availability_shrinks_witness :
  In "10:30" (getAvailableTimeSlots 1793664000000 (DateAt 1793664000000)).
Proof.
  apply (X2_availability_shrinks 1793664000000 1793700900000
           (DateAt 1793664000000) "10:30").
  - reflexivity.
  - lia.
  - vm_compute. tauto.
Defined.

(** X3: on the day of [now] no slot is left exactly when 21:30 has passed,
    and all 26 are left exactly until 09:00 sharp; on any other day all
    are left. *)
Theorem X3_day_boundaries now t :
  (getAvailableTimeSlots now (DateAt t) = []
   <-> Day t = Day now /\ Day now * msPerDay + 77400000 < now)
  /\ (getAvailableTimeSlots now (DateAt t) = getAllTimeSlots
      <-> Day t <> Day now \/ now <= Day now * msPerDay + 32400000).
Proof.
  assert (Hlast : In "21:30" getAllTimeSlots) by (vm_compute; tauto).
  assert (Hfirst : In "09:00" getAllTimeSlots) by (vm_compute; tauto).
  destruct (Z.eq_dec (Day t) (Day now)) as [Hd|Hd].
  - assert (Hi : forall s, In s getAllTimeSlots ->
              Day now * msPerDay + 32400000 <= slotInstant t s
                <= Day now * msPerDay + 77400000).
    { intros s Hs. destruct (catalog_minute s Hs) as (_ & _ & _ & _ & Hb).
      unfold slotInstant. rewrite Hd. lia. }
    split; split.
    + intros He. split; [exact Hd|].
      assert (Hdis : isSlotDisabled now (DateAt t) "21:30" = true).
      { destruct (isSlotDisabled now (DateAt t) "21:30") eqn:E; [reflexivity|].
        assert (Hin : In "21:30" (getAvailableTimeSlots now (DateAt t))).
        { apply available_In. split; [exact Hlast|exact E]. }
        rewrite He in Hin. destruct Hin. }
      rewrite isSlotDisabled_catalog in Hdis by assumption.
      apply Z.ltb_lt in Hdis. unfold slotInstant in Hdis. rewrite Hd in Hdis.
      replace (minuteOfDay "21:30") with 1290 in Hdis
        by (vm_compute; reflexivity).
      lia.
    + intros [_ Hn]. unfold getAvailableTimeSlots. cbv zeta.
      apply filter_none. intros s Hs.
      rewrite isSlotDisabled_catalog by assumption.
      replace (slotInstant t s <? now) with true; [reflexivity|].
      symmetry. apply Z.ltb_lt. specialize (Hi s Hs). lia.
    + intros He. right.
      assert (Hen : isSlotDisabled now (DateAt t) "09:00" = false).
      { assert (Hin : In "09:00" (getAvailableTimeSlots now (DateAt t)))
          by (rewrite He; exact Hfirst).
        apply available_In in Hin as [_ Hin]. exact Hin. }
      rewrite isSlotDisabled_catalog in Hen by assumption.
      apply Z.ltb_ge in Hen. unfold slotInstant in Hen. rewrite Hd in Hen.
      replace (minuteOfDay "09:00") with 540 in Hen
        by (vm_compute; reflexivity).
      lia.
    + intros [Hn|Hn]; [contradiction|].
      unfold getAvailableTimeSlots. cbv zeta. apply filter_all. intros s Hs.
      rewrite isSlotDisabled_catalog by assumption.
      replace (slotInstant t s <? now) with false; [reflexivity|].
      symmetry. apply Z.ltb_ge. specialize (Hi s Hs). lia.
  - assert (Hall : getAvailableTimeSlots now (DateAt t) = getAllTimeSlots).
    { apply available_other_day. intros t' Ht'. injection Ht' as <-. exact Hd. }
    rewrite Hall. split; split.
    + intros He. rewrite getAllTimeSlots_value in He. discriminate.
    + intros [Hc _]. contradiction.
    + intros _. left. exact Hd.
    + reflexivity.
Qed.

Lemma X3_day_boundaries_witness :
  getAvailableTimeSlots 1700000000000 (DateAt 1700000000000) = []
  /\ getAvailableTimeSlots 1699950000000 (DateAt 1699950000000)
     = getAllTimeSlots.
Proof.
  split.
  - destruct (X3_day_boundaries 1700000000000 1700000000000) as [[_ H] _].
    apply H. split; [reflexivity|vm_compute; reflexivity].
  - destruct (X3_day_boundaries 1699950000000 1699950000000) as [_ [_ H]].
    apply H. right. vm_compute. discriminate.
Defined.

End AvailabilityMore.

(* ================================================================== *)
(** * More on the picker state *)

Section PickerMore.
Import JS Slots Picker Modal Spec SpecMore.

Lemma today_not_past now : isPastDate now (getTodayLocal now) = false.
Proof.
  rewrite getTodayLocal_value, isPastDate_valid, Day_midnight.
  apply Z.ltb_irrefl.
Qed.

Lemma seed_not_past now initialDate :
  isPastDate now (initSelectedDate now initialDate) = false.
Proof.
  unfold initSelectedDate. destruct initialDate as [text|];
    [|apply today_not_past].
  destruct (truthy text); [|apply today_not_past]. cbv zeta.
  match goal with
  | |- context [negb (isPastDate now ?p)] =>
      destruct (isPastDate now p) eqn:E
  end; cbn [negb]; [apply today_not_past|exact E].
Qed.

(** X4: whatever the initial date text, the seeded date is not a past
    date, so in date mode OK is enabled right after the mount. *)
Theorem X4_seed_never_past now initialDate initialTime :
  isPastDate now (initSelectedDate now initialDate) = false
  /\ okDisabled now (init now DateMode initialDate initialTime) = false.
Proof.
  split; [apply seed_not_past|]. unfold okDisabled, init. cbn.
  apply seed_not_past.
Qed.

Lemma getInitialSlot_member now date initialTime :
  isPastDate now date = false ->
  getAvailableTimeSlots now date <> [] ->
  In (getInitialSlot now date initialTime) (getAvailableTimeSlots now date).
Proof.
  intros Hp Hne. unfold getInitialSlot. cbv zeta. rewrite Hp.
  destruct (getAvailableTimeSlots now date) as [|first rest] eqn:E;
    [congruence|].
  destruct initialTime as [t|]; [|now left].
  destruct (truthy t && includes (first :: rest) (Some t)) eqn:Hi;
    [|now left].
  apply andb_true_iff in Hi as [_ Hi]. apply includes_In. exact Hi.
Qed.

(** X5: the initial slot.  On a date that is not past and has available
    slots it is one of them: the initial time when that is available, the
    first available slot otherwise; on a past date or a date without
    available slots it is 09:00. *)
Theorem X5_initial_slot now date initialTime :
  (isPastDate now date = false ->
   getAvailableTimeSlots now date <> [] ->
   In (getInitialSlot now date initialTime) (getAvailableTimeSlots now date)
   /\ (forall t, initialTime = Some t ->
         In t (getAvailableTimeSlots now date) ->
         getInitialSlot now date initialTime = t)
   /\ ((forall t, initialTime = Some t ->
          ~ In t (getAvailableTimeSlots now date)) ->
       hd_error (getAvailableTimeSlots now date)
       = Some (getInitialSlot now date initialTime)))
  /\ (isPastDate now date = true \/ getAvailableTimeSlots now date = [] ->
      getInitialSlot now date initialTime = "09:00").
Proof.
  unfold getInitialSlot. cbv zeta. split.
  - intros Hp Hne. rewrite Hp.
    destruct (getAvailableTimeSlots now date) as [|first rest] eqn:E;
      [congruence|].
    destruct initialTime as [t|].
    + destruct (includes (first :: rest) (Some t)) eqn:Hi.
      * pose proof (proj1 (includes_In _ _) Hi) as Hin.
        assert (Ht : truthy t = true).
        { unfold truthy. destruct t; [|reflexivity].
          exfalso. rewrite <- E in Hin.
          apply available_In in Hin as [Hin _].
          destruct (catalog_fields _ Hin) as (h & mi & Hf & _).
          discriminate Hf. }
        rewrite Ht. cbn [andb]. split; [exact Hin|]. split.
        -- intros t' Ht' _. congruence.
        -- intros Hno. exfalso. apply (Hno t eq_refl). exact Hin.
      * rewrite andb_false_r. split; [now left|]. split.
        -- intros t' Ht' Hin'. injection Ht' as <-.
           apply includes_In in Hin'. congruence.
        -- reflexivity.
    + split; [now left|]. split; [discriminate|reflexivity].
  - intros [Hp|He]; [rewrite Hp; reflexivity|].
    rewrite He. destruct (isPastDate now date); reflexivity.
Qed.

(** 2026-11-03 at 10:15 with 13:30 asked for; at 22:00. *)
Lemma X5_initial_slot_witness :
  getInitialSlot 1793700900000 (DateAt 1793700900000) (Some "13:30") = "13:30"
  /\ getInitialSlot 1793743200000 (DateAt 1793743200000) (Some "13:30")
     = "09:00".
Proof.
  split.
  - destruct (X5_initial_slot 1793700900000 (DateAt 1793700900000)
                (Some "13:30")) as (H & _).
    destruct H as (_ & H & _);
      [vm_compute; reflexivity|vm_compute; discriminate|].
    apply H; [reflexivity|vm_compute; tauto].
  - destruct (X5_initial_slot 1793743200000 (DateAt 1793743200000)
                (Some "13:30")) as (_ & H).
    apply H. right. vm_compute. reflexivity.
Defined.

(** The search of the auto-correct effect stays inside the array. *)
Lemma nearestStep_keeps (L : list string) cur acc slot :
  (exists r, snd acc = Some r /\ In r L) -> In slot L ->
  exists r, snd (nearestStep cur acc slot) = Some r /\ In r L.
Proof.
  intros Hacc Hs. destruct acc as [minDiff nearest]. unfold nearestStep.
  destruct (lt (abs (sub (minutesOf slot) cur)) minDiff);
    [exists slot; split; [reflexivity|exact Hs]|exact Hacc].
Qed.

Lemma fold_nearest_keeps (L : list string) cur l : forall acc,
  (exists r, snd acc = Some r /\ In r L) -> incl l L ->
  exists r, snd (fold_left (nearestStep cur) l acc) = Some r /\ In r L.
Proof.
  induction l as [|x l IH]; intros acc Hacc Hl; [exact Hacc|].
  cbn [fold_left]. apply IH.
  - apply nearestStep_keeps; [exact Hacc|]. apply Hl. now left.
  - intros y Hy. apply Hl. now right.
Qed.

(** X6: in time mode, on a non-empty available set, the slot the
    auto-correct effect leaves is always one of the available slots,
    whatever the current slot text; and a second run changes nothing. *)
Theorem X6_autoCorrect_restores_membership m available current :
  (m = TimeMode -> available <> [] ->
   In (autoCorrect m available current) available)
  /\ autoCorrect m available (autoCorrect m available current)
     = autoCorrect m available current.
Proof.
  assert (Hin : m = TimeMode -> available <> [] ->
                In (autoCorrect m available current) available).
  { intros -> Hne. unfold autoCorrect. cbn [Mode_eqb andb].
    destruct available as [|x l]; [congruence|].
    cbn [List.length Nat.ltb Nat.leb].
    destruct (includes (x :: l) (Some current)) eqn:Hi; cbn [negb].
    - apply includes_In. exact Hi.
    - destruct (fold_nearest_keeps (x :: l) (minutesOf current) (x :: l)
                  (Infinity, hd_error (x :: l))) as (r & Hr & Hrin).
      + exists x. split; [reflexivity|now left].
      + apply incl_refl.
      + unfold findNearest. rewrite Hr. exact Hrin. }
  split; [exact Hin|].
  destruct m.
  - reflexivity.
  - destruct available as [|x l]; [reflexivity|].
    apply autoCorrect_member. apply Hin; [reflexivity|discriminate].
Qed.

Lemma X6_autoCorrect_restores_membership_witness :
  In (autoCorrect TimeMode ["10:30"; "11:00"] "soon") ["10:30"; "11:00"].
Proof.
  destruct (X6_autoCorrect_restores_membership TimeMode ["10:30"; "11:00"]
              "soon") as (H & _).
  apply H; [reflexivity|discriminate].
Defined.

(** X7: right after the mount both effects leave the selected slot as it
    is: the state the modal is mounted in needs no correction. *)
Theorem X7_mount_needs_no_correction now m initialDate initialTime :
  let st := init now m initialDate initialTime in
  autoCorrect (mode st) (getAvailableTimeSlots now (selectedDate st))
              (selectedSlot st) = selectedSlot st
  /\ dateChangeEffect (mode st) now (selectedDate st) (selectedSlot st)
     = selectedSlot st.
Proof.
  cbv zeta. unfold init. cbv zeta. cbn [mode selectedDate selectedSlot].
  set (date := initSelectedDate now initialDate).
  assert (Hp : isPastDate now date = false) by apply seed_not_past.
  destruct (getAvailableTimeSlots now date) as [|x l] eqn:E.
  - split.
    + unfold autoCorrect. cbn [List.length Nat.ltb Nat.leb].
      rewrite !andb_false_r. reflexivity.
    + unfold dateChangeEffect. destruct m; [reflexivity|]. rewrite E.
      reflexivity.
  - assert (Hin : In (getInitialSlot now date initialTime) (x :: l)).
    { rewrite <- E. apply getInitialSlot_member; [exact Hp|].
      rewrite E. discriminate. }
    split.
    + apply autoCorrect_member. exact Hin.
    + unfold dateChangeEffect. destruct m; [reflexivity|]. rewrite E.
      cbv zeta. apply includes_In in Hin. rewrite Hin.
      rewrite andb_false_r. reflexivity.
Qed.

End PickerMore.

(* ================================================================== *)
(** * Calendar navigation *)

Section Navigation.
Import JS Slots Picker Modal Spec SpecMore.

(** X8: the month arrows.  From a month index in 0..11 they move by
    exactly one month, carrying into the year, and stay in 0..11; Next
    and Prev undo each other; the selected date, slot and mode are not
    touched. *)
Theorem X8_navigateMonth_moves_one_month st y m :
  selectedYear st = Int y -> selectedMonth st = Int m -> 0 <= m <= 11 ->
  (forall direction,
      exists y' m',
        selectedYear (navigateMonth direction st) = Int y'
        /\ selectedMonth (navigateMonth direction st) = Int m'
        /\ 0 <= m' <= 11
        /\ 12 * y' + m'
           = 12 * y + m + match direction with Next => 1 | Prev => -1 end
        /\ selectedDate (navigateMonth direction st) = selectedDate st
        /\ selectedSlot (navigateMonth direction st) = selectedSlot st
        /\ mode (navigateMonth direction st) = mode st)
  /\ navigateMonth Prev (navigateMonth Next st) = st
  /\ navigateMonth Next (navigateMonth Prev st) = st.
Proof.
  intros Hy Hm Hr. destruct st as [md d mo yr sl].
  cbn [selectedYear selectedMonth] in Hy, Hm. subst mo yr.
  split; [|split].
  - intros [|]; unfold navigateMonth;
      cbn [selectedMonth selectedYear strict_eq].
    + destruct (Z.eqb_spec m 0) as [->|Hne];
        cbn [selectedYear selectedMonth selectedDate selectedSlot mode
             sub neg add];
        eexists; eexists; (split; [reflexivity|]); (split; [reflexivity|]);
        repeat split; lia.
    + destruct (Z.eqb_spec m 11) as [->|Hne];
        cbn [selectedYear selectedMonth selectedDate selectedSlot mode
             sub neg add];
        eexists; eexists; (split; [reflexivity|]); (split; [reflexivity|]);
        repeat split; lia.
  - unfold navigateMonth. cbn [selectedMonth selectedYear strict_eq].
    destruct (Z.eqb_spec m 11) as [->|Hne];
      cbn [selectedYear selectedMonth selectedDate selectedSlot mode
           sub neg add strict_eq].
    + cbn [Z.eqb]. cbn [selectedYear selectedMonth selectedDate selectedSlot
                        mode sub neg add].
      f_equal. f_equal. lia.
    + replace (m + 1 =? 0) with false by (symmetry; apply Z.eqb_neq; lia).
      cbn [selectedYear selectedMonth selectedDate selectedSlot mode
           sub neg add].
      f_equal. f_equal. lia.
  - unfold navigateMonth. cbn [selectedMonth selectedYear strict_eq].
    destruct (Z.eqb_spec m 0) as [->|Hne];
      cbn [selectedYear selectedMonth selectedDate selectedSlot mode
           sub neg add strict_eq].
    + cbn [Z.eqb Pos.eqb]. cbn [selectedYear selectedMonth selectedDate
                                selectedSlot mode sub neg add].
      f_equal. f_equal. lia.
    + replace (m + - (1) =? 11) with false
        by (symmetry; apply Z.eqb_neq; lia).
      cbn [selectedYear selectedMonth selectedDate selectedSlot mode
           sub neg add].
      f_equal. f_equal. lia.
Qed.

Lemma X8_navigateMonth_moves_one_month_witness :
  navigateMonth Next (mkState DateMode (DateAt 0) (Int 11) (Int 2024) "09:00")
  = mkState DateMode (DateAt 0) (Int 0) (Int 2025) "09:00"
  /\ navigateMonth Prev
       (navigateMonth Next
          (mkState DateMode (DateAt 0) (Int 11) (Int 2024) "09:00"))
     = mkState DateMode (DateAt 0) (Int 11) (Int 2024) "09:00".
Proof.
  destruct (X8_navigateMonth_moves_one_month
              (mkState DateMode (DateAt 0) (Int 11) (Int 2024) "09:00")
              2024 11 eq_refl eq_refl ltac:(lia)) as (_ & H & _).
  split; [reflexivity|exact H].
Defined.

(** The Date of a click on a day cell. *)
Lemma newDate_civil y mo day :
  100 <= y -> 0 <= mo <= 11 ->
  newDate (Int y) (Int mo) (Int day)
  = DateAt (days_from_civil y (mo + 1) day * msPerDay).
Proof.
  intros Hy Hm. unfold newDate.
  replace ((0 <=? y) && (y <=? 99)) with false
    by (symmetry; apply andb_false_iff; right; apply Z.leb_gt; lia).
  replace mo with (mo + 1 - 1) at 1 by lia.
  rewrite MakeDay_civil by lia. unfold MakeDate. f_equal. lia.
Qed.

(** X9: a click on a day cell.  With a displayed year (100 or later) and
    month (index 0..11), and the day clicked within the range of Date, the
    click selects the local midnight of that day of that month when the
    day is today or later, and does nothing when it is before today; a
    click never touches the displayed month, the slot or the mode, and
    never turns a selected date that is not past for [isPastDate] into
    one that is. *)
Theorem X9_selectDate_rejects_past now day st :
  (forall y mo,
      selectedYear st = Int y -> selectedMonth st = Int mo ->
      100 <= y -> 0 <= mo <= 11 ->
      let n := days_from_civil y (mo + 1) day in
      inDateRange n ->
      (Day now <= n ->
       selectDate now day st = setSelectedDate (DateAt (n * msPerDay)) st)
      /\ (n < Day now -> selectDate now day st = st))
  /\ (isPastDate now (selectedDate st) = false ->
      isPastDate now (selectedDate (selectDate now day st)) = false)
  /\ selectedMonth (selectDate now day st) = selectedMonth st
  /\ selectedYear (selectDate now day st) = selectedYear st
  /\ selectedSlot (selectDate now day st) = selectedSlot st
  /\ mode (selectDate now day st) = mode st.
Proof.
  split.
  - intros y mo Hy Hm Hyr Hmr n _. unfold selectDate. cbv zeta.
    rewrite Hy, Hm, newDate_civil by assumption. fold n.
    rewrite isPastDate_valid, Day_midnight. split; intros H.
    + replace (n <? Day now) with false by (symmetry; apply Z.ltb_ge; lia).
      reflexivity.
    + replace (n <? Day now) with true by (symmetry; apply Z.ltb_lt; lia).
      reflexivity.
  - unfold selectDate. cbv zeta.
    destruct (isPastDate now
                (newDate (selectedYear st) (selectedMonth st) (Int day)))
      eqn:E; cbn [negb].
    + repeat split; try reflexivity. intros H. exact H.
    + repeat split; try reflexivity. intros _. exact E.
Qed.

(** On 2026-11-03 at 10:15, November 2026 displayed: day 20, then day 1. *)
Lemma X9_selectDate_rejects_past_witness :
  let st := mkState DateMode (DateAt 1793664000000) (Int 10) (Int 2026)
                    "10:30" in
  selectDate 1793700900000 20 st = setSelectedDate (DateAt 1795132800000) st
  /\ selectDate 1793700900000 1 st = st.
Proof.
  cbv zeta.
  destruct (X9_selectDate_rejects_past 1793700900000 20
              (mkState DateMode (DateAt 1793664000000) (Int 10) (Int 2026)
                       "10:30")) as (H20 & _).
  destruct (X9_selectDate_rejects_past 1793700900000 1
              (mkState DateMode (DateAt 1793664000000) (Int 10) (Int 2026)
                       "10:30")) as (H1 & _).
  split.
  - destruct (H20 2026 10 eq_refl eq_refl ltac:(lia) ltac:(lia)) as (H & _);
      [vm_compute; split; reflexivity|].
    rewrite H; [reflexivity|vm_compute; discriminate].
  - destruct (H1 2026 10 eq_refl eq_refl ltac:(lia) ltac:(lia)) as (_ & H);
      [vm_compute; split; reflexivity|].
    apply H. vm_compute. reflexivity.
Defined.

Lemma MonthFromTime_range t : 0 <= MonthFromTime t <= 11.
Proof.
  unfold MonthFromTime. pose proof (civil_roundtrip (Day t)) as H.
  destruct (civil_from_days (Day t)) as [[y m] d]. lia.
Qed.

Lemma initSelectedDate_midnight now initialDate :
  seedText initialDate ->
  exists n, initSelectedDate now initialDate = DateAt (n * msPerDay).
Proof.
  assert (Htoday : exists n, getTodayLocal now = DateAt (n * msPerDay))
    by (exists (Day now); apply getTodayLocal_value).
  destruct initialDate as [text|]; simpl; [|intros _; exact Htoday].
  intros [->|(y & m & d & Hf)]; [exact Htoday|].
  unfold initSelectedDate.
  rewrite (split_fields_truthy _ _ _ _ Hf), Hf.
  unfold elem. cbn [nth sub neg add newDate].
  match goal with
  | |- context [negb ?b] => destruct b
  end; cbn [negb]; [exact Htoday|].
  eexists. unfold MakeDate. f_equal. apply Z.add_0_r.
Qed.

(** X10: in every state the modal reaches within the range of Date (from
    a mount on no initial date, an empty one or one of three numeric
    fields for a day in range, through clicks on cells whose day is in
    range, on the month arrows and changes of the slot), the selected
    date is a valid Date at a local midnight, the displayed year is an
    integer and the displayed month an index in 0..11. *)
Theorem X10_reachable_state_is_well_formed st :
  Reachable st ->
  (exists n, selectedDate st = DateAt (n * msPerDay))
  /\ (exists y, selectedYear st = Int y)
  /\ (exists m, selectedMonth st = Int m /\ 0 <= m <= 11).
Proof.
  induction 1 as [now m initialDate initialTime Hseed
                 |now day st _ (Hd & (y & Hy) & (mo & Hm & Hr)) _
                 |direction st _ (Hd & (y & Hy) & (mo & Hm & Hr))
                 |slot st _ IH].
  - apply seedInRange_seedText in Hseed.
    destruct (initSelectedDate_midnight now initialDate Hseed) as (n & Hn).
    unfold init. cbv zeta. rewrite Hn. cbn. split; [eauto|]. split; [eauto|].
    eexists. split; [reflexivity|apply MonthFromTime_range].
  - unfold selectDate. cbv zeta. rewrite Hy, Hm.
    destruct (negb (isPastDate now (newDate (Int y) (Int mo) (Int day)))).
    + cbn. rewrite Hy, Hm. split; [|split; eauto].
      eexists. unfold MakeDate. f_equal. apply Z.add_0_r.
    + rewrite Hy, Hm. split; [exact Hd|]. split; eauto.
  - destruct direction; unfold navigateMonth; rewrite Hy, Hm;
      cbn [strict_eq].
    + destruct (Z.eqb_spec mo 0); cbn; (split; [exact Hd|]); split; eauto.
      * exists 11. split; [reflexivity|lia].
      * exists (mo + -1). split; [reflexivity|lia].
    + destruct (Z.eqb_spec mo 11); cbn; (split; [exact Hd|]); split; eauto.
      * exists 0. split; [reflexivity|lia].
      * exists (mo + 1). split; [reflexivity|lia].
  - exact IH.
Qed.

Lemma X10_reachable_state_is_well_formed_witness :
  exists m,
    selectedMonth
      (navigateMonth Next (init 1793700900000 DateMode (Some "2026-12-25") None))
    = Int m /\ 0 <= m <= 11.
Proof.
  apply (X10_reachable_state_is_well_formed
           (navigateMonth Next
              (init 1793700900000 DateMode (Some "2026-12-25") None))).
  apply Reachable_navigateMonth, Reachable_mount.
  right. exists 2026, 12, 25. split; [reflexivity|].
  eexists. split; [reflexivity|]. vm_compute. split; reflexivity.
Defined.

End Navigation.

(* ================================================================== *)
(** * Texts: numbers, dates and times *)

Section Texts.
Import JS JSMore Slots Picker DesktopMore Spec SpecMore.

Lemma all_digits_none_of p s :
  (forall c, is_digit c = true -> p c = false) ->
  all_digits s = true -> none_of p s = true.
Proof.
  intros Hp. induction s as [|c r IH]; [reflexivity|].
  cbn [all_digits none_of]. intros H. apply andb_true_iff in H as [Hc Hr].
  rewrite (Hp c Hc), (IH Hr). reflexivity.
Qed.

Lemma none_of_app p a b :
  none_of p (a ++ b) = none_of p a && none_of p b.
Proof.
  induction a as [|c r IH]; [reflexivity|].
  cbn [append none_of]. rewrite IH. apply andb_assoc.
Qed.

Lemma all_digits_app a b :
  all_digits (a ++ b) = all_digits a && all_digits b.
Proof.
  induction a as [|c r IH]; [reflexivity|].
  cbn [append all_digits]. rewrite IH. apply andb_assoc.
Qed.

Lemma digit_not c sep :
  is_digit sep = false -> is_digit c = true -> Ascii.eqb c sep = false.
Proof.
  intros Hs Hc. destruct (Ascii.eqb_spec c sep) as [->|]; congruence.
Qed.

(** A text without the separator is one field; a separator after such a
    text ends its field. *)
Lemma split_none sep s :
  none_of (fun c => Ascii.eqb c sep) s = true -> split sep s = [s].
Proof.
  induction s as [|c r IH]; [reflexivity|].
  cbn [none_of split]. intros H. apply andb_true_iff in H as [Hc Hr].
  apply negb_true_iff in Hc. rewrite Hc, (IH Hr). reflexivity.
Qed.

Lemma split_app sep a b :
  none_of (fun c => Ascii.eqb c sep) a = true ->
  split sep (a ++ String sep b) = a :: split sep b.
Proof.
  induction a as [|c r IH].
  - intros _. cbn [append split]. rewrite Ascii.eqb_refl. reflexivity.
  - cbn [none_of append split]. intros H.
    apply andb_true_iff in H as [Hc Hr]. apply negb_true_iff in Hc.
    rewrite Hc, (IH Hr). reflexivity.
Qed.

Lemma trimStart_none s :
  none_of is_space s = true -> trimStart s = s.
Proof.
  destruct s as [|c r]; [reflexivity|]. cbn [none_of trimStart].
  intros H. apply andb_true_iff in H as [Hc _]. apply negb_true_iff in Hc.
  rewrite Hc. reflexivity.
Qed.

Lemma trimEnd_none s :
  none_of is_space s = true -> trimEnd s = s.
Proof.
  induction s as [|c r IH]; [reflexivity|]. cbn [none_of trimEnd].
  intros H. apply andb_true_iff in H as [Hc Hr]. apply negb_true_iff in Hc.
  rewrite (IH Hr), Hc. destruct r; reflexivity.
Qed.

Lemma trim_none s : none_of is_space s = true -> trim s = s.
Proof.
  intros H. unfold trim. rewrite (trimStart_none s H). apply trimEnd_none, H.
Qed.

(** ** Numbers and their texts *)

Lemma all_digits_string_of_uint u :
  all_digits (NilEmpty.string_of_uint u) = true.
Proof. induction u; cbn [NilEmpty.string_of_uint all_digits]; auto. Qed.

Lemma Number_digits s u :
  all_digits s = true -> NilEmpty.uint_of_string s = Some u ->
  Number s = Int (Z.of_uint u).
Proof. intros Hd Hu. unfold Number. rewrite Hd, Hu. reflexivity. Qed.

Lemma String_nonneg z :
  0 <= z ->
  exists u, String_ (Int z) = NilEmpty.string_of_uint u
            /\ Z.of_uint u = z /\ u <> Decimal.Nil.
Proof.
  intros Hz. unfold String_, Z.to_int. destruct z as [|p|p]; [| |lia].
  - exists (Decimal.D0 Decimal.Nil). repeat split. discriminate.
  - exists (Pos.to_uint p).
    assert (Hne : Pos.to_uint p <> Decimal.Nil).
    { intros E. pose proof (DecimalPos.Unsigned.of_to p) as H.
      rewrite E in H. discriminate. }
    split; [|split; [|exact Hne]].
    + cbn [NilZero.string_of_int NilZero.string_of_uint].
      revert Hne. destruct (Pos.to_uint p); intros Hne;
        [congruence|reflexivity..].
    + unfold Z.of_uint. rewrite DecimalPos.Unsigned.of_to. reflexivity.
Qed.

(** The text of a natural number is made of digits, is not empty, and
    reads back as the number. *)
Lemma String_digits z :
  0 <= z ->
  all_digits (String_ (Int z)) = true
  /\ String_ (Int z) <> EmptyString
  /\ Number (String_ (Int z)) = Int z.
Proof.
  intros Hz. destruct (String_nonneg z Hz) as (u & -> & Hu & Hne).
  split; [apply all_digits_string_of_uint|]. split.
  - destruct u; cbn; congruence.
  - rewrite (Number_digits _ u (all_digits_string_of_uint u)
               (NilEmpty.usu u)).
    rewrite Hu. reflexivity.
Qed.

Lemma Number_leading_zero s :
  all_digits s = true -> Number (String "0" s) = Number s.
Proof.
  intros Hd. unfold Number. cbn [all_digits]. rewrite Hd.
  cbn [NilEmpty.uint_of_string]. 
  destruct (NilEmpty.uint_of_string s) as [u|]; reflexivity.
Qed.

Lemma padStart_digits s n :
  all_digits s = true ->
  all_digits (padStart s n "0") = true
  /\ Number (padStart s n "0") = Number s.
Proof.
  intros Hd. unfold padStart.
  induction (n - String.length s)%nat as [|k [IH1 IH2]];
    cbn [repeat_char append]; [split; [exact Hd|reflexivity]|].
  split.
  - cbn [all_digits]. rewrite IH1. reflexivity.
  - rewrite (Number_leading_zero _ IH1). exact IH2.
Qed.

End Texts.

Section DateTexts.
Import JS JSMore Slots Picker DesktopMore Book Spec SpecMore.

Lemma dash_not_digit : is_digit "-" = false. Proof. reflexivity. Qed.
Lemma slash_not_digit : is_digit "/" = false. Proof. reflexivity. Qed.
Lemma comma_not_digit : is_digit "," = false. Proof. reflexivity. Qed.

Lemma digits_lack sep s :
  is_digit sep = false -> all_digits s = true ->
  none_of (fun c => Ascii.eqb c sep) s = true.
Proof.
  intros Hs. apply all_digits_none_of. intros c Hc.
  apply digit_not; assumption.
Qed.

Lemma digits_no_space s : all_digits s = true -> none_of is_space s = true.
Proof.
  apply all_digits_none_of. intros c Hc. unfold is_digit, is_space in *.
  cbv zeta in *. apply andb_true_iff in Hc as [H1 H2].
  apply Nat.leb_le in H1, H2.
  replace (nat_of_ascii c =? 32)%nat with false
    by (symmetry; apply Nat.eqb_neq; lia).
  replace (nat_of_ascii c <=? 13)%nat with false
    by (symmetry; apply Nat.leb_gt; lia).
  rewrite andb_false_r. reflexivity.
Qed.

(** Year, month and day of month of a Date, with what the calendar gives
    about them. *)
Lemma date_fields t :
  1 <= MonthFromTime t + 1 <= 12
  /\ 1 <= DateFromTime t <= 31
  /\ days_from_civil (YearFromTime t) (MonthFromTime t + 1) (DateFromTime t)
     = Day t.
Proof.
  unfold YearFromTime, MonthFromTime, DateFromTime.
  pose proof (civil_roundtrip (Day t)) as H.
  destruct (civil_from_days (Day t)) as [[y m] d].
  replace (m - 1 + 1) with m by lia. lia.
Qed.

Lemma formatOutput_date st t :
  selectedDate st = DateAt t ->
  dateStr (formatOutput st)
  = (String_ (Int (YearFromTime t))
     ++ String "-" (padStart (String_ (Int (MonthFromTime t + 1))) 2 "0"
     ++ String "-" (padStart (String_ (Int (DateFromTime t))) 2 "0")))%string
  /\ (mode st = DateMode ->
      formatted (formatOutput st)
      = (padStart (String_ (Int (DateFromTime t))) 2 "0"
         ++ String "/" (padStart (String_ (Int (MonthFromTime t + 1))) 2 "0"
         ++ String "/" (String_ (Int (YearFromTime t)))))%string).
Proof.
  intros H. unfold formatOutput. rewrite H.
  destruct (parseTimeSlot (selectedSlot st)) as [[h12 mi] pe].
  cbn [dateStr formatted getDate getMonth getFullYear add].
  split; [reflexivity|]. intros ->. reflexivity.
Qed.

(** The three fields of a confirmed date text. *)
Lemma dateStr_fields st t :
  selectedDate st = DateAt t -> 0 <= YearFromTime t ->
  split "-" (dateStr (formatOutput st))
  = [String_ (Int (YearFromTime t));
     padStart (String_ (Int (MonthFromTime t + 1))) 2 "0";
     padStart (String_ (Int (DateFromTime t))) 2 "0"]
  /\ map Number (split "-" (dateStr (formatOutput st)))
     = [Int (YearFromTime t); Int (MonthFromTime t + 1);
        Int (DateFromTime t)].
Proof.
  intros Hsel Hy. destruct (date_fields t) as (Hm & Hd & _).
  destruct (String_digits (YearFromTime t) Hy) as (HY & _ & HYn).
  destruct (String_digits (MonthFromTime t + 1) ltac:(lia)) as (HM & _ & HMn).
  destruct (String_digits (DateFromTime t) ltac:(lia)) as (HD & _ & HDn).
  destruct (padStart_digits _ 2 HM) as (HM2 & HMn2).
  destruct (padStart_digits _ 2 HD) as (HD2 & HDn2).
  destruct (formatOutput_date st t Hsel) as (-> & _).
  assert (Hs : split "-"
                 (String_ (Int (YearFromTime t))
                  ++ String "-"
                       (padStart (String_ (Int (MonthFromTime t + 1))) 2 "0"
                        ++ String "-"
                             (padStart (String_ (Int (DateFromTime t))) 2 "0")))
               = [String_ (Int (YearFromTime t));
                  padStart (String_ (Int (MonthFromTime t + 1))) 2 "0";
                  padStart (String_ (Int (DateFromTime t))) 2 "0"]).
  { rewrite split_app by (apply digits_lack; [reflexivity|exact HY]).
    rewrite split_app by (apply digits_lack; [reflexivity|exact HM2]).
    rewrite split_none by (apply digits_lack; [reflexivity|exact HD2]).
    reflexivity. }
  split; [exact Hs|]. rewrite Hs. cbn [map].
  rewrite HYn, HMn2, HMn, HDn2, HDn. reflexivity.
Qed.

(** What the initializer does with a text of three integer fields. *)
Lemma initSelectedDate_fields now text y m d :
  map Number (split "-" text) = [Int y; Int m; Int d] ->
  100 <= y -> 1 <= m <= 12 ->
  initSelectedDate now (Some text)
  = if days_from_civil y m d <? Day now then getTodayLocal now
    else DateAt (days_from_civil y m d * msPerDay).
Proof.
  intros Hf Hy Hm. unfold initSelectedDate.
  rewrite (split_fields_truthy _ _ _ _ Hf), Hf.
  unfold elem. cbn [nth sub neg add].
  change (m + - (1)) with (m - 1).
  rewrite (newDate_civil y (m - 1) d) by lia.
  replace (m - 1 + 1) with m by lia.
  rewrite isPastDate_valid, Day_midnight.
  destruct (days_from_civil y m d <? Day now); reflexivity.
Qed.

(** X11: the date text the picker confirms reads back as the date it was
    made from.  For a selected date in the year 100 or later, the text has
    the year, the month number and the day of month as its three fields,
    and a picker opened on it is seeded with the local midnight of that
    same day, or with today when the day has passed in the meantime. *)
Theorem X11_confirmed_date_reads_back now st t :
  selectedDate st = DateAt t -> 100 <= YearFromTime t ->
  map Number (split "-" (dateStr (formatOutput st)))
  = [Int (YearFromTime t); Int (MonthFromTime t + 1); Int (DateFromTime t)]
  /\ seedText (Some (dateStr (formatOutput st)))
  /\ (Day now <= Day t ->
      initSelectedDate now (Some (dateStr (formatOutput st)))
      = DateAt (Day t * msPerDay))
  /\ (Day t < Day now ->
      initSelectedDate now (Some (dateStr (formatOutput st)))
      = getTodayLocal now).
Proof.
  intros Hsel Hy.
  destruct (dateStr_fields st t Hsel ltac:(lia)) as (_ & Hf).
  destruct (date_fields t) as (Hm & _ & Hday).
  split; [exact Hf|]. split; [right; eauto|].
  rewrite (initSelectedDate_fields now _ _ _ _ Hf Hy Hm), Hday.
  split; intros H.
  - replace (Day t <? Day now) with false by (symmetry; apply Z.ltb_ge; lia).
    reflexivity.
  - replace (Day t <? Day now) with true by (symmetry; apply Z.ltb_lt; lia).
    reflexivity.
Qed.

(** Confirmed on 2026-11-03 with 2026-12-25 selected, reopened the day
    after. *)
Lemma X11_confirmed_date_reads_back_witness :
  initSelectedDate 1793787300000 (Some "2026-12-25") = DateAt 1798156800000.
Proof.
  destruct (X11_confirmed_date_reads_back 1793787300000
              (mkState DateMode (DateAt 1798156800000) (Int 11) (Int 2026)
                       "09:00")
              1798156800000 eq_refl) as (_ & _ & H & _).
  - vm_compute. discriminate.
  - apply H. vm_compute. discriminate.
Defined.

End DateTexts.

Section Displays.
Import JS JSMore Slots Picker DesktopMore Book Spec SpecMore.

Lemma truthy_nonempty c r : truthy (String c r) = true.
Proof. reflexivity. Qed.

Lemma append_nonempty a c b : (a ++ String c b)%string <> EmptyString.
Proof. destruct a; discriminate. Qed.

Lemma truthy_append a c b : truthy (a ++ String c b) = true.
Proof. destruct a; reflexivity. Qed.

(** X12: the wizard after a date is confirmed.  For a selected date in the
    year 0 or later, the booking holds the year-month-day text, the date
    input shows the day/month/year text of the picker, the text the input
    would show without it (the stored text, split at the dashes and
    reversed) is the same, and nothing else of the booking changes. *)
Theorem X12_confirmed_date_in_wizard picker t w :
  mode picker = DateMode -> selectedDate picker = DateAt t ->
  0 <= YearFromTime t ->
  let out := formatOutput picker in
  let w' := confirmDate out w in
  Wizard.date (Wizard.formData w') = dateStr out
  /\ Wizard.dateDisplay w' = formatted out
  /\ dateInputValue w' = formatted out
  /\ join "/" (rev (split "-" (dateStr out))) = formatted out
  /\ Wizard.step w' = Wizard.step w
  /\ Wizard.serviceType (Wizard.formData w')
     = Wizard.serviceType (Wizard.formData w)
  /\ Wizard.packageId (Wizard.formData w')
     = Wizard.packageId (Wizard.formData w)
  /\ Wizard.time (Wizard.formData w') = Wizard.time (Wizard.formData w)
  /\ Wizard.details (Wizard.formData w')
     = Wizard.details (Wizard.formData w)
  /\ Wizard.showDatePicker w' = false.
Proof.
  intros Hmode Hsel Hy. cbv zeta.
  destruct (date_fields t) as (Hm & Hd & _).
  destruct (String_digits (YearFromTime t) Hy) as (HY & HYne & _).
  destruct (String_digits (MonthFromTime t + 1) ltac:(lia)) as (HM & _ & _).
  destruct (String_digits (DateFromTime t) ltac:(lia)) as (HD & _ & _).
  destruct (padStart_digits _ 2 HM) as (HM2 & _).
  destruct (padStart_digits _ 2 HD) as (HD2 & _).
  destruct (dateStr_fields picker t Hsel Hy) as (Hsplit & _).
  destruct (formatOutput_date picker t Hsel) as (_ & Hfmt).
  specialize (Hfmt Hmode).
  set (Y := String_ (Int (YearFromTime t))) in *.
  set (M := padStart (String_ (Int (MonthFromTime t + 1))) 2 "0") in *.
  set (D := padStart (String_ (Int (DateFromTime t))) 2 "0") in *.
  assert (Hcomma : none_of (fun c => Ascii.eqb c ",")
                     (formatted (formatOutput picker)) = true).
  { rewrite Hfmt. rewrite none_of_app. cbn [none_of]. rewrite none_of_app.
    cbn [none_of].
    rewrite !(digits_lack "," _ eq_refl) by assumption. reflexivity. }
  assert (Hspace : none_of is_space (formatted (formatOutput picker)) = true).
  { rewrite Hfmt. rewrite none_of_app. cbn [none_of]. rewrite none_of_app.
    cbn [none_of]. rewrite !digits_no_space by assumption. reflexivity. }
  assert (Hdisp : Wizard.dateDisplay (confirmDate (formatOutput picker) w)
                  = formatted (formatOutput picker)).
  { unfold confirmDate.
    cbn [Wizard.dateDisplay setShowDatePicker setDateDisplay].
    rewrite (split_none "," _ Hcomma). cbn [hd]. apply trim_none, Hspace. }
  split; [reflexivity|]. split; [exact Hdisp|]. split.
  - unfold dateInputValue. rewrite Hdisp, Hfmt.
    rewrite truthy_append. reflexivity.
  - split.
    + rewrite Hsplit, Hfmt. cbn [rev app join].
      destruct Y as [|c r]; [congruence|]. reflexivity.
    + repeat split.
Qed.

Lemma X12_confirmed_date_in_wizard_witness :
  dateInputValue
    (confirmDate
       (formatOutput
          (mkState DateMode (DateAt 1798156800000) (Int 11) (Int 2026) "09:00"))
       Wizard.initial)
  = "25/12/2026".
Proof.
  destruct (X12_confirmed_date_in_wizard
              (mkState DateMode (DateAt 1798156800000) (Int 11) (Int 2026)
                       "09:00")
              1798156800000 Wizard.initial eq_refl eq_refl) as (_ & _ & H & _).
  - vm_compute. discriminate.
  - rewrite H. vm_compute. reflexivity.
Defined.

(** The 12-hour clock of [parseTimeSlot]. *)
Lemma hour12_value h :
  0 <= h <= 23 ->
  (if strict_eq (Int h) (Int 0) then Int 12
   else if lt (Int 12) (Int h) then sub (Int h) (Int 12) else Int h)
  = Int ((h + 11) mod 12 + 1)
  /\ 1 <= (h + 11) mod 12 + 1 <= 12
  /\ (if ge (Int h) (Int 12) then "PM" else "AM")
     = (if h <? 12 then "AM" else "PM").
Proof.
  intros Hh. cbn [strict_eq lt ge sub neg add negb].
  split; [|split].
  - destruct (Z.eqb_spec h 0) as [->|H0]; [reflexivity|].
    destruct (Z.ltb_spec 12 h) as [H12|H12]; f_equal.
    + replace (h + 11) with (h - 12 - 1 + 2 * 12) by lia.
      rewrite Z.mod_add by lia. rewrite Z.mod_small by lia. lia.
    + replace (h + 11) with (h - 1 + 1 * 12) by lia.
      rewrite Z.mod_add by lia. rewrite Z.mod_small by lia. lia.
  - pose proof (Z.mod_pos_bound (h + 11) 12 ltac:(lia)). lia.
  - destruct (h <? 12); reflexivity.
Qed.

(** The text confirmed in time mode. *)
Lemma confirmed_time_text slot h mi st :
  slotFields slot = (Int h, Int mi) -> 0 <= h <= 23 -> 0 <= mi ->
  selectedSlot st = slot -> mode st = TimeMode ->
  formatted (formatOutput st) = formatSlot slot
  /\ timeStr (formatOutput st) = slot
  /\ split "," (formatSlot slot) = [formatSlot slot].
Proof.
  intros Hf Hh Hmi Hsel Hmode.
  destruct (hour12_value h Hh) as (H12 & Hr & Hp).
  assert (Hparse : parseTimeSlot slot
                   = (Int ((h + 11) mod 12 + 1), Int mi,
                      if h <? 12 then "AM" else "PM")).
  { unfold parseTimeSlot. rewrite Hf, H12, Hp. reflexivity. }
  assert (Hfs : formatSlot slot
                = (String_ (Int ((h + 11) mod 12 + 1)) ++ ":"
                   ++ padStart (String_ (Int mi)) 2 "0" ++ " "
                   ++ (if (h <? 12)%Z then "AM" else "PM"))%string).
  { unfold formatSlot. rewrite Hf, H12, Hp. reflexivity. }
  split; [|split].
  - unfold formatOutput. rewrite Hsel, Hparse, Hmode, Hfs. reflexivity.
  - unfold formatOutput. rewrite Hsel, Hparse, Hmode. reflexivity.
  - apply split_none. rewrite Hfs.
    destruct (String_digits ((h + 11) mod 12 + 1) ltac:(lia)) as (HH & _ & _).
    destruct (String_digits mi Hmi) as (HM & _ & _).
    destruct (padStart_digits _ 2 HM) as (HM2 & _).
    rewrite none_of_app. cbn [append none_of]. rewrite none_of_app.
    rewrite !(digits_lack "," _ eq_refl) by assumption.
    destruct (h <? 12); reflexivity.
Qed.

(** X13: the 12-hour texts.  For a slot with hour 0..23 and a minute, the
    hour shown is 12 for hours 0 and 12 and the hour modulo 12 otherwise,
    with AM before noon and PM from noon on; the list adapter's
    [formatSlot] and the text the modal confirms in time mode are the same
    text, which has no comma. *)
Theorem X13_twelve_hour_texts slot h mi st :
  slotFields slot = (Int h, Int mi) -> 0 <= h <= 23 -> 0 <= mi ->
  selectedSlot st = slot -> mode st = TimeMode ->
  parseTimeSlot slot
  = (Int ((h + 11) mod 12 + 1), Int mi, if h <? 12 then "AM" else "PM")
  /\ formatSlot slot
     = (String_ (Int ((h + 11) mod 12 + 1)) ++ ":"
        ++ padStart (String_ (Int mi)) 2 "0" ++ " "
        ++ (if (h <? 12)%Z then "AM" else "PM"))%string
  /\ formatted (formatOutput st) = formatSlot slot
  /\ timeStr (formatOutput st) = slot
  /\ split "," (formatSlot slot) = [formatSlot slot].
Proof.
  intros Hf Hh Hmi Hsel Hmode.
  destruct (hour12_value h Hh) as (H12 & Hr & Hp).
  destruct (confirmed_time_text slot h mi st Hf Hh Hmi Hsel Hmode)
    as (H1 & H2 & H3).
  split; [|split; [|split; [exact H1|split; [exact H2|exact H3]]]].
  - unfold parseTimeSlot. rewrite Hf, H12, Hp. reflexivity.
  - unfold formatSlot. rewrite Hf, H12, Hp. reflexivity.
Qed.

Lemma X13_twelve_hour_texts_witness :
  formatSlot "13:30" = "1:30 PM" /\ formatSlot "09:00" = "9:00 AM".
Proof.
  destruct (X13_twelve_hour_texts "13:30" 13 30
              (mkState TimeMode (DateAt 0) (Int 0) (Int 1970) "13:30")
              eq_refl ltac:(lia) ltac:(lia) eq_refl eq_refl)
    as (_ & H1 & _).
  destruct (X13_twelve_hour_texts "09:00" 9 0
              (mkState TimeMode (DateAt 0) (Int 0) (Int 1970) "09:00")
              eq_refl ltac:(lia) ltac:(lia) eq_refl eq_refl)
    as (_ & H2 & _).
  rewrite H1, H2. split; reflexivity.
Defined.

(** X14: the wizard after a time is confirmed.  For a selected slot with
    hour 0..23 and a minute, the booking holds the 24-hour slot text, the
    time input shows the 12-hour text, and nothing else of the booking
    changes. *)
Theorem X14_confirmed_time_in_wizard picker slot h mi w :
  mode picker = TimeMode -> selectedSlot picker = slot ->
  slotFields slot = (Int h, Int mi) -> 0 <= h <= 23 -> 0 <= mi ->
  let out := formatOutput picker in
  let w' := confirmTime out w in
  Wizard.time (Wizard.formData w') = slot
  /\ Wizard.timeDisplay w' = formatSlot slot
  /\ timeInputValue w' = formatSlot slot
  /\ Wizard.step w' = Wizard.step w
  /\ Wizard.serviceType (Wizard.formData w')
     = Wizard.serviceType (Wizard.formData w)
  /\ Wizard.packageId (Wizard.formData w')
     = Wizard.packageId (Wizard.formData w)
  /\ Wizard.date (Wizard.formData w') = Wizard.date (Wizard.formData w)
  /\ Wizard.details (Wizard.formData w')
     = Wizard.details (Wizard.formData w)
  /\ Wizard.showTimePicker w' = false.
Proof.
  intros Hmode Hsel Hf Hh Hmi. cbv zeta.
  destruct (confirmed_time_text slot h mi picker Hf Hh Hmi Hsel Hmode)
    as (Hfmt & Hts & Hsplit).
  assert (Hdisp : Wizard.timeDisplay (confirmTime (formatOutput picker) w)
                  = formatSlot slot).
  { unfold confirmTime. cbv zeta.
    cbn [Wizard.timeDisplay setShowTimePicker setTimeDisplay].
    rewrite Hfmt, Hsplit. reflexivity. }
  split.
  - unfold confirmTime. cbv zeta.
    cbn. exact Hts.
  - split; [exact Hdisp|]. split.
    + unfold timeInputValue. rewrite Hdisp.
      assert (Hne : truthy (formatSlot slot) = true).
      { unfold formatSlot. rewrite Hf.
        match goal with
        | |- truthy (?a ++ ":" ++ ?b)%string = true =>
            change (a ++ ":" ++ b)%string with (a ++ String ":" b)%string;
            apply truthy_append
        end. }
      rewrite Hne. reflexivity.
    + repeat split.
Qed.

Lemma X14_confirmed_time_in_wizard_witness :
  let w' := confirmTime
              (formatOutput
                 (mkState TimeMode (DateAt 0) (Int 0) (Int 1970) "13:30"))
              Wizard.initial in
  Wizard.time (Wizard.formData w') = "13:30"
  /\ timeInputValue w' = "1:30 PM".
Proof.
  destruct (X14_confirmed_time_in_wizard
              (mkState TimeMode (DateAt 0) (Int 0) (Int 1970) "13:30")
              "13:30" 13 30 Wizard.initial
              eq_refl eq_refl eq_refl ltac:(lia) ltac:(lia))
    as (H1 & _ & H2 & _).
  split; [exact H1|exact H2].
Defined.

End Displays.

(* ================================================================== *)
(** * The list adapter on the modal's slots *)

Section ListAdapter.
Import JS Slots Picker Desktop DesktopMore Spec SpecMore.

(** X15: no interaction with the list adapter selects a disabled slot:
    whatever a click, Enter or an arrow key passes to [onSelectSlot] is
    not in [disabledSlots]. *)
Theorem X15_list_never_selects_disabled allSlots disabledSlots :
  (forall fuel key currentSlot index slot focus,
      handleKeyDown fuel key allSlots disabledSlots currentSlot index
      = Some (Selected slot focus) ->
      includes disabledSlots slot = false)
  /\ (forall slot chosen focus,
        clickSlot disabledSlots slot = Selected chosen focus ->
        includes disabledSlots chosen = false).
Proof.
  split.
  - intros fuel key currentSlot index slot focus H.
    unfold handleKeyDown, arrow in H.
    destruct key.
    + destruct (skipLoop fuel true allSlots disabledSlots index index)
        as [newIndex|]; [|discriminate].
      destruct (includes disabledSlots (item allSlots newIndex)) eqn:E;
        cbn [negb] in H; [discriminate|].
      injection H as <- _. exact E.
    + destruct (skipLoop fuel false allSlots disabledSlots index index)
        as [newIndex|]; [|discriminate].
      destruct (includes disabledSlots (item allSlots newIndex)) eqn:E;
        cbn [negb] in H; [discriminate|].
      injection H as <- _. exact E.
    + destruct (includes disabledSlots (Some currentSlot)) eqn:E;
        cbn [negb] in H; [discriminate|].
      injection H as <- _. exact E.
    + discriminate.
  - intros slot chosen focus H. unfold clickSlot in H. cbv zeta in H.
    destruct (includes disabledSlots (Some slot)) eqn:E;
      cbn [negb] in H; [discriminate|].
    injection H as <- _. exact E.
Qed.

Lemma X15_list_never_selects_disabled_witness :
  includes ["09:00"] (Some "10:00") = false.
Proof.
  destruct (X15_list_never_selects_disabled getAllTimeSlots ["09:00"])
    as (H & _).
  apply (H 5%nat ArrowDown "09:30" 1 (Some "10:00") (Some 2)).
  vm_compute. reflexivity.
Defined.

Lemma item_app_left (l1 l2 : list string) i :
  0 <= i < Z.of_nat (List.length l1) ->
  exists s, item (l1 ++ l2) i = Some s /\ In s l1.
Proof.
  intros Hi. unfold item.
  replace (i <? 0) with false by (symmetry; apply Z.ltb_ge; lia).
  rewrite nth_error_app1 by lia.
  destruct (nth_error l1 (Z.to_nat i)) as [s|] eqn:E.
  - exists s. split; [reflexivity|]. eapply nth_error_In, E.
  - apply nth_error_None in E. lia.
Qed.

Lemma item_app_right (l1 l2 : list string) i :
  Z.of_nat (List.length l1) <= i < Z.of_nat (List.length (l1 ++ l2)) ->
  exists s, item (l1 ++ l2) i = Some s /\ In s l2.
Proof.
  intros Hi. unfold item. rewrite length_app in Hi.
  replace (i <? 0) with false by (symmetry; apply Z.ltb_ge; lia).
  rewrite nth_error_app2 by lia.
  destruct (nth_error l2 (Z.to_nat i - List.length l1)) as [s|] eqn:E.
  - exists s. split; [reflexivity|]. eapply nth_error_In, E.
  - apply nth_error_None in E. lia.
Qed.

Lemma disabledSlotsOf_In now date slot :
  In slot (disabledSlotsOf now date)
  <-> In slot getAllTimeSlots /\ isSlotDisabled now date slot = true.
Proof. unfold disabledSlotsOf. apply filter_In. Qed.

(** In the list the modal shows, the slots before position
    [length disabledSlots] are the disabled ones. *)
Lemma disabledAt_position now date i :
  0 <= i < 26 ->
  disabledAt getAllTimeSlots (disabledSlotsOf now date) i
  = (i <? Z.of_nat (List.length (disabledSlotsOf now date))).
Proof.
  intros Hi. unfold disabledAt.
  pose proof (disabled_available_partition now date) as Hp.
  assert (Hlen : List.length getAllTimeSlots = 26%nat) by reflexivity.
  destruct (Z.ltb_spec i (Z.of_nat (List.length (disabledSlotsOf now date))))
    as [Hlt|Hge].
  - destruct (item_app_left (disabledSlotsOf now date)
                (getAvailableTimeSlots now date) i ltac:(lia)) as (s & Hs & Hin).
    rewrite Hp in Hs. rewrite Hs. apply includes_In. exact Hin.
  - destruct (item_app_right (disabledSlotsOf now date)
                (getAvailableTimeSlots now date) i) as (s & Hs & Hin).
    { rewrite Hp, Hlen. lia. }
    rewrite Hp in Hs. rewrite Hs.
    destruct (includes (disabledSlotsOf now date) (Some s)) eqn:E;
      [|reflexivity].
    apply includes_In, disabledSlotsOf_In in E as [_ E].
    apply available_In in Hin as [_ Hin]. congruence.
Qed.

(** X16: the arrow keys on the list the modal shows, with the focus on an
    enabled slot.  ArrowDown returns after one round and selects the next
    slot (the last slot itself at the end of the list).  ArrowUp does the
    same towards the previous slot when that is enabled, or selects slot 0
    again when the focus is there; on the first enabled slot, with a
    disabled slot before it, ArrowUp never returns. *)
Theorem X16_arrows_on_the_modal_list now date index :
  let disabledSlots := disabledSlotsOf now date in
  let k := Z.of_nat (List.length disabledSlots) in
  k <= index < 26 ->
  (forall fuel currentSlot, (0 < fuel)%nat ->
      handleKeyDown fuel ArrowDown getAllTimeSlots disabledSlots
                    currentSlot index
      = Some (Selected (item getAllTimeSlots (Z.min (index + 1) 25))
                       (Some (Z.min (index + 1) 25))))
  /\ (k < index \/ index = 0 ->
      forall fuel currentSlot, (0 < fuel)%nat ->
        handleKeyDown fuel ArrowUp getAllTimeSlots disabledSlots
                      currentSlot index
        = Some (Selected (item getAllTimeSlots (Z.max (index - 1) 0))
                         (Some (Z.max (index - 1) 0))))
  /\ (index = k -> 0 < k ->
      forall fuel currentSlot,
        handleKeyDown fuel ArrowUp getAllTimeSlots disabledSlots
                      currentSlot index = None).
Proof.
  cbv zeta. intros Hi.
  assert (Hlen : Z.of_nat (List.length getAllTimeSlots) - 1 = 25)
    by reflexivity.
  split; [|split].
  - intros fuel currentSlot Hfuel. destruct fuel as [|fuel]; [lia|].
    assert (Hen : disabledAt getAllTimeSlots (disabledSlotsOf now date)
                    (Z.min (index + 1) 25) = false).
    { rewrite disabledAt_position by lia. apply Z.ltb_ge. lia. }
    unfold handleKeyDown, arrow. rewrite skipLoop_step. cbv zeta.
    rewrite Hlen, Hen. cbn [andb]. unfold disabledAt in Hen. rewrite Hen.
    reflexivity.
  - intros Hcase fuel currentSlot Hfuel. destruct fuel as [|fuel]; [lia|].
    assert (Hen : disabledAt getAllTimeSlots (disabledSlotsOf now date)
                    (Z.max (index - 1) 0) = false).
    { rewrite disabledAt_position by lia. apply Z.ltb_ge. lia. }
    unfold handleKeyDown, arrow. rewrite skipLoop_step. cbv zeta.
    rewrite Hen. cbn [andb]. unfold disabledAt in Hen. rewrite Hen.
    reflexivity.
  - intros -> Hk fuel currentSlot. unfold handleKeyDown.
    apply arrow_up_diverges; [exact Hk|].
    intros j Hj. rewrite disabledAt_position by lia.
    apply Z.ltb_lt. lia.
Qed.

(** 2026-11-03 at 10:15: 09:00, 09:30 and 10:00 are disabled. *)
Lemma X16_arrows_on_the_modal_list_witness :
  handleKeyDown 1 ArrowDown getAllTimeSlots
    (disabledSlotsOf 1793700900000 (DateAt 1793700900000)) "11:00" 4
  = Some (Selected (Some "11:30") (Some 5))
  /\ handleKeyDown 1 ArrowUp getAllTimeSlots
       (disabledSlotsOf 1793700900000 (DateAt 1793700900000)) "11:00" 4
     = Some (Selected (Some "10:30") (Some 3))
  /\ handleKeyDown 1000 ArrowUp getAllTimeSlots
       (disabledSlotsOf 1793700900000 (DateAt 1793700900000)) "10:30" 3
     = None.
Proof.
  assert (Hk : Z.of_nat (List.length
                 (disabledSlotsOf 1793700900000 (DateAt 1793700900000))) = 3)
    by (vm_compute; reflexivity).
  destruct (X16_arrows_on_the_modal_list 1793700900000
              (DateAt 1793700900000) 4) as (Hd & Hu & _); [rewrite Hk; lia|].
  destruct (X16_arrows_on_the_modal_list 1793700900000
              (DateAt 1793700900000) 3) as (_ & _ & Hn); [rewrite Hk; lia|].
  split; [|split].
  - rewrite Hd by lia. reflexivity.
  - rewrite Hu by (rewrite ?Hk; lia). reflexivity.
  - apply Hn; rewrite Hk; lia.
Defined.

End ListAdapter.

(* ================================================================== *)
(** * More on the wheel *)

Section WheelMoreFacts.
Import Wheel WheelMore.

(** [Math.round] picks the integer within half a unit, a tie going up. *)
Lemma Math_round_near x :
  (inject_Z (Math_round x) - (1 # 2) <= x < inject_Z (Math_round x) + (1 # 2))%Q.
Proof.
  unfold Math_round.
  pose proof (Qfloor_le (x + (1 # 2))) as H1.
  pose proof (Qlt_floor (x + (1 # 2))) as H2.
  rewrite inject_Z_plus in H2. change (inject_Z 1) with 1%Q in H2.
  split; lra.
Qed.

Lemma Math_round_unique x n :
  (inject_Z n - (1 # 2) <= x < inject_Z n + (1 # 2))%Q -> Math_round x = n.
Proof.
  intros [Hlo Hhi]. destruct (Math_round_near x) as [H1 H2].
  assert (Ha : (inject_Z n < inject_Z (Math_round x) + 1)%Q) by lra.
  assert (Hb : (inject_Z (Math_round x) < inject_Z n + 1)%Q) by lra.
  change 1%Q with (inject_Z 1) in Ha, Hb.
  rewrite <- inject_Z_plus in Ha, Hb.
  rewrite <- Zlt_Qlt in Ha, Hb. lia.
Qed.

Lemma scroll_quotient (scrollTop : Q) :
  (scrollTop / inject_Z ITEM_HEIGHT == scrollTop * (1 # 44))%Q.
Proof. unfold ITEM_HEIGHT. reflexivity. Qed.

(** X17: the wheel snaps to the nearest item.  On a non-empty list and a
    scroll position inside the list, the position [handleScrollEnd]
    scrolls to is a multiple of the item height within half an item of
    the position (a tie going down the list), and a scroll end at a
    snapped position scrolls to that same position. *)
Theorem X17_wheel_snaps_to_nearest (T : Type) (items : list T) (scrollTop : Q) :
  items <> [] ->
  let i := clampedIndex scrollTop (List.length items) in
  handleScrollEnd T items (Some scrollTop) = Some (i * ITEM_HEIGHT)
  /\ handleScrollEnd T items (Some (inject_Z (i * ITEM_HEIGHT)))
     = Some (i * ITEM_HEIGHT)
  /\ ((0 <= scrollTop
       <= inject_Z ((Z.of_nat (List.length items) - 1) * ITEM_HEIGHT))%Q ->
      (inject_Z (i * ITEM_HEIGHT) - 22 <= scrollTop
       < inject_Z (i * ITEM_HEIGHT) + 22)%Q).
Proof.
  intros Hne. cbv zeta.
  assert (Hlen : (0 < List.length items)%nat)
    by (destruct items; [congruence|simpl; lia]).
  pose proof (clamp_range (Math_round (scrollTop / inject_Z ITEM_HEIGHT))
                (List.length items) Hlen) as Hr.
  fold (clampedIndex scrollTop (List.length items)) in Hr.
  set (i := clampedIndex scrollTop (List.length items)) in *.
  split; [reflexivity|]. split.
  - unfold handleScrollEnd. f_equal. f_equal.
    unfold clampedIndex, clamp.
    rewrite (Math_round_unique _ i).
    + lia.
    + rewrite scroll_quotient. unfold ITEM_HEIGHT.
      rewrite inject_Z_mult. change (inject_Z 44) with 44%Q. split; lra.
  - intros [Hlo Hhi].
    destruct (Math_round_near (scrollTop / inject_Z ITEM_HEIGHT)) as [H1 H2].
    pose proof (scroll_quotient scrollTop) as Hq.
    unfold i, clampedIndex, clamp in *. clear i.
    set (q := (scrollTop / inject_Z ITEM_HEIGHT)%Q) in *.
    set (r := Math_round q) in *.
    unfold ITEM_HEIGHT in Hhi |- *. rewrite inject_Z_mult in Hhi.
    change (inject_Z 44) with 44%Q in *.
    assert (Hr0 : 0 <= r).
    { apply Z.lt_succ_r. rewrite Zlt_Qlt. unfold Z.succ.
      rewrite inject_Z_plus.
      change (inject_Z 1) with 1%Q. change (inject_Z 0) with 0%Q. lra. }
    assert (Hr1 : r <= Z.of_nat (List.length items) - 1).
    { apply Z.lt_succ_r. rewrite Zlt_Qlt. unfold Z.succ.
      rewrite inject_Z_plus. change (inject_Z 1) with 1%Q. lra. }
    replace (Z.max 0 (Z.min r (Z.of_nat (List.length items) - 1))) with r
      by lia.
    rewrite inject_Z_mult. change (inject_Z 44) with 44%Q. split; lra.
Qed.

Lemma X17_wheel_snaps_to_nearest_witness :
  handleScrollEnd string ["10:00"; "10:30"; "11:00"] (Some (65 # 1))
  = Some 44
  /\ handleScrollEnd string ["10:00"; "10:30"; "11:00"] (Some (66 # 1))
     = Some 88.
Proof.
  destruct (X17_wheel_snaps_to_nearest string ["10:00"; "10:30"; "11:00"]
              (65 # 1)) as (H1 & _); [discriminate|].
  destruct (X17_wheel_snaps_to_nearest string ["10:00"; "10:30"; "11:00"]
              (66 # 1)) as (H2 & _); [discriminate|].
  rewrite H1, H2. split; reflexivity.
Defined.

Section Items.

Variable T : Type.
Variable T_eqb : T -> T -> bool.

(** [indexOf] finds an element that is equal to the value. *)
Lemma indexOf_found (items : list T) v :
  indexOf T T_eqb items v <> -1 ->
  0 <= indexOf T T_eqb items v < Z.of_nat (List.length items)
  /\ exists x, Wheel.item T items (indexOf T T_eqb items v) = Some x
               /\ T_eqb x v = true.
Proof.
  induction items as [|y l IH]; cbn [indexOf]; [congruence|].
  destruct (T_eqb y v) eqn:E.
  - intros _. split; [cbn [List.length]; lia|]. exists y. split; [reflexivity|exact E].
  - destruct (Z.eqb_spec (indexOf T T_eqb l v) (-1)) as [|Hne]; [congruence|].
    intros _. destruct (IH Hne) as (Hr & x & Hx & Hxv).
    split; [cbn [List.length]; lia|]. exists x. split; [|exact Hxv].
    unfold Wheel.item in *.
    replace (indexOf T T_eqb l v + 1 <? 0) with false
      by (symmetry; apply Z.ltb_ge; lia).
    replace (indexOf T T_eqb l v <? 0) with false in Hx
      by (symmetry; apply Z.ltb_ge; lia).
    replace (Z.to_nat (indexOf T T_eqb l v + 1))
      with (S (Z.to_nat (indexOf T T_eqb l v))) by lia.
    exact Hx.
Qed.

(** X18: the scroll the wheel makes to show the selected value selects
    nothing: at the position the effect scrolls to, [handleScroll] makes no
    [onSelect] call, and [handleScrollEnd] stays there. *)
Theorem X18_wheel_mount_scroll_is_silent (items : list T) (selectedValue : T)
  (position : Z) :
  scrollEffect T T_eqb items selectedValue true = Some position ->
  handleScroll T T_eqb items selectedValue (Some (inject_Z position)) = None
  /\ handleScrollEnd T items (Some (inject_Z position)) = Some position.
Proof.
  unfold scrollEffect. cbn [negb]. cbv zeta.
  destruct (Z.eqb_spec (indexOf T T_eqb items selectedValue) (-1))
    as [|Hne]; [discriminate|]. cbn [negb]. intros H. injection H as <-.
  destruct (indexOf_found items selectedValue Hne) as (Hr & x & Hx & Hxv).
  set (i := indexOf T T_eqb items selectedValue) in *.
  assert (Hc : clampedIndex (inject_Z (i * ITEM_HEIGHT)) (List.length items)
               = i).
  { unfold clampedIndex, clamp. rewrite (Math_round_unique _ i); [lia|].
    rewrite scroll_quotient. unfold ITEM_HEIGHT.
    rewrite inject_Z_mult. change (inject_Z 44) with 44%Q. split; lra. }
  split.
  - unfold handleScroll. cbv zeta. rewrite Hc, Hx, Hxv. reflexivity.
  - unfold handleScrollEnd. rewrite Hc. reflexivity.
Qed.

End Items.

Lemma X18_wheel_mount_scroll_is_silent_witness :
  handleScroll string String.eqb ["10:00"; "10:30"; "11:00"] "10:30"
               (Some (inject_Z 44)) = None.
Proof.
  apply (X18_wheel_mount_scroll_is_silent string String.eqb
           ["10:00"; "10:30"; "11:00"] "10:30" 44).
  reflexivity.
Defined.

End WheelMoreFacts.

(* ================================================================== *)
(** * Submission and the mail relay *)

Section Relay.
Import Wizard Server.

(** X19: the wizard against the relay.  When the request reaches the
    handler of [server.js] and its answer comes back, the wizard shows the
    confirmation exactly when [sendMail] resolved and shows the alert,
    once, exactly when it threw, with or without a message; the booking,
    the step and the displays are never changed. *)
Theorem X19_submit_against_relay st send :
  let run := handleSubmit st (Resolves (snd (respond send))) in
  (submitted (after run) = true <-> send = Sent \/ submitted st = true)
  /\ (alerts run = [submitErrorMessage] <-> send <> Sent)
  /\ (alerts run = [] <-> send = Sent)
  /\ rejected run = false
  /\ (fst (respond send) = 200 <-> send = Sent)
  /\ formData (after run) = formData st
  /\ step (after run) = step st
  /\ dateDisplay (after run) = dateDisplay st
  /\ timeDisplay (after run) = timeDisplay st.
Proof.
  cbv zeta. destruct send as [|[message|]]; cbn.
  - repeat split; try (intros; auto; discriminate); auto; congruence.
  - repeat split; try discriminate; try reflexivity; try tauto;
      try (intros [H|H]; [discriminate|exact H]); try congruence.
  - repeat split; try discriminate; try reflexivity; try tauto;
      try (intros [H|H]; [discriminate|exact H]); try congruence.
Qed.

Lemma X19_submit_against_relay_witness :
  alerts (handleSubmit initial
            (Resolves (snd (respond (Throws (Some "no route"))))))
  = [submitErrorMessage].
Proof.
  destruct (X19_submit_against_relay initial (Throws (Some "no route")))
    as (_ & H & _).
  apply H. discriminate.
Defined.

(** X20: what the relay reads from the wizard's request.  Each of the nine
    keys of the body gives the field of the booking it was written from,
    and the body has no [package] key: the mail says "Not selected" for
    the package whatever package was chosen, and its subject ends in the
    service type. *)
Theorem X20_mail_never_names_the_package f :
  field "service" (requestBody f) = Some (serviceType f)
  /\ field "date" (requestBody f) = Some (date f)
  /\ field "time" (requestBody f) = Some (time f)
  /\ field "name" (requestBody f) = Some (name (details f))
  /\ field "email" (requestBody f) = Some (email (details f))
  /\ field "phone" (requestBody f) = Some (phone (details f))
  /\ field "company" (requestBody f) = Some (company (details f))
  /\ field "brief" (requestBody f) = Some (brief (details f))
  /\ field "budget" (requestBody f) = Some (budget (details f))
  /\ field "package" (requestBody f) = None
  /\ packageText (field "package" (requestBody f)) = "Not selected"
  /\ subjectOf (requestBody f)
     = ("New Booking Request - " ++ serviceType f)%string
  /\ (forall g,
        serviceType g = serviceType f -> date g = date f ->
        time g = time f -> details g = details f ->
        textOf (requestBody g) = textOf (requestBody f)).
Proof.
  repeat split.
  intros g Hs Hd Ht Hde. unfold requestBody. rewrite Hs, Hd, Ht, Hde.
  reflexivity.
Qed.

Lemma X20_mail_never_names_the_package_witness :
  textOf (requestBody
            (mkBooking "editing" "p2" "2026-12-25" "10:30"
               (mkDetails "Ada" "a@example.com" "" "" "A film" "")))
  = textOf (requestBody
              (mkBooking "editing" "custom" "2026-12-25" "10:30"
                 (mkDetails "Ada" "a@example.com" "" "" "A film" ""))).
Proof.
  destruct (X20_mail_never_names_the_package
              (mkBooking "editing" "custom" "2026-12-25" "10:30"
                 (mkDetails "Ada" "a@example.com" "" "" "A film" "")))
    as (_ & _ & _ & _ & _ & _ & _ & _ & _ & _ & _ & _ & H).
  apply H; reflexivity.
Defined.

End Relay.

(* ================================================================== *)
(** * The wizard as a whole *)

Section WizardRuns.
Import Wizard Book.

Lemma dateStr_nonempty picker :
  Picker.dateStr (Picker.formatOutput picker) <> "".
Proof.
  unfold Picker.formatOutput.
  destruct (Picker.parseTimeSlot (Picker.selectedSlot picker))
    as [[hour12 minute] period].
  cbn [Picker.dateStr].
  destruct (JS.String_ (JS.getFullYear (Picker.selectedDate picker)));
    discriminate.
Qed.

Lemma clickOK_output now picker out :
  Picker.clickOK now picker = Some out -> out = Picker.formatOutput picker.
Proof.
  unfold Picker.clickOK. destruct (Picker.okDisabled now picker); congruence.
Qed.

(** A click or a keystroke keeps the shape of the state, and never
    shows the confirmation. *)
Lemma control_keeps requests ev st :
  Shape requests st ->
  Shape requests (control ev st)
  /\ submitted (control ev st) = submitted st.
Proof.
  intros H. unfold control.
  destruct (submitted st) eqn:Es; [split; assumption|].
  pose proof H as (Hstep & Hserv & Hpack & Hdate).
  destruct ev as [type|id| | | | | | |now picker|now picker|fld value
                 | |transport].
  - destruct (Z.eqb_spec (step st) 1) as [E1|]; cbn [andb];
      [|split; assumption].
    destruct (JS.includes serviceTypes (Some type)) eqn:Ei;
      [|split; assumption].
    apply includes_In in Ei. split; [|exact Es].
    unfold Shape. cbn -[In Z.add serviceTypes PACKAGES_ids].
    split; [lia|]. split; [left; exact Ei|]. split.
    + destruct Hpack as [Hp|(Hp & _ & Hr)];
        [left; exact Hp|right; repeat split; [exact Hp|lia|exact Hr]].
    + destruct Hdate as [Hd|(_ & Hr)];
        [left; exact Hd|right; split; [lia|exact Hr]].
  - destruct (Z.eqb_spec (step st) 2) as [E2|]; cbn [andb];
      [|split; assumption].
    destruct (JS.includes ("custom" :: PACKAGES_ids) (Some id)) eqn:Ei;
      [|split; assumption].
    apply includes_In in Ei. split; [|exact Es].
    unfold Shape. cbn -[In Z.add serviceTypes PACKAGES_ids].
    split; [lia|]. split; [|split; [left; exact Ei|]].
    + destruct Hserv as [Hs|(_ & H1 & _)]; [left; exact Hs|lia].
    + destruct Hdate as [Hd|(_ & Hr)];
        [left; exact Hd|right; split; [lia|exact Hr]].
  - destruct (Z.leb_spec 2 (step st)) as [H2|]; cbn [andb];
      [|split; assumption].
    destruct (Z.leb_spec (step st) 4) as [H4|]; [|split; assumption].
    split; [|exact Es].
    unfold Shape. cbn -[In Z.sub serviceTypes PACKAGES_ids].
    split; [lia|]. split; [|split].
    + destruct Hserv as [Hs|(_ & H1 & _)]; [left; exact Hs|lia].
    + destruct Hpack as [Hp|(Hp & Hs & Hr)];
        [left; exact Hp|right; repeat split; [exact Hp|lia|exact Hr]].
    + destruct Hdate as [Hd|(Hs & Hr)];
        [left; exact Hd|right; split; [lia|exact Hr]].
  - destruct (Z.eqb_spec (step st) 3) as [E3|]; cbn [andb];
      [|split; assumption].
    destruct (Picker.truthy (date (formData st))) eqn:Et;
      [|split; assumption].
    split; [|exact Es].
    unfold Shape. cbn -[In Z.add serviceTypes PACKAGES_ids].
    split; [lia|]. split; [|split].
    + destruct Hserv as [Hs|(_ & H1 & _)]; [left; exact Hs|lia].
    + destruct Hpack as [Hp|(_ & Hs & _)]; [left; exact Hp|lia].
    + left. intros Hd. rewrite Hd in Et. discriminate.
  - destruct (step st =? 3); split; assumption.
  - destruct (step st =? 3); split; assumption.
  - destruct ((step st =? 3) && showDatePicker st); split; assumption.
  - destruct ((step st =? 3) && showTimePicker st); split; assumption.
  - destruct (Z.eqb_spec (step st) 3) as [E3|]; cbn [andb];
      [|split; assumption].
    destruct (showDatePicker st
              && Picker.Mode_eqb (Picker.mode picker) Picker.DateMode);
      [|split; assumption].
    destruct (Picker.clickOK now picker) as [out|] eqn:Eok;
      [|split; assumption].
    apply clickOK_output in Eok. subst out.
    split; [|exact Es].
    unfold Shape.
    cbn -[In serviceTypes PACKAGES_ids JSMore.trim JS.split
          Picker.formatOutput].
    split; [exact Hstep|]. split; [exact Hserv|]. split; [exact Hpack|].
    left. apply dateStr_nonempty.
  - destruct (Z.eqb_spec (step st) 3) as [E3|]; cbn [andb];
      [|split; assumption].
    destruct (showTimePicker st
              && Picker.Mode_eqb (Picker.mode picker) Picker.TimeMode);
      [|split; assumption].
    destruct (Picker.clickOK now picker) as [out|];
      [|split; assumption].
    split; [|exact Es]. exact H.
  - destruct (step st =? 4); [|split; assumption].
    split; [|exact Es]. exact H.
  - split; assumption.
  - split; assumption.
Qed.

(** Every event keeps what holds of the page. *)
Lemma fire_keeps valid ev p :
  Invariant p -> Invariant (fire valid ev p).
Proof.
  intros HI. pose proof HI as (Hshape & Hsent & Hreq). unfold fire. cbv zeta.
  assert (Hcontrol : Invariant (mkPage (control ev (view p)) (sent p)
                                       (pending p))).
  { destruct (control_keeps (sent p) ev (view p) Hshape) as [Hs Hsub].
    split; [exact Hs|]. split; [|exact Hreq].
    cbn [pending view sent]. rewrite Hsub. exact Hsent. }
  destruct ev as [type|id| | | | | | |now picker|now picker|fld value
                 | |transport]; try exact Hcontrol.
  - destruct (submitted (view p)) eqn:Es in |- *; cbn [negb andb];
      [exact HI|].
    destruct (Z.eqb_spec (step (view p)) 4) as [E4|]; cbn [andb];
      [|exact HI].
    destruct (requiredFilled (view p)) eqn:Er in |- *; cbn [andb];
      [|exact HI].
    destruct (valid (email (details (formData (view p))))); [|exact HI].
    destruct Hshape as (Hstep & Hserv & Hpack & Hdate).
    assert (Hs : In (serviceType (formData (view p))) serviceTypes)
      by (destruct Hserv as [Hs|(_ & H1 & _)]; [exact Hs|lia]).
    assert (Hp : In (packageId (formData (view p)))
                    ("custom" :: PACKAGES_ids))
      by (destruct Hpack as [Hp|(_ & H1 & _)]; [exact Hp|lia]).
    assert (Hd : date (formData (view p)) <> "")
      by (destruct Hdate as [Hd|(H1 & _)]; [exact Hd|lia]).
    split; [|split].
    + cbn [view sent]. split; [exact Hstep|]. split; [left; exact Hs|].
      split; left; assumption.
    + intros _. cbn [sent]. discriminate.
    + cbn [sent]. intros r [<-|Hr]; [|apply Hreq, Hr].
      unfold requiredFilled in Er.
      apply andb_true_iff in Er as [Er Hb].
      apply andb_true_iff in Er as [Hn He].
      unfold wellFormed, handleSubmit. cbn [request payloadOf p_service
        p_date p_name p_email p_brief].
      split; [exact Hs|]. split; [exact Hd|].
      repeat split; intros E; rewrite E in *; discriminate.
  - destruct (pending p) as [|k] eqn:Ep in |- *; [exact HI|].
    assert (Hne : sent p <> []) by (apply Hsent; left; rewrite Ep; discriminate).
    assert (Hafter : forall st', after (handleSubmit (view p) transport) = st'
              -> step st' = step (view p) /\ formData st' = formData (view p)).
    { intros st' <-. unfold handleSubmit. cbv zeta.
      destruct transport as [| |data]; cbn [after]; [split; reflexivity..|].
      destruct (successOf data) as [success|]; cbn [after];
        [|split; reflexivity].
      destruct (negb (truthy success)); cbn [after]; split; reflexivity. }
    destruct (Hafter _ eq_refl) as [Hst Hfd].
    split; [|split].
    + cbn [view sent]. unfold Shape. rewrite Hst, Hfd. exact Hshape.
    + intros _. exact Hne.
    + exact Hreq.
Qed.

Lemma run_keeps valid events :
  forall p, Invariant p -> Invariant (run valid events p).
Proof.
  unfold run. induction events as [|ev events IH]; intros p H; [exact H|].
  cbn [fold_left]. apply IH, fire_keeps, H.
Qed.

Lemma opened_Invariant : Invariant opened.
Proof.
  unfold Invariant, Shape, opened, initial.
  cbn [view sent pending step formData submitted serviceType packageId date].
  split; [|split].
  - split; [lia|]. split; [right; repeat split|].
    split; [right; repeat split; lia|right; split; [lia|reflexivity]].
  - intros [H|H]; [contradiction|discriminate].
  - intros r [].
Qed.

(** X21: whatever happens on the booking page, in whatever order, and
    whatever e-mail addresses the browser accepts.  The
    step stays between 1 and 4; from step 2 on the service type is one of
    the three offered, from step 3 on the package is "custom" or one of
    the catalog, at step 4 a date is there; every request made names one
    of the three services and has a date, a name, an email and a brief;
    and when the confirmation is shown, a request has been made and the
    booking has a service type, a package and a date.  (A time is not
    among these, nor is the step the confirmation is shown at.) *)
Theorem X21_wizard_invariant valid events :
  let p := run valid events opened in
  let st := view p in
  1 <= step st <= 4
  /\ (2 <= step st -> In (serviceType (formData st)) serviceTypes)
  /\ (3 <= step st ->
      In (packageId (formData st)) ("custom" :: PACKAGES_ids))
  /\ (step st = 4 -> date (formData st) <> "")
  /\ (forall r, In r (sent p) ->
        In (p_service r) serviceTypes
        /\ p_date r <> "" /\ p_name r <> "" /\ p_email r <> ""
        /\ p_brief r <> "")
  /\ (submitted st = true ->
      sent p <> []
      /\ In (serviceType (formData st)) serviceTypes
      /\ In (packageId (formData st)) ("custom" :: PACKAGES_ids)
      /\ date (formData st) <> "").
Proof.
  cbv zeta.
  destruct (run_keeps valid events opened opened_Invariant)
    as ((Hstep & Hserv & Hpack & Hdate) & Hsent & Hreq).
  split; [exact Hstep|]. split; [|split; [|split; [|split]]].
  - intros H2. destruct Hserv as [H|(_ & H1 & _)]; [exact H|lia].
  - intros H3. destruct Hpack as [H|(_ & H1 & _)]; [exact H|lia].
  - intros H4. destruct Hdate as [H|(H1 & _)]; [exact H|lia].
  - exact Hreq.
  - intros Hs. assert (Hne : sent (run valid events opened) <> [])
      by (apply Hsent; right; exact Hs).
    split; [exact Hne|]. split; [|split].
    + destruct Hserv as [H|(_ & _ & H1)]; [exact H|contradiction].
    + destruct Hpack as [H|(_ & _ & H1)]; [exact H|contradiction].
    + destruct Hdate as [H|(_ & H1)]; [exact H|contradiction].
Qed.

Lemma X21_wizard_invariant_witness :
  In (serviceType
        (formData
           (view (run validEmail
                    [ClickService "editing"; ClickBack; ClickNext;
                     ClickService "videography"] opened))))
     serviceTypes.
Proof.
  destruct (X21_wizard_invariant validEmail
              [ClickService "editing"; ClickBack; ClickNext;
               ClickService "videography"]) as (_ & H & _).
  apply H. vm_compute. discriminate.
Defined.

(** What the date picker opened on an empty booking delivers when OK is
    pressed on the day it was opened. *)
Lemma first_date_pick now now' :
  JS.Day now' = JS.Day now ->
  exists out,
    Picker.clickOK now'
      (Picker.init now Picker.DateMode (Some EmptyString) (Some EmptyString))
    = Some out
    /\ Picker.truthy (Picker.dateStr out) = true.
Proof.
  intros Hday.
  set (picker := Picker.init now Picker.DateMode (Some EmptyString)
                   (Some EmptyString)).
  destruct (initSelectedDate_valid now (Some EmptyString)) as [t Ht];
    [left; reflexivity|].
  exists (Picker.formatOutput picker). split.
  - unfold Picker.clickOK, Picker.okDisabled, picker, Picker.init.
    cbn [Picker.mode Picker.selectedDate Picker.Mode_eqb andb orb].
    pose proof (seed_not_past now (Some EmptyString)) as Hseed.
    rewrite Ht in *. rewrite isPastDate_valid in *. rewrite Hday, Hseed.
    reflexivity.
  - destruct (formatOutput_date picker t Ht) as [-> _].
    apply truthy_append.
Qed.

Lemma validEmail_truthy e : validEmail e = true -> Picker.truthy e = true.
Proof. destruct e; [discriminate|reflexivity]. Qed.

(** X22: a time is not needed for the confirmation.  Choose a service
    and a package, open the date picker and press OK the same day on the
    date it proposes, go on, type a name, a valid e-mail address and a
    brief, submit, and let the relay answer with a true [success]: the
    confirmation is shown, and the booking, the time input and the one
    request made have no time. *)
Theorem X22_confirmation_without_a_time now now' n e b :
  JS.Day now' = JS.Day now -> n <> "" -> validEmail e = true -> b <> "" ->
  let events :=
    [ClickService "videography"; ClickPackage "custom"; OpenDatePicker;
     ConfirmDate now'
       (Picker.init now Picker.DateMode (Some EmptyString)
          (Some EmptyString));
     ClickNext; TypeDetail "name" n; TypeDetail "email" e;
     TypeDetail "brief" b; Submit;
     Answer (Resolves (JObject [("success", JBool true)]))] in
  let p := run validEmail events opened in
  submitted (view p) = true
  /\ step (view p) = 4
  /\ time (formData (view p)) = ""
  /\ timeInputValue (view p) = ""
  /\ map p_time (sent p) = [""].
Proof.
  intros Hday Hn He Hb. cbv zeta.
  pose proof (validEmail_truthy e He) as Het.
  destruct (first_date_pick now now' Hday) as (out & Hok & Hdate).
  assert (Hm : Picker.mode
                 (Picker.init now Picker.DateMode (Some EmptyString)
                    (Some EmptyString)) = Picker.DateMode) by reflexivity.
  set (picker := Picker.init now Picker.DateMode (Some EmptyString)
                   (Some EmptyString)) in *.
  clearbody picker.
  unfold run. cbn [fold_left].
  change (fire validEmail (ClickService "videography") opened)
    with (mkPage (mkState 2 (mkBooking "videography" "" "" ""
                               (mkDetails "" "" "" "" "" ""))
                    false false false "" "") [] 0).
  change (fire validEmail (ClickPackage "custom") _)
    with (mkPage (mkState 3 (mkBooking "videography" "custom" "" ""
                               (mkDetails "" "" "" "" "" ""))
                    false false false "" "") [] 0).
  change (fire validEmail OpenDatePicker _)
    with (mkPage (mkState 3 (mkBooking "videography" "custom" "" ""
                               (mkDetails "" "" "" "" "" ""))
                    false true false "" "") [] 0).
  set (s3 := mkState 3 _ false true false "" "").
  assert (E4 : fire validEmail (ConfirmDate now' picker) (mkPage s3 [] 0)
               = mkPage (confirmDate out s3) [] 0).
  { unfold fire, control, s3.
    cbn [view sent pending submitted step showDatePicker Z.eqb Pos.eqb
         andb].
    rewrite Hm, Hok. reflexivity. }
  rewrite E4. clear E4. unfold s3. clear s3.
  unfold confirmDate, setShowDatePicker, setDateDisplay, updateField,
    setFormData.
  cbn -[JSMore.trim JS.split Picker.truthy validEmail].
  rewrite Hdate.
  assert (Hnt : Picker.truthy n = true)
    by (destruct n; [congruence|reflexivity]).
  assert (Hbt : Picker.truthy b = true)
    by (destruct b; [congruence|reflexivity]).
  unfold requiredFilled.
  cbn -[JSMore.trim JS.split Picker.truthy validEmail].
  rewrite Hnt, Het, Hbt, He.
  cbn -[JSMore.trim JS.split Picker.truthy validEmail].
  repeat split; reflexivity.
Qed.

Lemma X22_confirmation_without_a_time_witness :
  let events :=
    [ClickService "videography"; ClickPackage "custom"; OpenDatePicker;
     ConfirmDate 1700000060000
       (Picker.init 1700000000000 Picker.DateMode (Some EmptyString)
          (Some EmptyString));
     ClickNext; TypeDetail "name" "Mona"; TypeDetail "email" "m@x.org";
     TypeDetail "brief" "A short film"; Submit;
     Answer (Resolves (JObject [("success", JBool true)]))] in
  submitted (view (run validEmail events opened)) = true
  /\ time (formData (view (run validEmail events opened))) = "".
Proof.
  destruct (X22_confirmation_without_a_time 1700000000000 1700000060000
              "Mona" "m@x.org" "A short film") as (H1 & _ & H2 & _);
    [reflexivity|discriminate|reflexivity|discriminate|].
  split; [exact H1|exact H2].
Defined.

(** Events other than answers leave no request without its answer
    behind. *)
Lemma pending_grows valid between : forall p,
  forallb (fun ev => negb (isAnswer ev)) between = true ->
  (pending p <= pending (run valid between p))%nat.
Proof.
  unfold run. induction between as [|ev between IH]; intros p H;
    [apply Nat.le_refl|].
  cbn [forallb] in H. apply andb_true_iff in H as [Hev H].
  cbn [fold_left]. apply Nat.le_trans with (pending (fire valid ev p)).
  - unfold fire. cbv zeta.
    destruct ev; try apply Nat.le_refl; [|discriminate Hev].
    destruct (negb (submitted (view p)) && (step (view p) =? 4)
              && requiredFilled (view p)
              && valid (email (details (formData (view p)))));
      [cbn [pending]; apply Nat.le_succ_diag_r|apply Nat.le_refl].
  - apply IH, H.
Qed.

(** X25: the answer finds the page as it is.  After a submit at step 4
    with the required fields filled and a valid e-mail address, whatever
    the user does before the answer arrives, an answer with a true
    [success] shows the confirmation and changes nothing else: the step
    and the booking are those of that moment, not those of the request.
    After a click on Back, for one, the confirmation is shown at
    step 3. *)
Theorem X25_answer_finds_the_page_as_it_is p data between :
  submitted (view p) = false -> step (view p) = 4 ->
  requiredFilled (view p) = true ->
  validEmail (email (details (formData (view p)))) = true ->
  failed (Resolves data) = false ->
  forallb (fun ev => negb (isAnswer ev)) between = true ->
  let q := run validEmail between (fire validEmail Submit p) in
  let p' := fire validEmail (Answer (Resolves data)) q in
  view p' = setSubmitted true (view q)
  /\ sent p' = sent q
  /\ sent (fire validEmail Submit p)
     = payloadOf (formData (view p)) :: sent p
  /\ (between = [ClickBack] ->
      submitted (view p') = true /\ step (view p') = 3).
Proof.
  intros Es E4 Er Hv Hok Hb. cbv zeta.
  assert (Hsubmit : fire validEmail Submit p
                    = mkPage (view p)
                        (payloadOf (formData (view p)) :: sent p)
                        (S (pending p))).
  { unfold fire. cbv zeta. rewrite Es, E4, Er, Hv. reflexivity. }
  pose proof (pending_grows validEmail between (fire validEmail Submit p) Hb)
    as Hp.
  rewrite Hsubmit in Hp at 1. cbn [pending] in Hp.
  assert (Hans : forall q, (0 < pending q)%nat ->
            fire validEmail (Answer (Resolves data)) q
            = mkPage (setSubmitted true (view q)) (sent q)
                     (Nat.pred (pending q))).
  { intros q Hq. unfold fire. cbv zeta.
    destruct (pending q) as [|k]; [inversion Hq|].
    unfold handleSubmit. cbv zeta. unfold failed in Hok.
    destruct (successOf data) as [success|]; [|discriminate].
    rewrite Hok. reflexivity. }
  rewrite Hans by lia. cbn [view sent].
  split; [reflexivity|]. split; [reflexivity|].
  split; [rewrite Hsubmit; reflexivity|].
  intros ->. rewrite Hsubmit. unfold run. cbn [fold_left].
  assert (Hback : control ClickBack (view p) = handleBack (view p)).
  { unfold control. rewrite Es, E4. reflexivity. }
  unfold fire. cbv zeta. cbn [view]. rewrite Hback.
  cbn [setSubmitted handleBack setStep submitted step]. rewrite E4.
  split; reflexivity.
Qed.

Lemma X25_answer_finds_the_page_as_it_is_witness :
  let p := mkPage
             (mkState 4 (mkBooking "editing" "p1" "2026-11-20" ""
                           (mkDetails "Mona" "m@x.org" "" "" "A cut" ""))
                false false false "20/11/2026" "") [] 0 in
  step (view (run validEmail
                [Submit; ClickBack;
                 Answer (Resolves (JObject [("success", JBool true)]))]
                p)) = 3.
Proof.
  cbv zeta.
  destruct (X25_answer_finds_the_page_as_it_is
              (mkPage
                 (mkState 4 (mkBooking "editing" "p1" "2026-11-20" ""
                               (mkDetails "Mona" "m@x.org" "" "" "A cut" ""))
                    false false false "20/11/2026" "") [] 0)
              (JObject [("success", JBool true)]) [ClickBack]
              eq_refl eq_refl eq_refl eq_refl eq_refl eq_refl)
    as (_ & _ & _ & H).
  destruct (H eq_refl) as [_ H3]. exact H3.
Defined.

End WizardRuns.

(* ================================================================== *)
(** * The calendar grid *)

Section GridFacts.
Import JS Picker Grid Spec SpecGrid.

Lemma all_from_spec p fuel : forall z,
  all_from p fuel z = true ->
  forall i, z <= i < z + Z.of_nat fuel -> p i = true.
Proof.
  induction fuel as [|k IH]; intros z H i Hi.
  - simpl in Hi. lia.
  - simpl in H. apply andb_true_iff in H as [Hz Hk].
    destruct (Z.eq_dec i z) as [->|Hne]; [exact Hz|].
    apply (IH (z + 1) Hk). lia.
Qed.

(** Every day of an era is a day of its month (by evaluation). *)
Lemma len_era : all_from len_check (Z.to_nat 146097) 0 = true.
Proof. vm_cast_no_check (eq_refl true). Qed.

Lemma leap_period y e : leap (y + e * 400) = leap y.
Proof.
  unfold leap.
  replace ((y + e * 400) mod 4) with (y mod 4)
    by (replace (y + e * 400) with (y + (e * 100) * 4) by lia;
        symmetry; apply Z_mod_plus_full).
  replace ((y + e * 400) mod 100) with (y mod 100)
    by (replace (y + e * 400) with (y + (e * 4) * 100) by lia;
        symmetry; apply Z_mod_plus_full).
  rewrite Z_mod_plus_full. reflexivity.
Qed.

Lemma daysIn_period y e m : daysIn (y + e * 400) m = daysIn y m.
Proof. unfold daysIn. rewrite leap_period. reflexivity. Qed.

Lemma daysIn_range y m : 28 <= daysIn y m <= 31.
Proof.
  unfold daysIn. destruct (m =? 2); [destruct (leap y); lia|].
  destruct ((m =? 4) || (m =? 6) || (m =? 9) || (m =? 11)); lia.
Qed.

(** The day of month of a day number is a day of its month. *)
Lemma civil_day_in_month n :
  let '(y, m, d) := civil_from_days n in d <= daysIn y m.
Proof.
  unfold civil_from_days. cbv zeta.
  pose proof (Z.mod_pos_bound (n + 719468) 146097 ltac:(lia)) as Hb.
  assert (Hc : len_check ((n + 719468) mod 146097) = true).
  { apply (all_from_spec _ _ 0 len_era). rewrite Z2Nat.id; lia. }
  unfold len_check in Hc.
  destruct (civil_of_doe ((n + 719468) mod 146097)) as [[yoe m] d].
  apply Z.leb_le in Hc.
  destruct (m <=? 2).
  - replace (yoe + (n + 719468) / 146097 * 400 + 1)
      with (yoe + 1 + (n + 719468) / 146097 * 400) by lia.
    rewrite daysIn_period. exact Hc.
  - rewrite daysIn_period. exact Hc.
Qed.

Lemma firstOf_civil y m :
  1 <= m <= 12 -> firstOf (12 * y + m - 1) = days_from_civil y m 1.
Proof.
  intros Hm. unfold firstOf, MakeDay.
  replace ((12 * y + m - 1) / 12) with y
    by (apply (Z.div_unique _ 12 y (m - 1)); lia).
  replace ((12 * y + m - 1) mod 12) with (m - 1)
    by (apply (Z.mod_unique _ 12 y (m - 1)); lia).
  replace (0 + y) with y by lia. replace (m - 1 + 1) with m by lia. lia.
Qed.

Lemma div_step r k :
  0 < k -> r / k - (r - 1) / k = if r mod k =? 0 then 1 else 0.
Proof.
  intros Hk.
  pose proof (Z.div_mod r k ltac:(lia)) as Hr.
  pose proof (Z.mod_pos_bound r k Hk) as Hb.
  destruct (Z.eqb_spec (r mod k) 0) as [E|E].
  - replace ((r - 1) / k) with (r / k - 1)
      by (apply (Z.div_unique _ k (r / k - 1) (k - 1)); lia).
    lia.
  - replace ((r - 1) / k) with (r / k)
      by (apply (Z.div_unique _ k (r / k) (r mod k - 1)); lia).
    lia.
Qed.

(** February: from the 1st of February to the 1st of March. *)
Lemma february_length y : days_from_civil y 3 1 - days_from_civil y 2 1 = daysIn y 2.
Proof.
  unfold days_from_civil, daysIn.
  cbn [Z.leb Z.ltb Z.eqb Z.compare Pos.compare Pos.compare_cont Pos.eqb
           orb Z.add Pos.add Pos.succ]; cbv zeta; month_offsets.
  unfold leap.
  pose proof (Z.div_mod y 400 ltac:(lia)) as Hy.
  pose proof (Z.mod_pos_bound y 400 ltac:(lia)) as Hr.
  set (e := y / 400) in *. set (r := y mod 400) in *.
  assert (H4 : y mod 4 = r mod 4).
  { rewrite Hy. replace (400 * e + r) with (r + (100 * e) * 4) by lia.
    apply Z_mod_plus_full. }
  assert (H100 : y mod 100 = r mod 100).
  { rewrite Hy. replace (400 * e + r) with (r + (4 * e) * 100) by lia.
    apply Z_mod_plus_full. }
  rewrite H4, H100.
  replace (y - e * 400) with r by lia.
  destruct (Z.eq_dec r 0) as [E0|E0].
  - replace ((y - 1) / 400) with (e - 1)
      by (apply (Z.div_unique _ 400 (e - 1) 399); lia).
    replace (y - 1 - (e - 1) * 400) with 399 by lia.
    rewrite E0. cbn. lia.
  - replace ((y - 1) / 400) with e
      by (apply (Z.div_unique _ 400 e (r - 1)); lia).
    replace (y - 1 - e * 400) with (r - 1) by lia.
    assert (H25 : r mod 100 = 0 -> r mod 4 = 0).
    { intros E. pose proof (Z.div_mod r 100 ltac:(lia)) as Hd.
      rewrite E in Hd. rewrite Hd.
      replace (100 * (r / 100) + 0) with ((25 * (r / 100)) * 4) by lia.
      apply Z_mod_mult. }
    pose proof (div_step r 4 ltac:(lia)) as D4.
    pose proof (div_step r 100 ltac:(lia)) as D100.
    destruct (Z.eqb_spec (r mod 4) 0), (Z.eqb_spec (r mod 100) 0),
      (Z.eqb_spec r 0); cbn [andb orb negb]; lia.
Qed.

(** From the first of a month to the first of the next it is the days of
    the month. *)
Lemma month_length y m :
  1 <= m <= 12 ->
  firstOf (12 * y + m) - firstOf (12 * y + m - 1) = daysIn y m.
Proof.
  intros Hm. rewrite (firstOf_civil y m Hm).
  destruct (Z.eq_dec m 12) as [->|Hne].
  - replace (12 * y + 12) with (12 * (y + 1) + 1 - 1) by lia.
    rewrite firstOf_civil by lia.
    unfold days_from_civil, daysIn. cbn [Z.leb Z.ltb Z.eqb Z.compare
      Pos.compare Pos.compare_cont Pos.eqb orb]. cbv zeta.
    replace (y + 1 - 1) with y by lia. month_offsets. lia.
  - replace (12 * y + m) with (12 * y + (m + 1) - 1) by lia.
    rewrite firstOf_civil by lia.
    assert (Hc : m = 1 \/ m = 2 \/ m = 3 \/ m = 4 \/ m = 5 \/ m = 6
                 \/ m = 7 \/ m = 8 \/ m = 9 \/ m = 10 \/ m = 11) by lia.
    destruct (Z.eq_dec m 2) as [->|Hfeb]; [apply february_length|].
    unfold days_from_civil, daysIn.
    destruct Hc as [->|[->|[->|[->|[->|[->|[->|[->|[->|[->| ->]]]]]]]]]];
      cbn [Z.leb Z.ltb Z.eqb Z.compare Pos.compare Pos.compare_cont Pos.eqb
           orb Z.add Pos.add Pos.succ]; cbv zeta; month_offsets; lia.
Qed.

Lemma firstOf_next k : firstOf k < firstOf (k + 1).
Proof.
  pose proof (Z.mod_pos_bound k 12 ltac:(lia)) as Hr.
  pose proof (Z.div_mod k 12 ltac:(lia)) as Hk.
  pose proof (month_length (k / 12) (k mod 12 + 1) ltac:(lia)) as H.
  pose proof (daysIn_range (k / 12) (k mod 12 + 1)) as Hd.
  replace (12 * (k / 12) + (k mod 12 + 1)) with (k + 1) in H by lia.
  replace (k + 1 - 1) with k in H by lia. lia.
Qed.

Lemma firstOf_increasing a b : a < b -> firstOf a < firstOf b.
Proof.
  intros H.
  assert (Hn : forall n : nat, firstOf a < firstOf (a + 1 + Z.of_nat n)).
  { induction n as [|n IH].
    - replace (a + 1 + Z.of_nat 0) with (a + 1) by lia. apply firstOf_next.
    - replace (a + 1 + Z.of_nat (S n)) with (a + 1 + Z.of_nat n + 1) by lia.
      pose proof (firstOf_next (a + 1 + Z.of_nat n)). lia. }
  specialize (Hn (Z.to_nat (b - a - 1))).
  replace (a + 1 + Z.of_nat (Z.to_nat (b - a - 1))) with b in Hn by lia.
  exact Hn.
Qed.

(** The other direction of the calendar round trip: a day of a month has
    the day number of that date. *)
Lemma civil_of_days_from_civil y m d :
  1 <= m <= 12 -> 1 <= d <= daysIn y m ->
  civil_from_days (days_from_civil y m d) = (y, m, d).
Proof.
  intros Hm Hd.
  pose proof (civil_roundtrip (days_from_civil y m d)) as Hr.
  pose proof (civil_day_in_month (days_from_civil y m d)) as Hl.
  destruct (civil_from_days (days_from_civil y m d)) as [[y2 m2] d2].
  destruct Hr as (Hn & Hm2 & Hd2).
  rewrite (days_from_civil_day y2 m2 d2) in Hn.
  rewrite (days_from_civil_day y m d) in Hn.
  rewrite <- (firstOf_civil y m Hm), <- (firstOf_civil y2 m2 Hm2) in Hn.
  pose proof (month_length y m Hm) as L1.
  pose proof (month_length y2 m2 Hm2) as L2.
  assert (Hk : 12 * y + m - 1 = 12 * y2 + m2 - 1).
  { destruct (Z.lt_trichotomy (12 * y + m - 1) (12 * y2 + m2 - 1))
      as [Hlt|[He|Hgt]]; [|exact He|].
    - assert (Hle : firstOf (12 * y + m) <= firstOf (12 * y2 + m2 - 1)).
      { destruct (Z.eq_dec (12 * y + m) (12 * y2 + m2 - 1)) as [->|Hne];
          [lia|]. apply Z.lt_le_incl, firstOf_increasing. lia. }
      lia.
    - assert (Hle : firstOf (12 * y2 + m2) <= firstOf (12 * y + m - 1)).
      { destruct (Z.eq_dec (12 * y2 + m2) (12 * y + m - 1)) as [->|Hne];
          [lia|]. apply Z.lt_le_incl, firstOf_increasing. lia. }
      lia. }
  assert (y2 = y) by lia. assert (m2 = m) by lia. subst y2 m2.
  f_equal. lia.
Qed.

Lemma MakeDay_firstOf y k d : MakeDay y k d = firstOf (12 * y + k) + d - 1.
Proof.
  unfold firstOf, MakeDay.
  replace (12 * y + k) with (y * 12 + k) by lia.
  rewrite Z.div_add_l by lia.
  replace (y * 12 + k) with (k + y * 12) by lia.
  rewrite Z_mod_plus_full. replace (0 + (y + k / 12)) with (y + k / 12) by lia.
  lia.
Qed.

(** The date of [MakeDay] on a day of the month. *)
Lemma MakeDay_date y m d :
  0 <= m <= 11 -> 1 <= d <= daysIn y (m + 1) ->
  civil_from_days (MakeDay y m d) = (y, m + 1, d).
Proof.
  intros Hm Hd. replace m with (m + 1 - 1) at 1 by lia.
  rewrite MakeDay_civil by lia.
  apply civil_of_days_from_civil; [lia|exact Hd].
Qed.

(** Day 0 of the next month is the last day of the month. *)
Lemma MakeDay_last y m :
  0 <= m <= 11 -> MakeDay y (m + 1) 0 = MakeDay y m (daysIn y (m + 1)).
Proof.
  intros Hm. rewrite !MakeDay_firstOf.
  pose proof (month_length y (m + 1) ltac:(lia)) as H.
  replace (12 * y + (m + 1) - 1) with (12 * y + m) in H by lia.
  replace (12 * y + (m + 1)) with (12 * y + (m + 1)) in H by lia. lia.
Qed.

Lemma newDate_MakeDay y m d :
  100 <= y ->
  newDate (Int y) (Int m) (Int d) = DateAt (MakeDay y m d * msPerDay).
Proof.
  intros Hy. unfold newDate.
  replace ((0 <=? y) && (y <=? 99)) with false
    by (symmetry; apply andb_false_iff; right; apply Z.leb_gt; lia).
  unfold MakeDate. f_equal. lia.
Qed.

Lemma arrayFrom_blank (A : Type) n :
  arrayFrom (Int n) (fun _ => @None A) = repeat None (Z.to_nat n).
Proof.
  unfold arrayFrom. generalize 0%nat.
  induction (Z.to_nat n) as [|k IH]; intros a; [reflexivity|].
  cbn [seq map repeat]. rewrite IH. reflexivity.
Qed.

Lemma arrayFrom_days n :
  arrayFrom (Int n) (fun i => Some (i + 1)) = map Some (upto n).
Proof. unfold arrayFrom, upto. rewrite map_map. reflexivity. Qed.

Lemma upto_In n d : In d (upto n) <-> 1 <= d <= n.
Proof.
  unfold upto. rewrite in_map_iff. split.
  - intros (i & <- & Hi). apply in_seq in Hi. lia.
  - intros Hd. exists (Z.to_nat (d - 1)). split; [lia|].
    apply in_seq. lia.
Qed.

(** The fields of the date of a cell of the month. *)
Lemma cell_fields st y m d :
  selectedYear st = Int y -> selectedMonth st = Int m ->
  100 <= y -> 0 <= m <= 11 -> 1 <= d <= daysIn y (m + 1) ->
  dayDate st d = DateAt ((firstOf (12 * y + m) + d - 1) * msPerDay)
  /\ getFullYear (dayDate st d) = Int y
  /\ getMonth (dayDate st d) = Int m
  /\ getDate (dayDate st d) = Int d.
Proof.
  intros Ey Em Hy Hm Hd. unfold dayDate. rewrite Ey, Em.
  rewrite newDate_MakeDay by exact Hy.
  pose proof (MakeDay_date y m d Hm Hd) as Hc.
  split; [rewrite MakeDay_firstOf; reflexivity|].
  unfold getFullYear, getMonth, getDate, YearFromTime, MonthFromTime,
    DateFromTime.
  rewrite Day_midnight, Hc.
  repeat split. f_equal. lia.
Qed.

Lemma isSelected_iff st y m t d :
  selectedYear st = Int y -> selectedMonth st = Int m ->
  selectedDate st = DateAt t ->
  0 <= m <= 11 -> 1 <= d <= daysIn y (m + 1) ->
  isSelected st d = true <-> Day t = firstOf (12 * y + m) + d - 1.
Proof.
  intros Ey Em Et Hm Hd. unfold isSelected. rewrite Ey, Em, Et.
  unfold getFullYear, getMonth, getDate, YearFromTime, MonthFromTime,
    DateFromTime, strict_eq.
  pose proof (MakeDay_date y m d Hm Hd) as Hc.
  rewrite MakeDay_firstOf in Hc.
  split.
  - intros H. apply civil_from_days_inj. rewrite Hc.
    destruct (civil_from_days (Day t)) as [[y2 m2] d2].
    apply andb_true_iff in H as [H H3]. apply andb_true_iff in H as [H1 H2].
    apply Z.eqb_eq in H1, H2, H3. f_equal; [f_equal|]; lia.
  - intros ->. rewrite Hc.
    rewrite !Z.eqb_refl. replace (m + 1 - 1 =? m) with true
      by (symmetry; apply Z.eqb_eq; lia).
    reflexivity.
Qed.

(** The day cells of the years 100 .. 275759 are within the range of
    Date. *)
Lemma cell_in_range y m d :
  100 <= y <= 275759 -> 0 <= m <= 11 -> 1 <= d <= daysIn y (m + 1) ->
  inDateRange (firstOf (12 * y + m) + d - 1).
Proof.
  intros Hy Hm Hd. pose proof (daysIn_range y (m + 1)) as Hn.
  replace (firstOf (12 * y + m) + d - 1) with (days_from_civil y (m + 1) d).
  - apply days_from_civil_range; lia.
  - rewrite <- (MakeDay_firstOf y m d).
    replace m with (m + 1 - 1) at 2 by lia.
    symmetry. apply MakeDay_civil. lia.
Qed.

(** X23: the calendar grid of a displayed month (year 100 .. 275759,
    month index 0..11).  [getDaysInMonth] is the number of days the month
    has in the Gregorian calendar, 28 to 31; [getFirstDayOfMonth] is a
    column 0..6; the grid is that many blank cells followed by the days
    1, 2, ... of the month, so a day is in it exactly when it is a day of
    the month; and the date of every day cell is a Date within the range
    of Date, that day of the displayed month and year, on the weekday of
    the column the cell is in. *)
Theorem X23_calendar_grid st y m :
  selectedYear st = Int y -> selectedMonth st = Int m ->
  100 <= y <= 275759 -> 0 <= m <= 11 ->
  let n := daysIn y (m + 1) in
  getDaysInMonth (Int m) (Int y) = Int n
  /\ 28 <= n <= 31
  /\ exists f,
       0 <= f <= 6
       /\ getFirstDayOfMonth (Int m) (Int y) = Int f
       /\ days st = repeat None (Z.to_nat f) ++ map Some (upto n)
       /\ (forall d, In (Some d) (days st) <-> 1 <= d <= n)
       /\ (forall d, 1 <= d <= n ->
             dateInRange (dayDate st d)
             /\ getFullYear (dayDate st d) = Int y
             /\ getMonth (dayDate st d) = Int m
             /\ getDate (dayDate st d) = Int d
             /\ getDay (dayDate st d) = Int ((f + d - 1) mod 7)).
Proof.
  intros Ey Em Hyr Hm. cbv zeta.
  assert (Hy : 100 <= y) by lia.
  pose proof (daysIn_range y (m + 1)) as Hn.
  assert (Hlen : getDaysInMonth (Int m) (Int y) = Int (daysIn y (m + 1))).
  { unfold getDaysInMonth. cbn [add].
    rewrite newDate_MakeDay by exact Hy.
    unfold getDate, DateFromTime. rewrite Day_midnight.
    rewrite MakeDay_last by exact Hm.
    rewrite MakeDay_date by lia. reflexivity. }
  assert (Hfirst : getFirstDayOfMonth (Int m) (Int y)
                   = Int ((firstOf (12 * y + m) + 4) mod 7)).
  { unfold getFirstDayOfMonth. rewrite newDate_MakeDay by exact Hy.
    unfold getDay, WeekDay. rewrite Day_midnight, MakeDay_firstOf.
    do 2 f_equal. lia. }
  split; [exact Hlen|]. split; [exact Hn|].
  exists ((firstOf (12 * y + m) + 4) mod 7).
  pose proof (Z.mod_pos_bound (firstOf (12 * y + m) + 4) 7 ltac:(lia)) as Hf.
  assert (Hdays : days st
                  = repeat None (Z.to_nat ((firstOf (12 * y + m) + 4) mod 7))
                    ++ map Some (upto (daysIn y (m + 1)))).
  { unfold days. cbv zeta. rewrite Ey, Em, Hlen, Hfirst.
    rewrite arrayFrom_blank, arrayFrom_days. reflexivity. }
  split; [lia|]. split; [exact Hfirst|]. split; [exact Hdays|]. split.
  - intros d. rewrite Hdays, in_app_iff. split.
    + intros [H|H].
      * apply repeat_spec in H. discriminate.
      * apply in_map_iff in H as (d' & E & H). injection E as ->.
        apply upto_In, H.
    + intros H. right. apply in_map, upto_In, H.
  - intros d Hd.
    destruct (cell_fields st y m d Ey Em Hy Hm Hd) as (Hc & H1 & H2 & H3).
    split.
    { eexists. split; [exact Hc|]. rewrite Day_midnight.
      apply cell_in_range; assumption. }
    split; [exact H1|]. split; [exact H2|]. split; [exact H3|].
    rewrite Hc. unfold getDay, WeekDay. rewrite Day_midnight. f_equal.
    replace (firstOf (12 * y + m) + d - 1 + 4)
      with (firstOf (12 * y + m) + 4 + (d - 1)) by lia.
    replace ((firstOf (12 * y + m) + 4) mod 7 + d - 1)
      with ((firstOf (12 * y + m) + 4) mod 7 + (d - 1)) by lia.
    symmetry. apply Zplus_mod_idemp_l.
Qed.

Lemma X23_calendar_grid_witness :
  getDaysInMonth (Int 1) (Int 2024) = Int 29
  /\ days (mkState DateMode (DateAt 0) (Int 1) (Int 2024) "09:00")
     = repeat None 4 ++ map Some (upto 29).
Proof.
  destruct (X23_calendar_grid
              (mkState DateMode (DateAt 0) (Int 1) (Int 2024) "09:00")
              2024 1 eq_refl eq_refl ltac:(lia) ltac:(lia))
    as (H1 & _ & f & _ & Hf & H2 & _).
  split; [exact H1|].
  rewrite H2. vm_compute in Hf. injection Hf as <-. reflexivity.
Defined.

(** X24: the cells of the grid of a displayed month (year 100 .. 275759,
    month index 0..11) with a valid selected date.  A day cell is
    disabled, and greyed, exactly when its day is before today, so these
    cells are the first ones of the month; a cell is highlighted exactly
    when the selected date falls on its day and that day is not before
    today, so at most one is; and a click on an enabled cell leaves that
    cell, and no other, highlighted. *)
Theorem X24_calendar_cells now st y m t :
  selectedYear st = Int y -> selectedMonth st = Int m ->
  selectedDate st = DateAt t ->
  100 <= y <= 275759 -> 0 <= m <= 11 ->
  let n := daysIn y (m + 1) in
  let first := firstOf (12 * y + m) in
  (forall d, 1 <= d <= n ->
     (isPast now st d = true <-> first + d - 1 < Day now)
     /\ (look now st d = Greyed <-> first + d - 1 < Day now)
     /\ (look now st d = Highlighted
         <-> Day t = first + d - 1 /\ Day now <= Day t))
  /\ (forall d d', 1 <= d <= d' -> d' <= n ->
        look now st d' = Greyed -> look now st d = Greyed)
  /\ (forall d d', 1 <= d <= n -> 1 <= d' <= n ->
        look now st d = Highlighted -> look now st d' = Highlighted ->
        d = d')
  /\ (forall d d', 1 <= d <= n -> 1 <= d' <= n ->
        isPast now st d = false ->
        (look now (clickDay now d st) d' = Highlighted <-> d' = d)).
Proof.
  intros Ey Em Et Hyr Hm. cbv zeta.
  assert (Hy : 100 <= y) by lia.
  assert (Hpast : forall s, selectedYear s = Int y ->
            selectedMonth s = Int m ->
            forall d, 1 <= d <= daysIn y (m + 1) ->
            isPast now s d = (firstOf (12 * y + m) + d - 1 <? Day now)).
  { intros s Esy Esm d Hd.
    destruct (cell_fields s y m d Esy Esm Hy Hm Hd) as (Hc & _).
    unfold isPast. rewrite Hc, isPastDate_valid, Day_midnight.
    reflexivity. }
  assert (Hlook : forall s u, selectedYear s = Int y ->
            selectedMonth s = Int m -> selectedDate s = DateAt u ->
            forall d, 1 <= d <= daysIn y (m + 1) ->
            (look now s d = Greyed
             <-> firstOf (12 * y + m) + d - 1 < Day now)
            /\ (look now s d = Highlighted
                <-> Day u = firstOf (12 * y + m) + d - 1
                    /\ Day now <= Day u)).
  { intros s u Esy Esm Esd d Hd. unfold look.
    rewrite (Hpast s Esy Esm d Hd).
    pose proof (isSelected_iff s y m u d Esy Esm Esd Hm Hd) as Hsel.
    destruct (Z.ltb_spec (firstOf (12 * y + m) + d - 1) (Day now))
      as [Hlt|Hge].
    - split; [split; [intros _; exact Hlt|reflexivity]|].
      split; [discriminate|]. intros [H1 H2]. lia.
    - destruct (isSelected s d) eqn:Es.
      + split; [split; [discriminate|lia]|].
        split; [|reflexivity]. intros _.
        assert (Hu : Day u = firstOf (12 * y + m) + d - 1)
          by (apply Hsel; reflexivity).
        split; [exact Hu|lia].
      + split; [split; [discriminate|lia]|].
        split; [discriminate|]. intros [H1 _].
        apply Hsel in H1. discriminate H1. } 
  split; [|split; [|split]].
  - intros d Hd. split.
    + rewrite (Hpast st Ey Em d Hd). apply Z.ltb_lt.
    + apply (Hlook st t Ey Em Et d Hd).
  - intros d d' Hd Hd' H.
    apply (Hlook st t Ey Em Et d' ltac:(lia)) in H.
    apply (Hlook st t Ey Em Et d ltac:(lia)). lia.
  - intros d d' Hd Hd' H H'.
    apply (Hlook st t Ey Em Et d Hd) in H.
    apply (Hlook st t Ey Em Et d' Hd') in H'. lia.
  - intros d d' Hd Hd' Hen.
    destruct (cell_fields st y m d Ey Em Hy Hm Hd) as (Hc & _).
    assert (Hclick : clickDay now d st
                     = setSelectedDate (dayDate st d) st).
    { unfold clickDay. rewrite Hen. unfold selectDate. cbv zeta.
      unfold isPast, dayDate in Hen. rewrite Hen. reflexivity. }
    rewrite Hclick, Hc.
    destruct (Hlook
                (setSelectedDate
                   (DateAt ((firstOf (12 * y + m) + d - 1) * msPerDay)) st)
                ((firstOf (12 * y + m) + d - 1) * msPerDay)
                Ey Em eq_refl d' Hd') as (_ & Hh).
    rewrite Hh, Day_midnight.
    rewrite (Hpast st Ey Em d Hd) in Hen. apply Z.ltb_ge in Hen.
    split; [intros [H _]; lia|intros ->; split; [reflexivity|exact Hen]].
Qed.

Lemma X24_calendar_cells_witness :
  look 1700000000000
    (mkState DateMode (DateAt 1700000000000) (Int 10) (Int 2023) "09:00")
    13 = Greyed
  /\ look 1700000000000
       (mkState DateMode (DateAt 1700000000000) (Int 10) (Int 2023) "09:00")
       14 = Highlighted.
Proof.
  destruct (X24_calendar_cells 1700000000000
              (mkState DateMode (DateAt 1700000000000) (Int 10) (Int 2023)
                 "09:00")
              2023 10 1700000000000 eq_refl eq_refl eq_refl
              ltac:(lia) ltac:(lia)) as (H & _).
  split.
  - destruct (H 13) as (_ & [_ Hp] & _); [vm_compute; split; discriminate|].
    apply Hp. vm_compute. reflexivity.
  - destruct (H 14) as (_ & _ & [_ Hp]); [vm_compute; split; discriminate|].
    apply Hp. vm_compute. split; [reflexivity|discriminate].
Defined.

End GridFacts.
